(* ===== verification/_CoqProject ===== *)
-Q . S2P
Prelude.v
PyStr.v
PyVal.v
Url.v
Net.v
Json.v
Base64.v
Fetcher.v
Keychain.v
UrlRequest.v
FetchJSON.v
Exchange.v
Pipeline.v
