(* ===== verification/Prelude.v ===== *)
(** * A verification development of the captive-web-view fetch bridge

    The program is [src/harness/command_handler/fetch.py], the HTTPS
    fetch back end of the bridge's Python server.  It has two classes.

    - [Fetcher]: [__init__] exports the macOS system keychains into a
      temporary PEM file ([keychain_PEM]) and loads it into an SSL
      context.  [fetch(parameters, httpHandler)] runs the pipeline
      [_parse_resource] (resource to URL and port), [_connect]
      (HTTPSConnection and TLS handshake), [get_peer_certificate] (DER
      bytes, base64 text, length, logged SHA-1 thumbprint), [_request]
      (request line, headers, body; status, reason, headers, body),
      [close()], the status test, [_parse_JSON], the [openssl]
      cross-check [openssl_thumbprint], and builds its result with the
      closure [return_], which reads three local variables when called.
    - [FetchCommandHandler.__call__] routes a command object to [fetch]
      when its command is ["fetch"].

    ** Files, in dependency order

    - [Prelude] (this file): the state and exception monad [M], its
      notation [let* x := m in k] in [py_scope], its laws; the error
      monad's bind [mlet x := m in k] for the pure prefix of a method;
      four compositional properties of a computation over a trace of
      events, each with its combinator lemmas: [framed] (the run from
      any trace is the run from the empty trace, shifted),
      [returns_only P] (every returned value satisfies [P]),
      [raises_only Q] (every raised exception satisfies [Q]) and
      [emits_only P] (every appended event satisfies [P]); the generic
      tactic [solve_m] that proves any of them through binds, [try]
      blocks and branches; the tactics [mstep], [stage] and
      [split_stage] that run a computation stage by stage; the hint
      databases [pyfetch] and [pyrw].
    - [PyStr]: the [str] methods the code and its libraries use
      ([startswith], [find], [partition], [lower], [capitalize],
      [strip], [isdigit], [splitlines], [repr], [str] of an integer,
      UTF-8 encoding, strict decoding and decoding with replacement,
      which is the identity on well-formed input) over [String.string]
      holding UTF-8 bytes.
    - [PyVal]: Python values, exceptions as an inductive type,
      insertion-ordered dictionaries ([d[k]], [d[k] = v], [k in d],
      [dict(pairs)]) with their laws, [str] and [repr] of values.
    - [Url]: [urllib.parse.urlparse] and the [hostname] and [port]
      attributes of its result, after Python 3.11's [urllib/parse.py];
      a host name is never empty and a port is in 0-65535.
    - [Net]: the environment as a [world] (handshake, server response
      to the request actually sent or the transport error,
      [subprocess.run], the recursion left to the handler), the
      [http.client] connection with its header validation and its state
      machine [Idle -> Request-started -> Request-sent -> Idle], and the
      trace of observable [event]s; [getresponse] closes the connection
      itself on a [ConnectionError] and when the response will close;
      which events each request operation emits; that every request operation keeps the connection's host
      and port and that [getresponse] answers with the world's response
      to a request on them.
    - [Json]: [json.dumps] (default separators, [ensure_ascii]) and
      [json.loads] with CPython's scanner: its error messages and their
      line and column, the integer digit limit, the recursion limit.
    - [Base64]: [base64.b64encode], its length, its inverse and the
      round trip [b64decode (b64encode bs) = Some bs] (the bit
      operations of a group turned into arithmetic on [Z]); SHA-1
      ([hashlib.sha1(...).hexdigest()]) on 32-bit words kept as [Z]
      with their wrap-around written out.
    - [Fetcher]: the methods of [fetch.py] the pipeline runs, one
      definition per method ([fetch] is split at the connection into
      [fetch] and [fetch_exchange]), [FetchCommandHandler.__call__] as
      [handler_call], the properties of the pipeline and concrete runs
      on a demonstration world.
    - [Keychain]: [keychain_PEM] and [__init__] (module [Keychain]),
      the temporary file as a record threaded through the loop, its read
      back with universal newlines, the certificate count, and PEM
      bundles (RFC 7468) to say what the count counts.
    - [UrlRequest]: the parts of [urllib.request.Request] that
      [fetch_JSON] uses: URL unwrapping, splitting and unquoting, the
      [data] setter (which drops a stale [Content-length]), [method],
      [add_header], [has_header], [remove_header], [header_items].
    - [FetchJSON]: the dead method [fetch_JSON] (module [FetchJSON]).
    - [Exchange]: what [_request] writes on the connection, event by
      event, for concrete parameter shapes; proved by running the
      request symbolically with the tactic [run_cases].
    - [Pipeline]: the design's orchestrator as a state machine, an
      inductive step relation whose states carry the accumulated
      certificate fields and raw body, and [fetch] as a refinement of
      it.

    ** Effects

    Every operation that touches the network, the log or a program runs
    in [M (list event) pyexc A = list event -> outcome pyexc A * list
    event]: the state is the trace of observable events (log lines, TLS
    handshake, certificate reads, request lines, headers, body, response,
    close, program runs), the error type is Python's exceptions, and
    [try]/[except] is [catch] with a handler that selects the exceptions
    it handles.  Ordering properties (the certificate is read before the
    request, the connection is closed before returning) are statements
    about the trace.  The late-binding closure [return_] is a function of
    the three local variables' values at the call, which is what late
    binding gives.  Code before a method's first effect (the request
    [fetch_JSON] builds) is a function into [pyexc + A].

    ** What the theorems show

    - [Fetcher]: no request byte is sent before the certificate is read
      (C2); capturing the certificate cannot fail, so after a successful
      handshake the run always reaches the request stage (C12); the
      result on every branch: success (C4), status 400 or more (C6),
      JSON parse error (C9), handshake failure (C11); every returned
      value is a result envelope (C17), its certificate text decodes
      back to the DER bytes the handshake received (C5, a round trip
      through [Base64]), and the connection is closed whenever a value
      is returned after the certificate read (C15).  The divergences
      from the spec, proved: a missing resource or host raises instead
      of returning an envelope (C1), a [null] body is a failure (C7), a
      body nested deeper than the recursion left raises [RecursionError]
      out of [fetch] (C10), an empty body is fetched as [''] (C18), an
      exception in the exchange skips [fetch]'s own [close()], the
      connection being closed only by [http.client] inside
      [getresponse] (C16), a failing [openssl] cross-check gates the
      result (C19), the scheme is never checked (C29).  Also: exactly
      when [_parse_resource] gives a target, and which (C24), the
      handler's routing (C25), the PEM extraction loop equals a
      reference definition (C26), and [_parse_JSON] always terminates
      with one of its four outcomes (C27).  The body [_request] returns
      is the server's body decoded as UTF-8, so it encodes back to those
      bytes ([_request_returns]); the only close in a request stage is
      [getresponse]'s, as its last event ([_request_closes_last]).
    - [Exchange]: a request with a [bodyObject] writes exactly the
      request line, [Host], [Accept-Encoding], [Content-Type:
      application/json] and the UTF-8 bytes of [json.dumps] of the
      object, then sends and reads the response, and the server receives
      exactly that request (C13); a request with no options is a bare
      [GET] with no body (C14); in both the connection is closed after
      the response only when the response will close.
    - [Pipeline]: every value [fetch] returns is the envelope of a
      result the design's state machine reaches (C3, a refinement); the
      machine's own invariant, by rule induction: once captured, the
      certificate fields are those of the handshake's certificate, and
      the raw body, once read, is the world's answer to a request on the
      target's host and port; with the refinement this gives the round
      trip of [fetchedRaw]: its UTF-8 bytes are the server's body (C8).
    - [Keychain]: the bundle is the two exports in order whatever their
      status (C21), [__init__] succeeds exactly when OpenSSL accepts the
      bundle (C20), and the count it logs is the number of certificates
      of a PEM bundle, text lines that mention [BEGIN CERTIFICATE]
      excluded (C28).
    - [FetchJSON]: [fetch_JSON] never returns a value (C22); after a
      successful handshake it raises [KeyError('status')] with its
      whole trace (C23).

    Every theorem with hypotheses has a witness that applies it to a
    concrete run of [demo_world] (or a variant) evaluated by
    [vm_compute].

    ** Fuel

    [json.loads] is a fuel-bounded mutual recursion ([Json.scan_once]);
    [loads] gives it [2 * length + 1], and [Json.scan_fuel_enough]
    proves that this is always enough: each nested value consumes at
    least one character, so the scanner never runs out of fuel.
    Python's recursion limit is not fuel but behaviour: every object
    and array enters one level of the recursion the world's
    [recursion_headroom] leaves, and the scanner raises [RecursionError]
    beyond it, as [Py_EnterRecursiveCall] does.  SHA-1's block loop
    gets the number of words as fuel, enough for its sixteen-word steps;
    [PyStr.strip] removes at most one character per step of its fuel,
    the length of the text.

    ** Not modelled

    The TLS protocol and X.509 validation (the world's handshake stands
    for them); what OpenSSL accepts in [load_verify_locations] (a
    parameter); the [security] and [openssl] programs (the world's
    [run]); [CommandHandler.parseCommandObject] of the base class (not
    under [src/], a parameter of [handler_call]); what
    [str(connection.sock)] and [dir(connection)] print in [fetch_JSON]
    (parameters); logging's formatting beyond the messages' text; JSON
    floating-point literals, which [loads] keeps as their text; case
    mapping outside ASCII in [lower] and [capitalize]; the depth of
    the interpreter's stack when the handler runs (the world's
    [recursion_headroom]); [json.dumps]'s own recursion limit; the
    latin-1 encoding [putheader] applies to header values (the model
    sends their UTF-8 bytes) and the IDNA fallback of the [Host]
    header.  Parameters are
    values decoded from JSON, so a [bytes] resource is never passed to
    [fetch].
*)

From Stdlib Require Import ZArith String Ascii.
From stdpp Require Import base list strings option.

Declare Scope py_scope.
Delimit Scope py_scope with py.
Open Scope py_scope.

Create HintDb pyfetch.
Create Rewrite HintDb pyrw.

(** ** Outcomes and the state/exception monad *)

Inductive outcome (X A : Type) : Type :=
| Ret (a : A)
| Exc (x : X).
Arguments Ret {X A} a.
Arguments Exc {X A} x.

(** A computation over state [S] that may raise an exception of type [X]. *)
Definition M (S X A : Type) : Type := S -> outcome X A * S.

Section Monad.
Context {S X : Type}.

Definition ret {A} (a : A) : M S X A := fun s => (Ret a, s).

Definition bind {A B} (m : M S X A) (k : A -> M S X B) : M S X B :=
  fun s =>
    match m s with
    | (Ret a, s') => k a s'
    | (Exc x, s') => (Exc x, s')
    end.

Definition raise {A} (x : X) : M S X A := fun s => (Exc x, s).

Definition get_state : M S X S := fun s => (Ret s, s).

Definition modify (f : S -> S) : M S X unit := fun s => (Ret tt, f s).

(** [try m except h]: [h x] is [Some handler] for the exceptions the
    [except] clauses name, [None] for the others, which propagate. *)
Definition catch {A} (m : M S X A) (h : X -> option (M S X A)) : M S X A :=
  fun s =>
    match m s with
    | (Ret a, s') => (Ret a, s')
    | (Exc x, s') =>
        match h x with
        | Some k => k s'
        | None => (Exc x, s')
        end
    end.

(** Lift a pure fallible value. *)
Definition of_sum {A} (r : X + A) : M S X A :=
  match r with
  | inl x => raise x
  | inr a => ret a
  end.
End Monad.

Notation "'let*' x ':=' m 'in' k" := (bind m (fun x => k))
  (at level 100, x name, m at next level, right associativity) : py_scope.
Notation "'let*' ' p ':=' m 'in' k" := (bind m (fun x => match x with p => k end))
  (at level 100, p pattern, m at next level, right associativity) : py_scope.

(** The bind of the error monad [X + A]: the pure fallible code of a
    function, before its first effect. *)
Definition sbind {X A B} (m : X + A) (k : A -> X + B) : X + B :=
  match m with
  | inl x => inl x
  | inr a => k a
  end.

Notation "'mlet' x ':=' m 'in' k" := (sbind m (fun x => k))
  (at level 100, x name, m at next level, right associativity) : py_scope.

(** Running a computation: its outcome and its final state. *)
Definition run {S X A} (m : M S X A) (s : S) : outcome X A * S := m s.

(** ** Monad laws *)

Section Laws.
Context {S X : Type}.

Lemma bind_ret_l {A B} (a : A) (k : A -> M S X B) s :
  bind (ret a) k s = k a s.
Proof. reflexivity. Qed.

Lemma bind_ret_r {A} (m : M S X A) s : bind m ret s = m s.
Proof. unfold bind, ret. by destruct (m s) as [[] ?]. Qed.

Lemma bind_assoc {A B C} (m : M S X A) (k : A -> M S X B)
      (k' : B -> M S X C) s :
  bind (bind m k) k' s = bind m (fun a => bind (k a) k') s.
Proof. unfold bind. by destruct (m s) as [[] ?]. Qed.

Lemma bind_raise {A B} (x : X) (k : A -> M S X B) s :
  bind (raise x) k s = (Exc x, s).
Proof. reflexivity. Qed.

(** The outcome of a bind is the continuation's when the first part returns. *)
Lemma bind_Ret {A B} (m : M S X A) (k : A -> M S X B) s a s' :
  m s = (Ret a, s') -> bind m k s = k a s'.
Proof. intros H. unfold bind. by rewrite H. Qed.

Lemma bind_Exc {A B} (m : M S X A) (k : A -> M S X B) s x s' :
  m s = (Exc x, s') -> bind m k s = (Exc x, s').
Proof. intros H. unfold bind. by rewrite H. Qed.

(** A bind whose first part ran to a known outcome. *)
Lemma bind_run {A B} (m : M S X A) (k : A -> M S X B) s o s' :
  m s = (o, s') ->
  bind m k s = match o with Ret a => k a s' | Exc x => (Exc x, s') end.
Proof. intros H. unfold bind. by rewrite H. Qed.

Lemma catch_Ret {A} (m : M S X A) h s a s' :
  m s = (Ret a, s') -> catch m h s = (Ret a, s').
Proof. intros H. unfold catch. by rewrite H. Qed.

Lemma catch_Exc_handled {A} (m : M S X A) h s x s' k :
  m s = (Exc x, s') -> h x = Some k -> catch m h s = k s'.
Proof. intros H Hh. unfold catch. by rewrite H, Hh. Qed.

Lemma catch_Exc_unhandled {A} (m : M S X A) h s x s' :
  m s = (Exc x, s') -> h x = None -> catch m h s = (Exc x, s').
Proof. intros H Hh. unfold catch. by rewrite H, Hh. Qed.
End Laws.

Lemma bind_of_sum_inl {S X A B} (x : X) (k : A -> M S X B) s :
  bind (of_sum (inl x)) k s = (Exc x, s).
Proof. reflexivity. Qed.

Lemma bind_of_sum_inr {S X A B} (a : A) (k : A -> M S X B) s :
  bind (of_sum (inr a)) k s = k a s.
Proof. reflexivity. Qed.

#[export] Hint Rewrite @bind_ret_l @bind_assoc @bind_raise @bind_of_sum_inl
  @bind_of_sum_inr : pyrw.

(** ** Traces: a computation that only appends to a list-valued state *)

Definition emit {E X} (e : E) : M (list E) X unit := modify (fun tr => tr ++ [e]).

Lemma bind_emit {E X B} (e : E) (k : unit -> M (list E) X B) tr :
  bind (emit (X := X) e) k tr = k tt (tr ++ [e]).
Proof. reflexivity. Qed.

#[export] Hint Rewrite @bind_emit : pyrw.

(** [m] is framed: it only appends to the trace it starts from, and what
    it returns and appends does not depend on that trace.  Every
    operation of the model is framed, so a run from any trace is the run
    from the empty trace, shifted. *)
Definition framed {E X A} (m : M (list E) X A) : Prop :=
  forall tr, m tr = (fst (m []), tr ++ snd (m [])).

Lemma framed_run {E X A} (m : M (list E) X A) tr r ext :
  framed m -> m [] = (r, ext) -> m tr = (r, tr ++ ext).
Proof. intros Hm H. by rewrite Hm, H. Qed.

Lemma framed_extends {E X A} (m : M (list E) X A) tr :
  framed m -> exists ext, snd (m tr) = tr ++ ext.
Proof. intros Hm. rewrite Hm. by eexists. Qed.

Lemma framed_keeps {E X A} (m : M (list E) X A) tr e :
  framed m -> e ∈ tr -> e ∈ snd (m tr).
Proof. intros Hm He. rewrite Hm. simpl. by apply elem_of_app; left. Qed.

Lemma ret_framed {E X A} (a : A) : framed (E := E) (X := X) (ret a).
Proof. intros tr. by rewrite app_nil_r. Qed.

Lemma raise_framed {E X A} (x : X) : framed (E := E) (A := A) (raise x).
Proof. intros tr. by rewrite app_nil_r. Qed.

Lemma emit_framed {E X} (e : E) : framed (X := X) (emit e).
Proof. intros tr. reflexivity. Qed.

Lemma bind_framed {E X A B} (m : M (list E) X A) (k : A -> M (list E) X B) :
  framed m -> (forall a, framed (k a)) -> framed (bind m k).
Proof.
  intros Hm Hk tr. unfold bind. rewrite (Hm tr), (Hm []).
  destruct (m []) as [[a|x] e1]; simpl; [|done].
  rewrite (Hk a (tr ++ e1)), (Hk a e1). simpl. by rewrite app_assoc.
Qed.

Lemma catch_framed {E X A} (m : M (list E) X A) h :
  framed m -> (forall x k, h x = Some k -> framed k) -> framed (catch m h).
Proof.
  intros Hm Hh tr. unfold catch. rewrite (Hm tr), (Hm []).
  destruct (m []) as [[a|x] e1]; simpl; [done|].
  destruct (h x) as [k|] eqn:Hx; [|done].
  rewrite (Hh x k Hx (tr ++ e1)), (Hh x k Hx e1). simpl. by rewrite app_assoc.
Qed.

#[export] Hint Resolve ret_framed raise_framed emit_framed : pyfetch.

(** Every event [m] appends satisfies [P]. *)
Definition emits_only {E X A} (P : E -> Prop) (m : M (list E) X A) : Prop :=
  forall tr, exists ext, snd (m tr) = tr ++ ext /\ Forall P ext.

Section Emits.
Context {E X : Type} (P : E -> Prop).

Lemma ret_emits {A} (a : A) : emits_only (X := X) P (ret a).
Proof. intros tr. exists []. by rewrite app_nil_r. Qed.

Lemma raise_emits {A} (x : X) : emits_only (A := A) P (raise x).
Proof. intros tr. exists []. by rewrite app_nil_r. Qed.

Lemma emit_emits (e : E) : P e -> emits_only (X := X) P (emit e).
Proof. intros He tr. exists [e]. by repeat constructor. Qed.

Lemma bind_emits {A B} (m : M (list E) X A) (k : A -> M (list E) X B) :
  emits_only P m -> (forall a, emits_only P (k a)) -> emits_only P (bind m k).
Proof.
  intros Hm Hk tr. unfold bind. destruct (Hm tr) as (e1 & He1 & F1).
  destruct (m tr) as [[a|x] tr'] eqn:Hrun; simpl in *; subst; [|by exists e1].
  destruct (Hk a (tr ++ e1)) as (e2 & He2 & F2). exists (e1 ++ e2).
  rewrite He2, app_assoc. split; [done|by apply Forall_app].
Qed.

Lemma catch_emits {A} (m : M (list E) X A) h :
  emits_only P m -> (forall x k, h x = Some k -> emits_only P k) ->
  emits_only P (catch m h).
Proof.
  intros Hm Hh tr. unfold catch. destruct (Hm tr) as (e1 & He1 & F1).
  destruct (m tr) as [[a|x] tr'] eqn:Hrun; simpl in *; subst; [by exists e1|].
  destruct (h x) as [k|] eqn:Hx; [|by exists e1].
  destruct (Hh x k Hx (tr ++ e1)) as (e2 & He2 & F2). exists (e1 ++ e2).
  rewrite He2, app_assoc. split; [done|by apply Forall_app].
Qed.
End Emits.

#[export] Hint Resolve ret_emits raise_emits emit_emits : pyfetch.

(** Every run of [m] appends a trace in the set [T]: an ordering
    property of the events one computation appends. *)
Definition emits_with {E X A} (T : list E -> Prop) (m : M (list E) X A) : Prop :=
  forall tr, exists ext, snd (m tr) = tr ++ ext /\ T ext.

Section EmitsWith.
Context {E X : Type} (T : list E -> Prop).

Lemma emits_only_with {A} (P : E -> Prop) (m : M (list E) X A) :
  (forall ext, Forall P ext -> T ext) -> emits_only P m -> emits_with T m.
Proof. intros HT Hm tr. destruct (Hm tr) as (ext & He & F). exists ext. auto. Qed.

(** [m] emits events of [P] only, and [T] is closed under such prefixes. *)
Lemma bind_emits_with_pre {A B} (P : E -> Prop) (m : M (list E) X A)
    (k : A -> M (list E) X B) :
  T [] -> (forall e1 e2, Forall P e1 -> T e2 -> T (e1 ++ e2)) ->
  emits_only P m -> (forall a, emits_with T (k a)) -> emits_with T (bind m k).
Proof.
  intros H0 Happ Hm Hk tr. unfold bind. destruct (Hm tr) as (e1 & He1 & F1).
  destruct (m tr) as [[a|x] tr'] eqn:Hrun; simpl in *; subst.
  - destruct (Hk a (tr ++ e1)) as (e2 & He2 & T2). exists (e1 ++ e2).
    rewrite He2, app_assoc. auto.
  - exists e1. split; [done|]. rewrite <- (app_nil_r e1). auto.
Qed.

(** [k] emits nothing: the trace of [bind m k] is that of [m]. *)
Lemma bind_emits_with_post {A B} (m : M (list E) X A) (k : A -> M (list E) X B) :
  emits_with T m -> (forall a, emits_only (fun _ => False) (k a)) -> emits_with T (bind m k).
Proof.
  intros Hm Hk tr. unfold bind. destruct (Hm tr) as (e1 & He1 & T1).
  destruct (m tr) as [[a|x] tr'] eqn:Hrun; simpl in *; subst; [|by exists e1].
  destruct (Hk a (tr ++ e1)) as ([|e e2] & He2 & F2); [|by inversion F2].
  exists e1. by rewrite He2, app_nil_r.
Qed.
End EmitsWith.

Lemma of_sum_emits {E X A} (P : E -> Prop) (r : X + A) : emits_only P (of_sum r).
Proof. destruct r; [apply raise_emits|apply ret_emits]. Qed.

Lemma of_sum_framed {E X A} (r : X + A) : framed (E := E) (of_sum r).
Proof. destruct r; [apply raise_framed|apply ret_framed]. Qed.

#[export] Hint Resolve of_sum_emits of_sum_framed : pyfetch.

(** A computation whose first event is [e], followed by any extension. *)
Definition starts_with {E X A} (e : E) (m : M (list E) X A) : Prop :=
  forall tr, exists ext, snd (m tr) = tr ++ e :: ext.

Lemma emit_starts_with {E X} (e : E) : starts_with (X := X) e (emit e).
Proof. intros tr. by exists []. Qed.

Lemma bind_starts_with {E X A B} (e : E) (m : M (list E) X A) (k : A -> M (list E) X B) :
  starts_with e m -> (forall a, framed (k a)) -> starts_with e (bind m k).
Proof.
  intros Hm Hk tr. unfold bind. destruct (Hm tr) as [e1 He1].
  destruct (m tr) as [[a|x] tr'] eqn:Hrun; simpl in *; subst.
  - destruct (framed_extends (k a) (tr ++ e :: e1) (Hk a)) as [e2 He2].
    exists (e1 ++ e2). by rewrite He2, <- app_assoc.
  - by exists e1.
Qed.

Lemma bind_emit_starts_with {E X B} (e : E) (k : unit -> M (list E) X B) :
  (forall a, framed (k a)) -> starts_with e (bind (emit (X := X) e) k).
Proof. intros Hk. apply bind_starts_with; [apply emit_starts_with|done]. Qed.

(** ** Postconditions on returned values *)

(** Every value [m] returns satisfies [P], whatever the state. *)
Definition returns_only {S X A} (P : A -> Prop) (m : M S X A) : Prop :=
  forall s a s', m s = (Ret a, s') -> P a.

Section Returns.
Context {S X A : Type} (P : A -> Prop).

Lemma ret_returns (a : A) : P a -> returns_only (S := S) (X := X) P (ret a).
Proof. intros Ha s a' s' [= <- _]. exact Ha. Qed.

Lemma raise_returns (x : X) : returns_only (S := S) P (raise x).
Proof. intros s a s' [=]. Qed.

Lemma bind_returns {B} (m : M S X B) (k : B -> M S X A) :
  (forall b, returns_only P (k b)) -> returns_only P (bind m k).
Proof.
  intros Hk s a s'. unfold bind. destruct (m s) as [[b|x] s1]; [apply Hk|discriminate].
Qed.

(** A bind whose continuation is only run on what [m] returns. *)
Lemma bind_returns_with {B} (Q : B -> Prop) (m : M S X B) (k : B -> M S X A) :
  returns_only Q m -> (forall b, Q b -> returns_only P (k b)) -> returns_only P (bind m k).
Proof.
  intros Hm Hk s a s'. unfold bind. destruct (m s) as [[b|x] s1] eqn:E; [|discriminate].
  apply Hk. exact (Hm s b s1 E).
Qed.

Lemma catch_returns (m : M S X A) h :
  returns_only P m -> (forall x k, h x = Some k -> returns_only P k) ->
  returns_only P (catch m h).
Proof.
  intros Hm Hh s a s'. unfold catch. destruct (m s) as [[b|x] s1] eqn:E.
  - intros [= <- _]. by apply (Hm s b s1).
  - destruct (h x) as [k|] eqn:Hx; [apply (Hh x k Hx)|discriminate].
Qed.
End Returns.

Lemma returns_impl {S X A} (P Q : A -> Prop) (m : M S X A) :
  (forall a, P a -> Q a) -> returns_only P m -> returns_only Q m.
Proof. intros HPQ Hm s a s' H. exact (HPQ a (Hm s a s' H)). Qed.

(** [of_sum r] returns the value [r] holds. *)
Lemma of_sum_returns {S X A} (r : X + A) : returns_only (S := S) (fun a => r = inr a) (of_sum r).
Proof. intros s a s'. destruct r; cbv; congruence. Qed.

(** A framed computation returns what it returns from the empty trace. *)
Lemma framed_returns {E X A} (m : M (list E) X A) :
  framed m -> returns_only (fun a => exists ext, m [] = (Ret a, ext)) m.
Proof.
  intros Hm tr a tr' H. rewrite Hm in H. destruct (m []) as [o ext]. simpl in H.
  injection H as -> _. by exists ext.
Qed.

(** Every exception [m] raises satisfies [Q], whatever the state. *)
Definition raises_only {S X A} (Q : X -> Prop) (m : M S X A) : Prop :=
  forall s x s', m s = (Exc x, s') -> Q x.

Section Raises.
Context {S X : Type} (Q : X -> Prop).

Lemma ret_raises {A} (a : A) : raises_only (S := S) Q (ret a).
Proof. by intros s x s' [=]. Qed.

Lemma raise_raises {A} (x : X) : Q x -> raises_only (S := S) (A := A) Q (raise x).
Proof. intros Hx s x' s' [= <- _]. exact Hx. Qed.

Lemma modify_raises (f : S -> S) : raises_only Q (modify (X := X) f).
Proof. by intros s x s' [=]. Qed.

Lemma bind_raises {A B} (m : M S X A) (k : A -> M S X B) :
  raises_only Q m -> (forall a, raises_only Q (k a)) -> raises_only Q (bind m k).
Proof.
  intros Hm Hk s x s'. unfold bind. destruct (m s) as [[a|y] s1] eqn:E; [apply Hk|].
  intros [= <- _]. exact (Hm s y s1 E).
Qed.

Lemma catch_raises {A} (m : M S X A) h :
  raises_only Q m -> (forall x k, h x = Some k -> raises_only Q k) -> raises_only Q (catch m h).
Proof.
  intros Hm Hh s x s'. unfold catch. destruct (m s) as [[a|y] s1] eqn:E; [discriminate|].
  destruct (h y) as [k|] eqn:Hy; [apply (Hh y k Hy)|]. intros [= <- _]. exact (Hm s y s1 E).
Qed.
End Raises.

Lemma emit_raises {E X} (Q : X -> Prop) (e : E) : raises_only Q (emit (X := X) e).
Proof. by intros s x s' [=]. Qed.

(** A [try] block that raises nothing its [except] clauses name runs as
    if it had none. *)
Lemma catch_unhandled {S X A} (m : M S X A) h s :
  raises_only (fun x => h x = None) m -> catch m h s = m s.
Proof.
  intros Hm. unfold catch. destruct (m s) as [[a|x] s'] eqn:E; [done|].
  by rewrite (Hm s x s' E).
Qed.

(** ** Tactics *)

#[export] Hint Resolve ret_returns raise_returns ret_raises modify_raises emit_raises : pyfetch.

(** Step through a monadic computation: unfold the combinators at the head
    and simplify the matches they produce. *)
Ltac mstep :=
  repeat first
    [ progress autorewrite with pyrw
    | progress cbn [bind ret raise get_state modify emit catch of_sum run fst snd] ].

(** Prove a property [G m] of a computation that is compositional: the
    lemmas [bind_lemma] and [catch_lemma] split it into its combinators,
    every [match] and [if] it branches on is cased on, and the [pyfetch]
    hints, or the tactic [leaf], prove [G] of its leaves and of the
    named operations it calls. *)
Ltac solve_m bind_lemma catch_lemma leaf :=
  repeat first
    [ progress intros
    | solve [eauto with pyfetch]
    | leaf
    | apply bind_lemma
    | apply catch_lemma
    | match goal with
      | H : Some _ = Some _ |- _ => injection H as H; subst
      | H : None = Some _ |- _ => discriminate H
      | H : (match ?x with _ => _ end) = Some _ |- _ => destruct x
      | |- ?G (match ?x with _ => _ end) => destruct x
      | |- ?G (if ?b then _ else _) => destruct b
      | |- ?G (let '(_, _) := ?p in _) => destruct p
      | |- ?G ((fun _ => _) _) => cbv beta
      end ].

(** [m] is framed. *)
Ltac solve_framed := solve_m bind_framed catch_framed fail.

(** Every value [m] returns satisfies the postcondition. *)
Ltac solve_returns := solve_m bind_returns catch_returns fail.

(** Every exception [m] raises satisfies the predicate. *)
Ltac solve_raises :=
  solve_m bind_raises catch_raises ltac:(apply raise_raises; solve [simpl; done]).

(** The same, with [leaf] proving the postcondition of the returns. *)
Ltac solve_returns_with leaf := solve_m bind_returns catch_returns leaf.

(** Every event [m] appends satisfies the predicate. *)
Ltac solve_emits :=
  solve_m bind_emits catch_emits ltac:(apply emit_emits; solve [simpl; tauto]).

(** Split on the run of the stage [m] from the current state, continuing
    in the branch its outcome selects. *)
Ltac split_stage m :=
  match goal with
  | |- context [bind m ?k ?s] =>
      let o := fresh "o" in
      let s' := fresh "tr" in
      let E := fresh "E" in
      destruct (m s) as [o s'] eqn:E; rewrite (bind_run m k s o s' E);
      destruct o; cbn beta iota
  end.

(** Replace a framed stage [m] run from the current trace by its run
    [H : m [] = (o, ext)] from the empty trace, and continue with the
    branch its outcome selects. *)
Ltac stage H :=
  match type of H with
  | ?m [] = _ =>
      let Hf := fresh "Hf" in
      pose proof (fun tr => framed_run m tr _ _ ltac:(solve [eauto with pyfetch]) H) as Hf;
      rewrite (bind_run m _ _ _ _ (Hf _)); clear Hf; cbn beta iota
  end.

(** Case on the outcome of a sub-computation, keeping its equation. *)
Ltac case_outcome m :=
  let o := fresh "o" in
  let tr := fresh "tr" in
  let E := fresh "E" in
  destruct (m) as [o tr] eqn:E; destruct o.

(** ** Generic list and option lemmas *)

Lemma app_cons_assoc {A} (l1 l2 : list A) (x : A) :
  (l1 ++ [x]) ++ l2 = l1 ++ x :: l2.
Proof. by rewrite <- app_assoc. Qed.

Lemma Forall_not_elem_of {A} (P : A -> Prop) (l : list A) x :
  Forall P l -> ~ P x -> x ∉ l.
Proof. intros Hl Hx Hin%list_elem_of_In. eapply Forall_forall in Hl; [|exact Hin]. auto. Qed.

Lemma Forall_app_or {A} (P Q : A -> Prop) (l1 l2 : list A) :
  Forall P l1 -> Forall Q l2 -> Forall (fun x => P x \/ Q x) (l1 ++ l2).
Proof.
  intros H1 H2. apply Forall_app. split.
  - induction H1; constructor; auto.
  - induction H2; constructor; auto.
Qed.

Lemma option_map_some {A B} (f : A -> B) (o : option A) a :
  o = Some a -> option_map f o = Some (f a).
Proof. by intros ->. Qed.
