(* ===== verification/PyStr.v ===== *)
(** * Python [str] methods

    The methods of Python's [str] that [fetch.py] and the library
    functions it calls use, over [String.string].  A Python string is
    represented by the bytes of its UTF-8 encoding; every character the
    code searches for or compares against is ASCII, so [find],
    [partition], [startswith] and [in] agree with Python's on that
    representation, and positions and lengths count bytes.  [strip]
    removes the whitespace characters [str.isspace] accepts, matched as
    whole UTF-8 sequences; [decode_replace] is [bytes.decode('utf-8',
    'replace')], proved to be the identity on well-formed UTF-8. *)

From Stdlib Require Import ZArith NArith String Ascii DecimalString Strings.Byte.
From stdpp Require Import base list strings option.
From S2P Require Import Prelude.

Open Scope string_scope.

Module PyStr.

(** [s.startswith(p)] *)
Definition startswith (s p : string) : bool := String.prefix p s.

(** [s.find(sub)]: the index of the first occurrence, [None] for -1. *)
Fixpoint find (s sub : string) : option nat :=
  if String.prefix sub s then Some 0
  else match s with
       | EmptyString => None
       | String _ s' => S <$> find s' sub
       end.

(** [s.rfind(sub)]: the index of the last occurrence. *)
Fixpoint rfind (s sub : string) : option nat :=
  match s with
  | EmptyString => if String.prefix sub s then Some 0 else None
  | String _ s' =>
      match rfind s' sub with
      | Some i => Some (S i)
      | None => if String.prefix sub s then Some 0 else None
      end
  end.

(** [sub in s] *)
Definition contains (s sub : string) : bool := bool_decide (is_Some (find s sub)).

(** [s[i:]] and [s[:i]] for [0 <= i]. *)
Definition drop (i : nat) (s : string) : string := substring i (String.length s - i) s.
Definition take (i : nat) (s : string) : string := substring 0 i s.

(** [s.partition(sep)]: (before, sep found, after). *)
Definition partition (s sep : string) : string * bool * string :=
  match find s sep with
  | Some i => (take i s, true, drop (i + String.length sep) s)
  | None => (s, false, EmptyString)
  end.

(** [s.rpartition(sep)]: split at the last occurrence; when [sep] does not
    occur, Python returns [('', '', s)]. *)
Definition rpartition (s sep : string) : string * bool * string :=
  match rfind s sep with
  | Some i => (take i s, true, drop (i + String.length sep) s)
  | None => (EmptyString, false, s)
  end.

Definition is_upper (c : ascii) : bool :=
  let n := nat_of_ascii c in bool_decide (65 <= n <= 90)%nat.

Definition lower_char (c : ascii) : ascii :=
  if is_upper c then ascii_of_nat (nat_of_ascii c + 32) else c.

(** [s.lower()] (on the ASCII letters). *)
Fixpoint lower (s : string) : string :=
  match s with
  | EmptyString => EmptyString
  | String c s' => String (lower_char c) (lower s')
  end.

Definition is_digit (c : ascii) : bool :=
  let n := nat_of_ascii c in bool_decide (48 <= n <= 57)%nat.

(** [s.isdigit() and s.isascii()]: non-empty and all ASCII digits. *)
Fixpoint all_digits (s : string) : bool :=
  match s with
  | EmptyString => true
  | String c s' => is_digit c && all_digits s'
  end.

Definition isdigit (s : string) : bool :=
  match s with
  | EmptyString => false
  | _ => all_digits s
  end.

(** [int(s)] for a string of decimal digits. *)
Fixpoint digits_value (acc : Z) (s : string) : Z :=
  match s with
  | EmptyString => acc
  | String c s' => digits_value (10 * acc + (Z.of_nat (nat_of_ascii c) - 48)) s'
  end.

Definition int_of_digits (s : string) : Z := digits_value 0 s.

(** [str(z)] for an integer. *)
Definition str_int (z : Z) : string := NilEmpty.string_of_int (Z.to_int z).

(** [c in chars] for a character and a string of characters. *)
Definition char_in (c : ascii) (chars : string) : bool :=
  contains chars (String c EmptyString).

(** [s.lstrip(chars)] *)
Fixpoint lstrip (chars s : string) : string :=
  match s with
  | EmptyString => EmptyString
  | String c s' => if char_in c chars then lstrip chars s' else s
  end.

(** [s.replace(c, '')] for a single character [c]. *)
Fixpoint remove_char (c : ascii) (s : string) : string :=
  match s with
  | EmptyString => EmptyString
  | String d s' =>
      if Ascii.eqb c d then remove_char c s' else String d (remove_char c s')
  end.

(** [repr(s)]: Python chooses double quotes when the string has a single
    quote and no double quote, and escapes backslash, the chosen quote,
    tab, newline, carriage return and the other control characters. *)
Definition hex_digit (n : nat) : ascii :=
  if (n <? 10)%nat then ascii_of_nat (48 + n) else ascii_of_nat (87 + n).

Definition repr_char (high : bool) (q : ascii) (c : ascii) : string :=
  let n := nat_of_ascii c in
  if Ascii.eqb c "\" then "\\"
  else if Ascii.eqb c q then String "\" (String c EmptyString)
  else if (n =? 9)%nat then "\t"
  else if (n =? 10)%nat then "\n"
  else if (n =? 13)%nat then "\r"
  else if (n <? 32)%nat || (n =? 127)%nat || (high && (128 <=? n)%nat) then
    String "\" (String "x" (String (hex_digit (n / 16)) (String (hex_digit (n mod 16)) EmptyString)))
  else String c EmptyString.

Fixpoint repr_body (high : bool) (q : ascii) (s : string) : string :=
  match s with
  | EmptyString => EmptyString
  | String c s' => repr_char high q c ++ repr_body high q s'
  end.

Definition dquote : ascii := ascii_of_nat 34.

Definition repr_quote (s : string) : ascii :=
  if contains s "'" && negb (contains s (String dquote EmptyString))
  then dquote else "'"%char.

(** [repr(s)] of a [str] (its non-ASCII characters are printable). *)
Definition repr (s : string) : string :=
  let q := repr_quote s in
  String q (repr_body false q s ++ String q EmptyString).

(** [repr(b)] of a [bytes]: a [b] prefix and the bytes from 128 escaped. *)
Definition repr_bytes (s : string) : string :=
  let q := repr_quote s in
  "b" ++ String q (repr_body true q s ++ String q EmptyString).

(** [''.join(xs)] *)
Fixpoint join_all (xs : list string) : string :=
  match xs with
  | [] => EmptyString
  | x :: xs' => x ++ join_all xs'
  end.

(** [s.splitlines(True)]: the line boundaries of Python's [str] ([\n],
    [\r\n], [\r], [\v], [\f], [\x1c] to [\x1e], and the UTF-8 forms of
    U+0085, U+2028, U+2029), each line keeping its end. *)
Definition is_line_break_byte (c : ascii) : bool :=
  let n := nat_of_ascii c in
  ((n =? 10) || (n =? 11) || (n =? 12) || (n =? 28) || (n =? 29) || (n =? 30))%nat.

Fixpoint splitlines_aux (l : list ascii) (cur : list ascii) : list (list ascii) :=
  match l with
  | [] => match cur with [] => [] | _ => [rev cur] end
  | c :: r =>
      let n := nat_of_ascii c in
      if (n =? 13)%nat then
        match r with
        | d :: r' =>
            if (nat_of_ascii d =? 10)%nat then rev (d :: c :: cur) :: splitlines_aux r' []
            else rev (c :: cur) :: splitlines_aux r []
        | [] => [rev (c :: cur)]
        end
      else if is_line_break_byte c then rev (c :: cur) :: splitlines_aux r []
      else if (n =? 194)%nat then
        match r with
        | d :: r' =>
            if (nat_of_ascii d =? 133)%nat then rev (d :: c :: cur) :: splitlines_aux r' []
            else splitlines_aux r (c :: cur)
        | [] => splitlines_aux r (c :: cur)
        end
      else if (n =? 226)%nat then
        match r with
        | d :: e :: r' =>
            if (nat_of_ascii d =? 128)%nat
               && ((nat_of_ascii e =? 168)%nat || (nat_of_ascii e =? 169)%nat)
            then rev (e :: d :: c :: cur) :: splitlines_aux r' []
            else splitlines_aux r (c :: cur)
        | _ => splitlines_aux r (c :: cur)
        end
      else splitlines_aux r (c :: cur)
  end.

Definition splitlines (s : string) : list string :=
  map string_of_list_ascii (splitlines_aux (list_ascii_of_string s) []).

(** [s.split(c)] for a one-character separator. *)
Fixpoint split_char (c : ascii) (s : string) : list string :=
  match s with
  | EmptyString => [EmptyString]
  | String d s' =>
      if Ascii.eqb c d then EmptyString :: split_char c s'
      else match split_char c s' with
           | w :: ws => String d w :: ws
           | [] => [String d EmptyString]
           end
  end.

Definition is_hex_digit (c : ascii) : bool :=
  let n := nat_of_ascii c in
  bool_decide (48 <= n <= 57 \/ 65 <= n <= 70 \/ 97 <= n <= 102)%nat.

Fixpoint for_all (p : ascii -> bool) (s : string) : bool :=
  match s with
  | EmptyString => true
  | String c s' => p c && for_all p s'
  end.

Definition is_alpha (c : ascii) : bool :=
  let n := nat_of_ascii c in bool_decide (65 <= n <= 90 \/ 97 <= n <= 122)%nat.

(** [bytes.decode('utf-8')] succeeds: the strict decoder accepts no
    overlong form, no surrogate and nothing above U+10FFFF. *)
Definition in_range (lo hi : N) (b : N) : bool := (lo <=? b)%N && (b <=? hi)%N.

Definition cont (b : N) : bool := in_range 0x80 0xBF b.

Fixpoint utf8_valid (bs : list N) : bool :=
  match bs with
  | [] => true
  | b :: r =>
      if (b <? 0x80)%N then utf8_valid r
      else if in_range 0xC2 0xDF b then
        match r with c :: r' => cont c && utf8_valid r' | _ => false end
      else if in_range 0xE0 0xEF b then
        match r with
        | c1 :: c2 :: r' =>
            (if (b =? 0xE0)%N then in_range 0xA0 0xBF c1
             else if (b =? 0xED)%N then in_range 0x80 0x9F c1
             else cont c1) && cont c2 && utf8_valid r'
        | _ => false
        end
      else if in_range 0xF0 0xF4 b then
        match r with
        | c1 :: c2 :: c3 :: r' =>
            (if (b =? 0xF0)%N then in_range 0x90 0xBF c1
             else if (b =? 0xF4)%N then in_range 0x80 0x8F c1
             else cont c1) && cont c2 && cont c3 && utf8_valid r'
        | _ => false
        end
      else false
  end.

(** [s.capitalize()] (on the ASCII letters): the first character upper
    case, the others lower case. *)
Definition is_lower (c : ascii) : bool :=
  let n := nat_of_ascii c in bool_decide (97 <= n <= 122)%nat.

Definition upper_char (c : ascii) : ascii :=
  if is_lower c then ascii_of_nat (nat_of_ascii c - 32) else c.

Definition capitalize (s : string) : string :=
  match s with
  | EmptyString => EmptyString
  | String c s' => String (upper_char c) (lower s')
  end.

(** The characters [str.isspace()] holds of, as UTF-8 byte sequences:
    the ASCII ones and the Unicode separators. *)
Definition ws_seqs : list (list nat) :=
  map (fun n => [n]) [9; 10; 11; 12; 13; 28; 29; 30; 31; 32] ++
  [[0xC2; 0x85]; [0xC2; 0xA0]; [0xE1; 0x9A; 0x80]] ++
  map (fun k => [0xE2; 0x80; k]) (seq 0x80 11) ++
  [[0xE2; 0x80; 0xA8]; [0xE2; 0x80; 0xA9]; [0xE2; 0x80; 0xAF]; [0xE2; 0x81; 0x9F];
   [0xE3; 0x80; 0x80]].

(** Drop leading sequences of [seqs], one per step. *)
Fixpoint strip_seqs (seqs : list (list nat)) (fuel : nat) (l : list nat) : list nat :=
  match fuel with
  | O => l
  | S fuel' =>
      match list_find (fun p => p `prefix_of` l) seqs with
      | Some (_, p) => strip_seqs seqs fuel' (list.drop (List.length p) l)
      | None => l
      end
  end.

Definition codes (s : string) : list nat := map nat_of_ascii (list_ascii_of_string s).
Definition of_codes (l : list nat) : string := string_of_list_ascii (map ascii_of_nat l).

(** [s.strip()]: whitespace removed at both ends; a UTF-8 sequence that
    ends the text is a whole character, so the right end is stripped on
    the reversed bytes. *)
Definition strip (s : string) : string :=
  let l := strip_seqs ws_seqs (List.length (codes s)) (codes s) in
  of_codes (List.rev (strip_seqs (map (@List.rev nat) ws_seqs) (List.length l) (List.rev l))).

(** [bytes.decode('utf-8', 'replace')]: each maximal ill-formed part
    becomes U+FFFD, as CPython's decoder replaces them. *)
Definition replacement : list N := [0xEF; 0xBF; 0xBD]%N.

Fixpoint decode_replace (bs : list N) : list N :=
  match bs with
  | [] => []
  | b :: r =>
      if (b <? 0x80)%N then b :: decode_replace r
      else if in_range 0xC2 0xDF b then
        match r with
        | c :: r' => if cont c then b :: c :: decode_replace r'
                     else replacement ++ decode_replace r
        | [] => replacement
        end
      else if in_range 0xE0 0xEF b then
        match r with
        | c1 :: r1 =>
            if (if (b =? 0xE0)%N then in_range 0xA0 0xBF c1
                else if (b =? 0xED)%N then in_range 0x80 0x9F c1 else cont c1) then
              match r1 with
              | c2 :: r2 => if cont c2 then b :: c1 :: c2 :: decode_replace r2
                            else replacement ++ decode_replace r1
              | [] => replacement
              end
            else replacement ++ decode_replace r
        | [] => replacement
        end
      else if in_range 0xF0 0xF4 b then
        match r with
        | c1 :: r1 =>
            if (if (b =? 0xF0)%N then in_range 0x90 0xBF c1
                else if (b =? 0xF4)%N then in_range 0x80 0x8F c1 else cont c1) then
              match r1 with
              | c2 :: r2 =>
                  if cont c2 then
                    match r2 with
                    | c3 :: r3 => if cont c3 then b :: c1 :: c2 :: c3 :: decode_replace r3
                                  else replacement ++ decode_replace r2
                    | [] => replacement
                    end
                  else replacement ++ decode_replace r1
              | [] => replacement
              end
            else replacement ++ decode_replace r
        | [] => replacement
        end
      else replacement ++ decode_replace r
  end.

(** [.decode('utf-8')] of a byte string, as the text it denotes. *)
Definition decode_utf8 (bs : list byte) : option string :=
  if utf8_valid (map Byte.to_N bs) then Some (string_of_list_byte bs) else None.

(** [.encode()] of a text: its UTF-8 bytes. *)
Definition encode_utf8 (s : string) : list byte := list_byte_of_string s.

(** ** Laws *)

(** stdpp declares [String.append] [simpl never]; these two equations
    are its computation rules. *)
Lemma str_app_nil_l (s : string) : EmptyString ++ s = s.
Proof. reflexivity. Qed.

Lemma str_app_cons (c : ascii) (s1 s2 : string) :
  String c s1 ++ s2 = String c (s1 ++ s2).
Proof. reflexivity. Qed.

#[export] Hint Rewrite str_app_nil_l str_app_cons : pyrw.

Lemma str_length_app (s1 s2 : string) :
  String.length (s1 ++ s2) = (String.length s1 + String.length s2)%nat.
Proof. induction s1; autorewrite with pyrw; simpl; congruence. Qed.

Lemma string_of_list_ascii_length (l : list ascii) :
  String.length (string_of_list_ascii l) = length l.
Proof. induction l; simpl; congruence. Qed.

Lemma str_app_assoc (s1 s2 s3 : string) : s1 ++ (s2 ++ s3) = (s1 ++ s2) ++ s3.
Proof. induction s1; autorewrite with pyrw; congruence. Qed.

Lemma str_app_nil_r (s : string) : s ++ EmptyString = s.
Proof. induction s; autorewrite with pyrw; congruence. Qed.

Lemma prefix_spec (p s : string) :
  String.prefix p s = true <-> exists r, s = p ++ r.
Proof.
  revert s. induction p as [|c p IH]; intros [|d s]; simpl.
  - split; [by exists EmptyString|done].
  - split; [by exists (String d s)|done].
  - split; [done|intros [r Hr]; discriminate].
  - destruct (ascii_dec c d) as [->|Hne].
    + rewrite IH. split; intros [r Hr]; exists r; autorewrite with pyrw in *;
        [by rewrite Hr|by injection Hr].
    + split; [done|intros [r Hr]; autorewrite with pyrw in Hr; injection Hr;
        intros; congruence].
Qed.

Lemma substring_app_l (s1 s2 : string) :
  substring 0 (String.length s1) (s1 ++ s2) = s1.
Proof.
  induction s1 as [|c s1 IH]; autorewrite with pyrw; simpl;
    [by destruct s2|by rewrite IH].
Qed.

Lemma substring_all (s : string) n :
  n = String.length s -> substring 0 n s = s.
Proof.
  intros ->. induction s as [|c s IH]; simpl; [done|by rewrite IH].
Qed.

Lemma drop_app (s1 s2 : string) : drop (String.length s1) (s1 ++ s2) = s2.
Proof.
  unfold drop. rewrite str_length_app, Nat.add_sub_swap, Nat.sub_diag by lia.
  simpl. induction s1 as [|c s1 IH]; autorewrite with pyrw; simpl;
    [by apply substring_all|done].
Qed.

Lemma find_unfold (s sub : string) :
  find s sub =
    if String.prefix sub s then Some 0
    else match s with
         | EmptyString => None
         | String _ s' => S <$> find s' sub
         end.
Proof. by destruct s. Qed.

(** [find] returns the position of an occurrence. *)
Lemma find_some (s sub : string) i :
  find s sub = Some i ->
  exists pre post, s = pre ++ sub ++ post /\ String.length pre = i.
Proof.
  revert i. induction s as [|c s IH]; intros i; rewrite find_unfold;
    destruct (String.prefix sub _) eqn:P.
  - intros [= <-]. apply prefix_spec in P as [r Hr].
    by exists EmptyString, r; autorewrite with pyrw.
  - congruence.
  - intros [= <-]. apply prefix_spec in P as [r Hr].
    by exists EmptyString, r; autorewrite with pyrw.
  - destruct (find s sub) as [j|] eqn:F; simpl; [|congruence]. intros [= <-].
    destruct (IH j eq_refl) as (pre & post & -> & <-).
    by exists (String c pre), post; autorewrite with pyrw.
Qed.

Lemma find_none_prefix (s sub : string) :
  find s sub = None -> String.prefix sub s = false.
Proof. rewrite find_unfold. by destruct (String.prefix sub s). Qed.

Lemma take_app (s1 s2 : string) : take (String.length s1) (s1 ++ s2) = s1.
Proof. apply substring_app_l. Qed.

(** [partition] splits its argument around the first occurrence. *)
Lemma partition_found (s sep : string) before after :
  partition s sep = (before, true, after) -> s = before ++ sep ++ after.
Proof.
  unfold partition. destruct (find s sep) as [i|] eqn:F; [|congruence].
  intros [= <- <-]. destruct (find_some _ _ _ F) as (pre & post & -> & <-).
  rewrite take_app.
  replace (String.length pre + String.length sep)%nat
    with (String.length (pre ++ sep)) by apply str_length_app.
  by rewrite (str_app_assoc pre sep post), drop_app, str_app_assoc.
Qed.

Lemma partition_not_found (s sep : string) before after :
  partition s sep = (before, false, after) -> before = s /\ after = EmptyString.
Proof.
  unfold partition. destruct (find s sep); [congruence|]. by intros [= <- <-].
Qed.

Lemma lower_length (s : string) : String.length (lower s) = String.length s.
Proof. induction s; simpl; congruence. Qed.

Lemma lower_empty (s : string) : lower s = EmptyString <-> s = EmptyString.
Proof. destruct s; simpl; split; done. Qed.

Lemma all_digits_app (s1 s2 : string) :
  all_digits (s1 ++ s2) = all_digits s1 && all_digits s2.
Proof.
  induction s1; autorewrite with pyrw; simpl; [done|]. by rewrite IHs1, andb_assoc.
Qed.

(** Decoding then encoding gives the bytes back. *)
Lemma decode_utf8_encode (bs : list byte) s : decode_utf8 bs = Some s -> encode_utf8 s = bs.
Proof.
  unfold decode_utf8, encode_utf8. destruct (utf8_valid _); [|discriminate].
  intros [= <-]. apply list_byte_of_string_of_list_byte.
Qed.

(** The replacing decoder is the identity on well-formed UTF-8. *)
Lemma decode_replace_valid (bs : list N) : utf8_valid bs = true -> decode_replace bs = bs.
Proof.
  induction bs as [bs IH] using (induction_ltof1 _ (@List.length N)).
  destruct bs as [|b r]; [done|]. simpl.
  repeat match goal with
  | |- context [if ?c then _ else _] => destruct c eqn:?
  | |- context [match ?l with [] => _ | _ :: _ => _ end] => destruct l
  end; intros H; try discriminate;
  repeat (apply andb_prop in H as [? H] || rewrite IH); simpl in *; try congruence;
  unfold ltof; simpl; lia.
Qed.

End PyStr.
