(* ===== verification/PyVal.v ===== *)
(** * Python values, exceptions and dictionaries

    The values that flow through [fetch.py]: the JSON-derived
    [parameters], the dictionaries the code builds, and the result.
    Dictionaries have string keys (every dictionary of the program
    does) and keep insertion order as Python's do: [d[k] = v] replaces
    the value in place when [k] is present and appends otherwise.
    Exceptions are the Python exception classes the code raises, catches
    or lets propagate. *)

From Stdlib Require Import ZArith String Ascii Strings.Byte.
From stdpp Require Import base list strings option.
From S2P Require Import Prelude PyStr.

Open Scope string_scope.

Module PyVal.

#[warnings="-register-all"]
Inductive pyval : Type :=
| PyNone
| PyBool (b : bool)
| PyInt (z : Z)
| PyFloat (lit : string)   (** the float a JSON number literal denotes *)
| PyStr (s : string)
| PyBytes (bs : list byte)
| PyList (xs : list pyval)
| PyTuple (xs : list pyval)
| PyDict (kvs : list (string * pyval)).

Abbreviation pydict := (list (string * pyval)).

(** An induction principle that reaches the elements of lists and dictionaries. *)
Section PyvalInd.
Variable P : pyval -> Prop.
Hypothesis HNone : P PyNone.
Hypothesis HBool : forall b, P (PyBool b).
Hypothesis HInt : forall z, P (PyInt z).
Hypothesis HFloat : forall f, P (PyFloat f).
Hypothesis HStr : forall s, P (PyStr s).
Hypothesis HBytes : forall bs, P (PyBytes bs).
Hypothesis HList : forall xs, Forall P xs -> P (PyList xs).
Hypothesis HTuple : forall xs, Forall P xs -> P (PyTuple xs).
Hypothesis HDict : forall kvs, Forall (fun kv => P (snd kv)) kvs -> P (PyDict kvs).

Fixpoint pyval_ind' (v : pyval) : P v :=
  let fix list_ind (xs : list pyval) : Forall P xs :=
    match xs with
    | [] => @Forall_nil _ P
    | x :: xs' => @Forall_cons _ P x xs' (pyval_ind' x) (list_ind xs')
    end in
  let fix dict_ind (kvs : pydict) : Forall (fun kv => P (snd kv)) kvs :=
    match kvs with
    | [] => @Forall_nil _ _
    | kv :: kvs' => @Forall_cons _ (fun kv => P (snd kv)) kv kvs' (pyval_ind' (snd kv)) (dict_ind kvs')
    end in
  match v with
  | PyNone => HNone
  | PyBool b => HBool b
  | PyInt z => HInt z
  | PyFloat f => HFloat f
  | PyStr s => HStr s
  | PyBytes bs => HBytes bs
  | PyList xs => HList xs (list_ind xs)
  | PyTuple xs => HTuple xs (list_ind xs)
  | PyDict kvs => HDict kvs (dict_ind kvs)
  end.
End PyvalInd.

(** ** Exceptions *)

Inductive pyexc : Type :=
| KeyError (key : string)
| AttributeError (msg : string)
| TypeError (msg : string)
| ValueError (msg : string)
| InvalidURL (msg : string)             (** http.client.InvalidURL *)
| CannotSendRequest (state : string)    (** http.client.CannotSendRequest *)
| CannotSendHeader                      (** http.client.CannotSendHeader *)
| ResponseNotReady (state : string)     (** http.client.ResponseNotReady *)
| OSError (msg : string)                (** socket, ssl and HTTP protocol errors *)
| ConnectionError (msg : string)        (** [ConnectionError] and its subclasses:
                                            [RemoteDisconnected], [ConnectionResetError] *)
| UnicodeEncodeError (msg : string)
| UnicodeDecodeError (msg : string)
| JSONDecodeError (msg : string) (pos lineno colno : Z)
| RecursionError (msg : string)
| HTTPError (code : Z) (reason : string) (headers : list (string * string))
                                        (** urllib.error.HTTPError *).

(** [str(error)] as an f-string renders it. *)
Definition exc_str (e : pyexc) : string :=
  match e with
  | KeyError k => PyStr.repr k
  | AttributeError m | TypeError m | ValueError m | InvalidURL m
  | OSError m | ConnectionError m | UnicodeEncodeError m | UnicodeDecodeError m | RecursionError m => m
  | CannotSendRequest st | ResponseNotReady st => st
  | CannotSendHeader => EmptyString
  | HTTPError code reason _ => "HTTP Error " ++ PyStr.str_int code ++ ": " ++ reason
  | JSONDecodeError m pos l c =>
      m ++ ": line " ++ PyStr.str_int l ++ " column " ++ PyStr.str_int c
        ++ " (char " ++ PyStr.str_int pos ++ ")"
  end.

(** ** Type names and [repr] *)

Definition type_name (v : pyval) : string :=
  match v with
  | PyNone => "NoneType"
  | PyBool _ => "bool"
  | PyInt _ => "int"
  | PyFloat _ => "float"
  | PyStr _ => "str"
  | PyBytes _ => "bytes"
  | PyList _ => "list"
  | PyTuple _ => "tuple"
  | PyDict _ => "dict"
  end.

Definition bool_str (b : bool) : string := if b then "True" else "False".

Fixpoint join (sep : string) (xs : list string) : string :=
  match xs with
  | [] => EmptyString
  | [x] => x
  | x :: xs' => x ++ sep ++ join sep xs'
  end.

Fixpoint repr (v : pyval) : string :=
  match v with
  | PyNone => "None"
  | PyBool b => bool_str b
  | PyInt z => PyStr.str_int z
  | PyFloat f => f
  | PyStr s => PyStr.repr s
  | PyBytes bs => PyStr.repr_bytes (string_of_list_byte bs)
  | PyList xs => "[" ++ join ", " (map repr xs) ++ "]"
  | PyTuple [x] => "(" ++ repr x ++ ",)"
  | PyTuple xs => "(" ++ join ", " (map repr xs) ++ ")"
  | PyDict kvs =>
      "{" ++ join ", " (map (fun kv => PyStr.repr (fst kv) ++ ": " ++ repr (snd kv)) kvs)
        ++ "}"
  end.

(** [str(v)]: the text itself for a string, [repr] otherwise. *)
Definition str (v : pyval) : string :=
  match v with
  | PyStr s => s
  | _ => repr v
  end.

(** The zero test of a float literal: every digit of its mantissa is 0. *)
Fixpoint mantissa_zero (lit : string) : bool :=
  match lit with
  | EmptyString => true
  | String c s' =>
      if Ascii.eqb c "e" || Ascii.eqb c "E" then true
      else if PyStr.is_digit c then Ascii.eqb c "0" && mantissa_zero s'
      else mantissa_zero s'
  end.

(** [bool(v)]: Python's truth value. *)
Definition truthy (v : pyval) : bool :=
  match v with
  | PyNone => false
  | PyBool b => b
  | PyInt z => negb (Z.eqb z 0)
  | PyFloat f => negb (mantissa_zero f)
  | PyStr s => negb (String.eqb s EmptyString)
  | PyBytes bs => negb (bool_decide (bs = []))
  | PyList xs | PyTuple xs => negb (bool_decide (xs = []))
  | PyDict kvs => negb (bool_decide (kvs = []))
  end.

(** ** Dictionaries *)

Fixpoint dict_lookup (k : string) (d : pydict) : option pyval :=
  match d with
  | [] => None
  | (k', v) :: d' => if String.eqb k k' then Some v else dict_lookup k d'
  end.

(** [d[k] = v] *)
Fixpoint dict_set (k : string) (v : pyval) (d : pydict) : pydict :=
  match d with
  | [] => [(k, v)]
  | (k', v') :: d' =>
      if String.eqb k k' then (k', v) :: d' else (k', v') :: dict_set k v d'
  end.

Definition dict_keys (d : pydict) : list string := map fst d.

(** [k in d] *)
Definition dict_mem (k : string) (d : pydict) : bool := bool_decide (is_Some (dict_lookup k d)).

(** [dict(pairs)]: later pairs win, keys keep their first position. *)
Definition dict_of_pairs (ps : list (string * pyval)) : pydict :=
  fold_left (fun d kv => dict_set (fst kv) (snd kv) d) ps [].

(** The invariant of a dictionary: no key twice. *)
Definition dict_wf (d : pydict) : Prop := NoDup (dict_keys d).

(** ** Subscripts and methods on values *)

Definition not_subscriptable (v : pyval) : pyexc :=
  match v with
  | PyStr _ => TypeError "string indices must be integers, not 'str'"
  | PyBytes _ => TypeError "byte indices must be integers or slices, not str"
  | PyList _ => TypeError "list indices must be integers or slices, not str"
  | PyTuple _ => TypeError "tuple indices must be integers or slices, not str"
  | _ => TypeError ("'" ++ type_name v ++ "' object is not subscriptable")
  end.

Definition no_attribute (v : pyval) (attr : string) : pyexc :=
  AttributeError ("'" ++ type_name v ++ "' object has no attribute '" ++ attr ++ "'").

(** [v[k]] for a string key. *)
Definition getitem (v : pyval) (k : string) : pyexc + pyval :=
  match v with
  | PyDict d =>
      match dict_lookup k d with
      | Some x => inr x
      | None => inl (KeyError k)
      end
  | _ => inl (not_subscriptable v)
  end.

(** [v.get(k)] *)
Definition dict_get (v : pyval) (k : string) : pyexc + pyval :=
  match v with
  | PyDict d => inr (default PyNone (dict_lookup k d))
  | _ => inl (no_attribute v "get")
  end.

(** [v.items()] *)
Definition items (v : pyval) : pyexc + pydict :=
  match v with
  | PyDict d => inr d
  | _ => inl (no_attribute v "items")
  end.

(** [v.keys()] *)
Definition keys (v : pyval) : pyexc + list string :=
  match v with
  | PyDict d => inr (dict_keys d)
  | _ => inl (no_attribute v "keys")
  end.

(** [k in v] for a dictionary [v]. *)
Definition contains_key (v : pyval) (k : string) : pyexc + bool :=
  match v with
  | PyDict d => inr (dict_mem k d)
  | _ => inl (TypeError ("argument of type '" ++ type_name v ++ "' is not iterable"))
  end.

(** ** Dictionary laws *)

Lemma dict_lookup_set_eq (k : string) v d : dict_lookup k (dict_set k v d) = Some v.
Proof.
  induction d as [|[k' v'] d IH]; simpl; [by rewrite String.eqb_refl|].
  destruct (String.eqb k k') eqn:E; simpl; by rewrite E.
Qed.

Lemma dict_lookup_set_ne (k j : string) v d :
  k <> j -> dict_lookup j (dict_set k v d) = dict_lookup j d.
Proof.
  intros Hne. induction d as [|[k' v'] d IH]; simpl.
  - destruct (String.eqb j k) eqn:E; [apply String.eqb_eq in E; congruence|done].
  - destruct (String.eqb k k') eqn:E; simpl.
    + apply String.eqb_eq in E. subst.
      destruct (String.eqb j k') eqn:E'; [apply String.eqb_eq in E'; congruence|done].
    + by rewrite IH.
Qed.

Lemma dict_lookup_keys (k : string) d : is_Some (dict_lookup k d) <-> k ∈ dict_keys d.
Proof.
  induction d as [|[k' v'] d IH]; simpl.
  - split; [by intros []|by intros ?%elem_of_nil].
  - rewrite elem_of_cons, <- IH. destruct (String.eqb k k') eqn:E.
    + apply String.eqb_eq in E. subst. split; [by left|done].
    + apply String.eqb_neq in E. naive_solver.
Qed.

Lemma dict_mem_cons (k k' : string) v' d :
  dict_mem k ((k', v') :: d) = String.eqb k k' || dict_mem k d.
Proof.
  unfold dict_mem; simpl. by destruct (String.eqb k k').
Qed.

Lemma dict_keys_set (k : string) v d :
  dict_keys (dict_set k v d) =
    if dict_mem k d then dict_keys d else (dict_keys d ++ [k])%list.
Proof.
  induction d as [|[k' v'] d IH]; simpl; [done|]. rewrite dict_mem_cons.
  destruct (String.eqb k k'); simpl; [done|]. rewrite IH. by destruct (dict_mem k d).
Qed.

Lemma dict_set_wf (k : string) v d : dict_wf d -> dict_wf (dict_set k v d).
Proof.
  unfold dict_wf. rewrite dict_keys_set. unfold dict_mem.
  case_bool_decide as H; [done|]. intros Hnd.
  apply list.NoDup_app. split_and!; [done| |by apply list.NoDup_singleton].
  intros x Hx ->%list_elem_of_singleton. apply H. by apply dict_lookup_keys.
Qed.

Lemma dict_of_pairs_wf (ps : list (string * pyval)) : dict_wf (dict_of_pairs ps).
Proof.
  unfold dict_of_pairs. cut (forall d, dict_wf d ->
    dict_wf (fold_left (fun d kv => dict_set (fst kv) (snd kv) d) ps d)).
  { intros H. apply H. constructor. }
  induction ps as [|[k v] ps IH]; simpl; [done|]. intros d Hd.
  by apply IH, dict_set_wf.
Qed.

Lemma getitem_dict_some (d : pydict) k x :
  dict_lookup k d = Some x -> getitem (PyDict d) k = inr x.
Proof. simpl. by intros ->. Qed.

Lemma getitem_dict_none (d : pydict) k :
  dict_lookup k d = None -> getitem (PyDict d) k = inl (KeyError k).
Proof. simpl. by intros ->. Qed.

#[export] Hint Resolve dict_set_wf dict_of_pairs_wf : pyfetch.
#[export] Hint Rewrite dict_lookup_set_eq : pyrw.

End PyVal.
