(* ===== verification/Url.v ===== *)
(** * [urllib.parse.urlparse] and [ipaddress.ip_address]

    [Fetcher._parse_resource] calls [urllib.parse.urlparse(resource)]
    and reads the [hostname] and [port] attributes of the result;
    [fetch] formats it with [f'{url}'] and reads [url.port] and
    [url.netloc]; [http.client]'s [putrequest] splits the request URL
    with [urlsplit] to choose the [Host] header.  This file models those
    functions of Python 3.11's library: the leading-space strip and the
    tab/newline removal, the scheme test, the network-location split
    with its bracket checks (which call [ipaddress.ip_address] on a
    bracketed host), the fragment, query and parameter splits, and the
    [hostname] and [port] properties with their [ValueError]s.  The NFKC
    check of [_checknetloc] only concerns non-ASCII network locations and
    is not modelled: such a location is taken to be NFKC-stable. *)

From Stdlib Require Import Lia ZArith String Ascii.
From stdpp Require Import base list strings option.
From S2P Require Import Prelude PyStr PyVal.

Open Scope string_scope.

Import PyVal.

Module IpAddress.

(** [IPv4Address._parse_octet] succeeds. *)
Definition octet_ok (o : string) : bool :=
  PyStr.isdigit o
  && (String.length o <=? 3)%nat
  && (String.eqb o "0" || negb (PyStr.startswith o "0"))
  && (PyStr.int_of_digits o <=? 255)%Z.

(** [IPv4Address(s)] succeeds. *)
Definition ipv4_ok (s : string) : bool :=
  negb (PyStr.contains s "/")
  && negb (String.eqb s EmptyString)
  && match PyStr.split_char "." s with
     | [a; b; c; d] => octet_ok a && octet_ok b && octet_ok c && octet_ok d
     | _ => false
     end.

(** [IPv6Address._parse_hextet] succeeds. *)
Definition hextet_ok (h : string) : bool :=
  PyStr.for_all PyStr.is_hex_digit h
  && negb (String.eqb h EmptyString)
  && (String.length h <=? 4)%nat.

(** The interior indices [1 .. len-2] of the empty parts. *)
Definition empty_interior (parts : list string) : list nat :=
  let n := length parts in
  filter (fun i => (1 <= i)%nat /\ (i < n - 1)%nat
                   /\ nth i parts "x" = EmptyString) (seq 0 n).

(** [IPv6Address._ip_int_from_string] succeeds on the part before the scope. *)
Definition ipv6_parts_ok (addr : string) : bool :=
  if String.eqb addr EmptyString then false else
  let parts0 := PyStr.split_char ":" addr in
  if (length parts0 <? 3)%nat then false else
  let last0 := List.last parts0 EmptyString in
  let '(parts, tail_ok) :=
    if PyStr.contains last0 "."
    then ((removelast parts0 ++ ["0"; "0"])%list, ipv4_ok last0)
    else (parts0, true) in
  let n := length parts in
  let first := default EmptyString (head parts) in
  let lastp := List.last parts EmptyString in
  tail_ok && (n <=? 9)%nat &&
  match empty_interior parts with
  | [] =>
      (n =? 8)%nat && negb (String.eqb first EmptyString)
      && negb (String.eqb lastp EmptyString)
      && forallb hextet_ok parts
  | [k] =>
      let hi := k in
      let lo := (n - k - 1)%nat in
      let hi_ok := if String.eqb first EmptyString then (hi =? 1)%nat else true in
      let lo_ok := if String.eqb lastp EmptyString then (lo =? 1)%nat else true in
      let hi' := if String.eqb first EmptyString then (hi - 1)%nat else hi in
      let lo' := if String.eqb lastp EmptyString then (lo - 1)%nat else lo in
      hi_ok && lo_ok && (hi' + lo' <? 8)%nat
      && forallb hextet_ok (take hi' parts)
      && forallb hextet_ok (drop (n - lo') parts)
  | _ => false
  end.

(** [IPv6Address(s)] succeeds. *)
Definition ipv6_ok (s : string) : bool :=
  negb (PyStr.contains s "/")
  && match PyStr.partition s "%" with
     | (addr, true, scope) =>
         negb (String.eqb scope EmptyString) && negb (PyStr.contains scope "%")
         && ipv6_parts_ok addr
     | (addr, false, _) => ipv6_parts_ok addr
     end.

Inductive ip_kind := IPv4 | IPv6.

(** [ipaddress.ip_address(s)]: the version of the address, or the
    [ValueError] it raises. *)
Definition ip_address (s : string) : pyexc + ip_kind :=
  if ipv4_ok s then inr IPv4
  else if ipv6_ok s then inr IPv6
  else inl (ValueError (PyStr.repr s ++ " does not appear to be an IPv4 or IPv6 address")).

End IpAddress.

Module Url.

Record parse_result := mk_parse_result {
  pr_bytes : bool;       (** a [ParseResultBytes] rather than a [ParseResult] *)
  scheme : string;
  netloc : string;
  path : string;
  params : string;
  query : string;
  fragment : string
}.

Definition is_c0_or_space (c : ascii) : bool := (nat_of_ascii c <=? 32)%nat.

Fixpoint lstrip_c0 (s : string) : string :=
  match s with
  | EmptyString => EmptyString
  | String c s' => if is_c0_or_space c then lstrip_c0 s' else s
  end.

Definition remove_unsafe (s : string) : string :=
  PyStr.remove_char (ascii_of_nat 10)
    (PyStr.remove_char (ascii_of_nat 13) (PyStr.remove_char (ascii_of_nat 9) s)).

Definition is_scheme_char (c : ascii) : bool :=
  PyStr.is_alpha c || PyStr.is_digit c || PyStr.char_in c "+-.".

(** The scheme test of [urlsplit]: (scheme, rest). *)
Definition split_scheme (url : string) : string * string :=
  match PyStr.find url ":", url with
  | Some (S _ as i), String c0 _ =>
      if PyStr.is_alpha c0 && PyStr.for_all is_scheme_char (PyStr.take i url)
      then (PyStr.lower (PyStr.take i url), PyStr.drop (S i) url)
      else (EmptyString, url)
  | _, _ => (EmptyString, url)
  end.

(** [url.find(c, start)] *)
Definition find_from (url : string) (c : string) (start : nat) : option nat :=
  (fun i => start + i)%nat <$> PyStr.find (PyStr.drop start url) c.

(** [_splitnetloc(url, 2)]: the network location up to the first of
    [/], [?], [#], and the rest. *)
Definition splitnetloc (url : string) : string * string :=
  let n := String.length url in
  let d := fold_left (fun acc c => match find_from url c 2 with
                                   | Some w => Nat.min acc w
                                   | None => acc
                                   end) ["/"; "?"; "#"] n in
  (substring 2 (d - 2) url, PyStr.drop d url).

(** [_check_bracketed_host] *)
Definition check_bracketed_host (h : string) : option pyexc :=
  if PyStr.startswith h "v" then
    (* [re.match(r"\Av[a-fA-F0-9]+\..+\Z", h)] *)
    match PyStr.partition (PyStr.drop 1 h) "." with
    | (hex, true, rest) =>
        if PyStr.for_all PyStr.is_hex_digit hex && negb (String.eqb hex EmptyString)
           && negb (String.eqb rest EmptyString)
        then None else Some (ValueError "IPvFuture address is invalid")
    | _ => Some (ValueError "IPvFuture address is invalid")
    end
  else match IpAddress.ip_address h with
       | inl e => Some e
       | inr IpAddress.IPv4 => Some (ValueError "An IPv4 address cannot be in brackets")
       | inr IpAddress.IPv6 => None
       end.

(** [_check_bracketed_netloc] *)
Definition check_bracketed_netloc (netloc : string) : option pyexc :=
  let '(_, _, hp) := PyStr.rpartition netloc "@" in
  match PyStr.partition hp "[" with
  | (before, true, bracketed) =>
      if negb (String.eqb before EmptyString) then Some (ValueError "Invalid IPv6 URL")
      else let '(h, _, port) := PyStr.partition bracketed "]" in
           if negb (String.eqb port EmptyString) && negb (PyStr.startswith port ":")
           then Some (ValueError "Invalid IPv6 URL")
           else check_bracketed_host h
  | (_, false, _) =>
      let '(h, _, _) := PyStr.partition hp ":" in check_bracketed_host h
  end.

(** [urlsplit(url)] for a [str] argument: (scheme, netloc, path, query,
    fragment) or the [ValueError] it raises. *)
Definition urlsplit (url0 : string) : pyexc + (string * string * string * string * string) :=
  let url1 := remove_unsafe (lstrip_c0 url0) in
  let '(sch, url2) := split_scheme url1 in
  let '(nl, url3) :=
    if PyStr.startswith url2 "//" then splitnetloc url2 else (EmptyString, url2) in
  let has_open := PyStr.contains nl "[" in
  let has_close := PyStr.contains nl "]" in
  if (has_open && negb has_close) || (has_close && negb has_open)
  then inl (ValueError "Invalid IPv6 URL")
  else
    match (if has_open && has_close then check_bracketed_netloc nl else None) with
    | Some e => inl e
    | None =>
        let '(url4, frag) :=
          match PyStr.partition url3 "#" with
          | (u, true, f) => (u, f)
          | (u, false, _) => (u, EmptyString)
          end in
        let '(url5, q) :=
          match PyStr.partition url4 "?" with
          | (u, true, q) => (u, q)
          | (u, false, _) => (u, EmptyString)
          end in
        inr (sch, nl, url5, q, frag)
    end.

Definition uses_params : list string :=
  [EmptyString; "ftp"; "hdl"; "prospero"; "http"; "imap"; "https"; "shttp";
   "rtsp"; "rtspu"; "sip"; "sips"; "mms"; "sftp"; "tel"].

(** [_splitparams(url)] *)
Definition splitparams (url : string) : string * string :=
  let i :=
    if PyStr.contains url "/"
    then find_from url ";" (default 0 (PyStr.rfind url "/"))
    else PyStr.find url ";" in
  match i with
  | Some i => (PyStr.take i url, PyStr.drop (S i) url)
  | None => (url, EmptyString)
  end.

(** [urlparse(url)] for a [str] argument. *)
Definition urlparse_str (url : string) : pyexc + parse_result :=
  match urlsplit url with
  | inl e => inl e
  | inr (sch, nl, p, q, f) =>
      let '(p', prm) :=
        if bool_decide (sch ∈ uses_params) && PyStr.contains p ";"
        then splitparams p else (p, EmptyString) in
      inr (mk_parse_result false sch nl p' prm q f)
  end.

Definition empty_bytes_result : parse_result :=
  mk_parse_result true EmptyString EmptyString EmptyString EmptyString EmptyString EmptyString.

(** [urlparse(v)] for any value: a [str] is parsed; any other value is
    coerced by [_coerce_args], which maps a false value to [b''] and calls
    [.decode()] on a true one. *)
Definition urlparse (v : pyval) : pyexc + parse_result :=
  match v with
  | PyStr s => urlparse_str s
  | PyBytes bs =>
      match urlparse_str (string_of_list_byte bs) with
      | inl e => inl e
      | inr r => inr (mk_parse_result true (scheme r) (netloc r) (path r)
                                       (params r) (query r) (fragment r))
      end
  | _ => if truthy v then inl (no_attribute v "decode") else inr empty_bytes_result
  end.

(** The [_hostinfo] property: (hostname, port text). *)
Definition hostinfo (r : parse_result) : string * option string :=
  let '(_, _, hi) := PyStr.rpartition (netloc r) "@" in
  let '(h, p) :=
    match PyStr.partition hi "[" with
    | (_, true, bracketed) =>
        let '(h, _, rest) := PyStr.partition bracketed "]" in
        let '(_, _, p) := PyStr.partition rest ":" in (h, p)
    | (_, false, _) =>
        let '(h, _, p) := PyStr.partition hi ":" in (h, p)
    end in
  (h, if String.eqb p EmptyString then None else Some p).

(** The [hostname] property. *)
Definition hostname (r : parse_result) : option string :=
  let h := fst (hostinfo r) in
  if String.eqb h EmptyString then None
  else let '(a, pct, zone) := PyStr.partition h "%" in
       Some (PyStr.lower a ++ (if pct then "%" else EmptyString) ++ zone).

(** The [port] property. *)
Definition port (r : parse_result) : pyexc + option Z :=
  match snd (hostinfo r) with
  | None => inr None
  | Some p =>
      if PyStr.isdigit p then
        let n := PyStr.int_of_digits p in
        if (0 <=? n)%Z && (n <=? 65535)%Z then inr (Some n)
        else inl (ValueError "Port out of range 0-65535")
      else inl (ValueError ("Port could not be cast to integer value as " ++ PyStr.repr p))
  end.

(** [f'{url}']: the named tuple's [repr]. *)
Definition repr (r : parse_result) : string :=
  let q s := if pr_bytes r then "b" ++ PyStr.repr s else PyStr.repr s in
  (if pr_bytes r then "ParseResultBytes(" else "ParseResult(")
    ++ "scheme=" ++ q (scheme r) ++ ", netloc=" ++ q (netloc r)
    ++ ", path=" ++ q (path r) ++ ", params=" ++ q (params r)
    ++ ", query=" ++ q (query r) ++ ", fragment=" ++ q (fragment r) ++ ")".

(** ** The [hostname] and [port] attributes *)

(** A host name, when there is one, is not empty. *)
Lemma hostname_nonempty r h : hostname r = Some h -> h <> EmptyString.
Proof.
  unfold hostname. destruct (String.eqb (fst (hostinfo r)) EmptyString) eqn:He;
    [discriminate|].
  destruct (PyStr.partition (fst (hostinfo r)) "%") as [[a pct] zone] eqn:P.
  intros [= <-] Hh. apply (f_equal String.length) in Hh.
  rewrite !PyStr.str_length_app in Hh. destruct pct; [simpl in Hh; lia|].
  apply PyStr.partition_not_found in P as [-> _]. rewrite PyStr.lower_length in Hh.
  apply String.eqb_neq in He. destruct (fst (hostinfo r)); simpl in *; [done|lia].
Qed.

(** A port, when there is one, is in the range 0-65535. *)
Lemma port_range r n : port r = inr (Some n) -> (0 <= n <= 65535)%Z.
Proof.
  unfold port. destruct (snd (hostinfo r)) as [p|]; [|discriminate].
  destruct (PyStr.isdigit p); [|discriminate].
  destruct (0 <=? PyStr.int_of_digits p)%Z eqn:H1, (PyStr.int_of_digits p <=? 65535)%Z eqn:H2;
    simpl; try discriminate.
  intros [= <-]. apply Z.leb_le in H1, H2. lia.
Qed.

End Url.
