(* ===== verification/Net.v ===== *)
(** * The network world and the [http.client] connection

    [fetch.py] talks to the network only through an
    [http.client.HTTPSConnection] and its SSL socket.  This file models
    that object as the code uses it: the constructor's host validation,
    [connect()] (TCP connection and TLS handshake), the socket's
    [getpeercert], and the request protocol [putrequest], [putheader],
    [endheaders], [send], [getresponse] with the connection's state
    machine [_CS_IDLE -> _CS_REQ_STARTED -> _CS_REQ_SENT -> _CS_IDLE],
    then [close()].  Headers are validated as [http.client] does.

    What the network and the server do is the [world]: the handshake as
    a function of host and port (a certificate or the text of the error
    raised), and the response as a function of the request the
    connection actually sent, or the error [begin()] raises reading it
    ([getresponse] closes the connection itself on a [ConnectionError]
    and when the response will close).  Every call on the connection
    appends an
    [event] to the trace, so that ordering properties (certificate before
    request, close after response) are statements about the trace. *)

From Stdlib Require Import ZArith String Ascii Strings.Byte.
From stdpp Require Import base list strings option.
From S2P Require Import Prelude PyStr PyVal Url.

Open Scope string_scope.

Import PyVal.

Module Net.

Record peer_cert := mk_peer_cert {
  der : list byte;       (** [getpeercert(True)] *)
  decoded : pydict       (** [getpeercert(False)] *)
}.

(** A request as the server receives it. *)
Record request := mk_request {
  rq_method : string;
  rq_url : string;
  rq_headers : list (string * string);
  rq_body : option (list byte)
}.

Record response := mk_response {
  rs_status : Z;
  rs_reason : string;
  rs_headers : list (string * string);
  rs_body : list byte;
  (** [response.will_close], as [begin()] computes it from the status
      line and the headers ([Connection: close], HTTP/1.0 without
      keep-alive, no length and no chunking). *)
  rs_will_close : bool
}.

(** Why [response.begin()] fails: a [ConnectionError] (the server closed
    or reset the connection: [RemoteDisconnected],
    [ConnectionResetError]), or another transport or protocol error (a
    timeout, an SSL error, a malformed status line). *)
Inductive transport_error : Type :=
| ConnectionLost (msg : string)
| TransportFailure (msg : string).

Record world := mk_world {
  (** [socket.create_connection] and [wrap_socket] on [(host, port)]: the
      verified peer certificate, or the text of the exception raised. *)
  handshake : string -> Z -> string + peer_cert;
  (** [getresponse()] and [read()]: the server's answer to the request
      sent, or the transport error [begin()] raises. *)
  respond : string -> Z -> request -> transport_error + response;
  (** [subprocess.run(argv, input=..., stdout=PIPE, text=True)]: standard
      output and standard error (merged into the output when the flag is
      set), or the text of the [OSError] raised when the program cannot
      be started. *)
  run : list string -> option string -> bool -> string + (string * string);
  (** How many more objects and arrays [json.loads] may nest when the
      handler calls it: [sys.getrecursionlimit()] less the depth of the
      interpreter's stack at the call, which the model does not compute;
      CPython raises [RecursionError] beyond it. *)
  recursion_headroom : nat
}.

Inductive event : Type :=
| EvLog (to_handler : bool) (msg : string)
| EvHandshake (host : string) (port : Z)
| EvPeerCert (binary : bool)
| EvPutRequest (method url : string)
| EvPutHeader (name value : string)
| EvEndHeaders (body : option (list byte))
| EvSend (data : list byte)
| EvGetResponse
| EvClose
| EvRun (argv : list string).

#[export] Instance byte_eq_dec : EqDecision byte := Byte.byte_eq_dec.
#[export] Instance event_eq_dec : EqDecision event.
Proof. solve_decision. Defined.

Abbreviation NetM A := (M (list event) pyexc A).

Inductive cstate := CS_IDLE | CS_REQ_STARTED | CS_REQ_SENT.

Definition cstate_str (st : cstate) : string :=
  match st with
  | CS_IDLE => "Idle"
  | CS_REQ_STARTED => "Request-started"
  | CS_REQ_SENT => "Request-sent"
  end.

(** The connection object. *)
Record conn := mk_conn {
  c_host : string;
  c_port : Z;
  c_sock : option peer_cert;            (** the SSL socket after [connect()] *)
  c_state : cstate;
  c_method : string;
  c_url : string;
  c_headers : list (string * string);
  c_body : option (list byte);
  c_closed : bool
}.

(** ** Validation of [http.client] *)

(** The first character of [[\x00-\x20\x7f]] in a string. *)
Fixpoint first_disallowed (s : string) : option ascii :=
  match s with
  | EmptyString => None
  | String c s' =>
      if (nat_of_ascii c <=? 32)%nat || (nat_of_ascii c =? 127)%nat then Some c
      else first_disallowed s'
  end.

(** The first character of [[\x00-\x1f]]. *)
Fixpoint first_control (s : string) : option ascii :=
  match s with
  | EmptyString => None
  | String c s' => if (nat_of_ascii c <? 32)%nat then Some c else first_control s'
  end.

Definition control_chars_msg (what : string) (s : string) (c : ascii) : string :=
  what ++ " can't contain control characters. " ++ PyStr.repr s
    ++ " (found at least " ++ PyStr.repr (String c EmptyString) ++ ")".

Fixpoint all_ascii (s : string) : bool :=
  match s with
  | EmptyString => true
  | String c s' => (nat_of_ascii c <? 128)%nat && all_ascii s'
  end.

(** [_is_legal_header_name]: [[^:\s][^:\r\n]*] matches the whole name. *)
Definition is_space_byte (c : ascii) : bool :=
  let n := nat_of_ascii c in ((9 <=? n) && (n <=? 13))%nat || (n =? 32)%nat.

Definition legal_header_name (h : string) : bool :=
  match h with
  | EmptyString => false
  | String c rest =>
      negb (Ascii.eqb c ":") && negb (is_space_byte c)
      && PyStr.for_all (fun d => negb (Ascii.eqb d ":")
                                 && negb (nat_of_ascii d =? 10)%nat
                                 && negb (nat_of_ascii d =? 13)%nat) rest
  end.

(** [_is_illegal_header_value]: a line feed not followed by a space or a
    tab, or a carriage return not followed by a space, tab or line feed. *)
Fixpoint illegal_header_value (v : string) : bool :=
  match v with
  | EmptyString => false
  | String c rest =>
      let next := match rest with String d _ => Some (nat_of_ascii d) | _ => None end in
      let n := nat_of_ascii c in
      ((n =? 10)%nat && negb (bool_decide (next = Some 32%nat \/ next = Some 9%nat)))
      || ((n =? 13)%nat
          && negb (bool_decide (next = Some 32%nat \/ next = Some 9%nat \/ next = Some 10%nat)))
      || illegal_header_value rest
  end.

(** The bytes [putheader] sends for one value, after its conversion:
    a [str] as is, an [int] (or [bool]) through [str()], bytes as they
    are; anything else reaches the regular expression, which raises. *)
Definition header_value_text (v : pyval) : pyexc + string :=
  match v with
  | PyStr s => inr s
  | PyInt z => inr (PyStr.str_int z)
  | PyBool b => inr (bool_str b)
  | PyBytes bs => inr (string_of_list_byte bs)
  | _ => inl (TypeError ("expected string or bytes-like object, got '" ++ type_name v ++ "'"))
  end.

Section Connection.
Context (w : world).

(** [HTTPSConnection(host, port=port, context=...)] *)
Definition https_connection (host : string) (port : Z) : NetM conn :=
  match first_disallowed host with
  | Some c => raise (InvalidURL (control_chars_msg "URL" host c))
  | None => ret (mk_conn host port None CS_IDLE EmptyString EmptyString [] None false)
  end.

(** [connection.connect()] *)
Definition connect (c : conn) : NetM conn :=
  let* _ := emit (EvHandshake (c_host c) (c_port c)) in
  match handshake w (c_host c) (c_port c) with
  | inl msg => raise (OSError msg)
  | inr pc => ret (mk_conn (c_host c) (c_port c) (Some pc) (c_state c) (c_method c)
                           (c_url c) (c_headers c) (c_body c) (c_closed c))
  end.

(** [connection.sock.getpeercert(binary)]: DER bytes or the decoded
    dictionary; the code only calls it on a connected socket. *)
Definition getpeercert_der (c : conn) : NetM (list byte) :=
  let* _ := emit (EvPeerCert true) in
  match c_sock c with
  | Some pc => ret (der pc)
  | None => raise (no_attribute PyNone "getpeercert")
  end.

Definition getpeercert_dict (c : conn) : NetM pydict :=
  let* _ := emit (EvPeerCert false) in
  match c_sock c with
  | Some pc => ret (decoded pc)
  | None => raise (no_attribute PyNone "getpeercert")
  end.

Definition add_header (c : conn) (name value : string) : conn :=
  mk_conn (c_host c) (c_port c) (c_sock c) (c_state c) (c_method c) (c_url c)
          ((c_headers c ++ [(name, value)])%list) (c_body c) (c_closed c).

(** [connection.putheader(header, value)] *)
Definition putheader (c : conn) (name : string) (value : pyval) : NetM conn :=
  match c_state c with
  | CS_REQ_STARTED =>
      if negb (all_ascii name) then
        raise (UnicodeEncodeError "'ascii' codec can't encode the header name")
      else if negb (legal_header_name name) then
        raise (ValueError ("Invalid header name " ++ PyStr.repr_bytes name))
      else
        let* v := of_sum (header_value_text value) in
        if illegal_header_value v then
          raise (ValueError ("Invalid header value " ++ PyStr.repr_bytes v))
        else
          let* _ := emit (EvPutHeader name v) in
          ret (add_header c name v)
  | _ => raise CannotSendHeader
  end.

(** The [Host] header [putrequest] adds: the URL's network location
    when the URL starts with [http], else the connection's host, in
    brackets when it has a colon, with the port when it is not 443. *)
Definition host_header (c : conn) (url : string) : pyexc + string :=
  let nl :=
    if PyStr.startswith url "http" then
      match Url.urlsplit url with
      | inl e => inl e
      | inr (_, nl, _, _, _) => inr nl
      end
    else inr EmptyString in
  match nl with
  | inl e => inl e
  | inr nl =>
      if negb (String.eqb nl EmptyString) then inr nl
      else
        let h := if PyStr.contains (c_host c) ":" then "[" ++ c_host c ++ "]" else c_host c in
        if Z.eqb (c_port c) 443 then inr h else inr (h ++ ":" ++ PyStr.str_int (c_port c))
  end.

(** [connection.putrequest(method, url)] *)
Definition putrequest (c : conn) (method : pyval) (url0 : string) : NetM conn :=
  match c_state c with
  | CS_IDLE =>
      match method with
      | PyStr m =>
          match first_control m with
          | Some ch => raise (ValueError (control_chars_msg "method" m ch))
          | None =>
              let url := if String.eqb url0 EmptyString then "/" else url0 in
              match first_disallowed url with
              | Some ch => raise (InvalidURL (control_chars_msg "URL" url ch))
              | None =>
                  if negb (all_ascii m && all_ascii url) then
                    raise (UnicodeEncodeError "'ascii' codec can't encode the request line")
                  else
                    let* _ := emit (EvPutRequest m url) in
                    let c1 := mk_conn (c_host c) (c_port c) (c_sock c) CS_REQ_STARTED m url
                                      [] None (c_closed c) in
                    let* host := of_sum (host_header c1 url) in
                    let* c2 := putheader c1 "Host" (PyStr host) in
                    putheader c2 "Accept-Encoding" (PyStr "identity")
              end
          end
      | _ => raise (TypeError ("expected string or bytes-like object, got '"
                               ++ type_name method ++ "'"))
      end
  | st => raise (CannotSendRequest (cstate_str st))
  end.

(** [connection.endheaders(body)] *)
Definition endheaders (c : conn) (body : option (list byte)) : NetM conn :=
  match c_state c with
  | CS_REQ_STARTED =>
      let* _ := emit (EvEndHeaders body) in
      ret (mk_conn (c_host c) (c_port c) (c_sock c) CS_REQ_SENT (c_method c) (c_url c)
                   (c_headers c) body (c_closed c))
  | _ => raise CannotSendHeader
  end.

(** [connection.send(data)] *)
Definition send (c : conn) (data : list byte) : NetM unit := emit (EvSend data).

Definition sent_request (c : conn) : request :=
  mk_request (c_method c) (c_url c) (c_headers c) (c_body c).

(** [connection.close()] *)
Definition close (c : conn) : NetM conn :=
  let* _ := emit EvClose in
  ret (mk_conn (c_host c) (c_port c) None CS_IDLE (c_method c) (c_url c)
               (c_headers c) (c_body c) true).

(** [connection.getresponse()]: [begin()] reads the response; on a
    [ConnectionError] the connection closes itself and re-raises, and
    when the response will close, the connection hands its socket to the
    response and closes ([self.close()] in both places). *)
Definition getresponse (c : conn) : NetM (conn * response) :=
  match c_state c with
  | CS_REQ_SENT =>
      let* _ := emit EvGetResponse in
      match respond w (c_host c) (c_port c) (sent_request c) with
      | inl (ConnectionLost msg) =>
          let* _ := close c in
          raise (ConnectionError msg)
      | inl (TransportFailure msg) => raise (OSError msg)
      | inr r =>
          let c' := mk_conn (c_host c) (c_port c) (c_sock c) CS_IDLE (c_method c) (c_url c)
                            (c_headers c) (c_body c) (c_closed c) in
          if rs_will_close r then
            let* c'' := close c' in
            ret (c'', r)
          else ret (c', r)
      end
  | st => raise (ResponseNotReady (cstate_str st))
  end.

(** [subprocess.run(argv, ...)] *)
Definition subprocess_run (argv : list string) (input : option string) (merge : bool)
  : NetM (string * string) :=
  let* _ := emit (EvRun argv) in
  match run w argv input merge with
  | inl msg => raise (OSError msg)
  | inr out => ret out
  end.

End Connection.

(** ** Every operation of the connection only appends to the trace *)

Section Monotone.
Context (w : world).

Lemma https_connection_framed h p : framed (https_connection h p).
Proof. unfold https_connection. solve_framed. Qed.

Lemma connect_framed c : framed (connect w c).
Proof. unfold connect. solve_framed. Qed.

Lemma getpeercert_der_framed c : framed (getpeercert_der c).
Proof. unfold getpeercert_der. solve_framed. Qed.

Lemma getpeercert_dict_framed c : framed (getpeercert_dict c).
Proof. unfold getpeercert_dict. solve_framed. Qed.


Lemma putheader_framed c n v : framed (putheader c n v).
Proof. unfold putheader. solve_framed. Qed.
Hint Resolve putheader_framed : pyfetch.

Lemma putrequest_framed c m u : framed (putrequest c m u).
Proof. unfold putrequest. solve_framed. Qed.

Lemma endheaders_framed c b : framed (endheaders c b).
Proof. unfold endheaders. solve_framed. Qed.

Lemma send_framed c d : framed (send c d).
Proof. unfold send. solve_framed. Qed.

Lemma getresponse_framed c : framed (getresponse w c).
Proof. unfold getresponse. solve_framed. Qed.

Lemma subprocess_run_framed a i m : framed (subprocess_run w a i m).
Proof. unfold subprocess_run. solve_framed. Qed.

Lemma close_framed c : framed (close c).
Proof. unfold close. solve_framed. Qed.
End Monotone.

#[export] Hint Resolve https_connection_framed connect_framed getpeercert_der_framed
  getpeercert_dict_framed putheader_framed putrequest_framed
  endheaders_framed send_framed getresponse_framed subprocess_run_framed
  close_framed : pyfetch.

(** ** The connection keeps its endpoint *)

(** The host and port a connection object was made for. *)
Definition endpoint (h : string) (p : Z) (c : conn) : Prop := c_host c = h /\ c_port c = p.

(** Prove that a computation returns a connection, or a response, of the
    endpoint: [lem] states it of an operation, [H] of its argument. *)
Ltac endpoint_step lem H :=
  first [ apply lem; first [assumption | exact H]
        | eapply bind_returns_with; [apply lem; first [assumption | exact H]|] ].

Section Endpoint.
Context (w : world) (h : string) (p : Z).

Lemma putheader_endpoint c n v : endpoint h p c -> returns_only (endpoint h p) (putheader c n v).
Proof. intros Hc. unfold putheader. solve_returns_with ltac:(apply ret_returns; exact Hc). Qed.

Lemma putrequest_endpoint c m u : endpoint h p c -> returns_only (endpoint h p) (putrequest c m u).
Proof.
  intros Hc. unfold putrequest. solve_returns_with ltac:(endpoint_step putheader_endpoint Hc).
Qed.

Lemma endheaders_endpoint c b : endpoint h p c -> returns_only (endpoint h p) (endheaders c b).
Proof. intros Hc. unfold endheaders. solve_returns_with ltac:(apply ret_returns; exact Hc). Qed.

(** The response [getresponse] returns is the world's answer to a request
    on the endpoint. *)
Definition answered (r : conn * response) : Prop :=
  endpoint h p (fst r) /\ exists rq, respond w h p rq = inr (snd r).

Lemma close_endpoint c : endpoint h p c -> returns_only (endpoint h p) (close c).
Proof. intros Hc. unfold close. solve_returns_with ltac:(apply ret_returns; exact Hc). Qed.

Lemma getresponse_answered c : endpoint h p c -> returns_only answered (getresponse w c).
Proof.
  intros Hc. pose proof Hc as [Hh Hp]. unfold getresponse.
  destruct (c_state c); try apply raise_returns. apply bind_returns. intros _.
  destruct (respond _ _ _ _) as [[m|m]|r] eqn:E; [solve_returns..|].
  assert (Hr : exists rq, respond w h p rq = inr r)
    by (exists (sent_request c); by rewrite <- Hh, <- Hp).
  destruct (rs_will_close r); [|by apply ret_returns].
  eapply bind_returns_with; [apply close_endpoint; exact Hc|]. intros c'' Hc''.
  by apply ret_returns.
Qed.
End Endpoint.

(** ** Which events each operation emits *)

(** The events of one request on the connection. *)
Definition request_event (e : event) : Prop :=
  match e with
  | EvPutRequest _ _ | EvPutHeader _ _ | EvEndHeaders _ | EvSend _ | EvGetResponse => True
  | _ => False
  end.

Section Emits.
Context (w : world).

Lemma putheader_emits c n v : emits_only request_event (putheader c n v).
Proof. unfold putheader. solve_emits. Qed.
Hint Resolve putheader_emits : pyfetch.

Lemma putrequest_emits c m u : emits_only request_event (putrequest c m u).
Proof. unfold putrequest. solve_emits. Qed.

Lemma endheaders_emits c b : emits_only request_event (endheaders c b).
Proof. unfold endheaders. solve_emits. Qed.

Lemma send_emits c d : emits_only request_event (send c d).
Proof. unfold send. solve_emits. Qed.

End Emits.

#[export] Hint Resolve putheader_emits putrequest_emits endheaders_emits send_emits : pyfetch.

(** ** Where a request closes the connection *)

(** The close [getresponse] performs when the response will close. *)
Definition closed_if (will_close : bool) : list event := if will_close then [EvClose] else [].

(** A request's events close the connection at most once, as their last
    event and right after [getresponse]: the close [http.client]
    performs inside [getresponse]. *)
Definition closes_last (ext : list event) : Prop :=
  EvClose ∈ ext -> exists e', ext = (e' ++ [EvGetResponse; EvClose])%list /\ EvClose ∉ e'.

Lemma closes_last_nil : closes_last [].
Proof. by intros ?%not_elem_of_nil. Qed.

Lemma closes_last_app e1 e2 :
  Forall request_event e1 -> closes_last e2 -> closes_last (e1 ++ e2)%list.
Proof.
  intros F1 H2. assert (Hn1 : EvClose ∉ e1) by (apply (Forall_not_elem_of _ _ _ F1); simpl; tauto).
  intros [Hin|Hin]%elem_of_app; [done|].
  destruct (H2 Hin) as (e' & -> & Hn). exists (e1 ++ e')%list.
  rewrite <- app_assoc. split; [done|]. rewrite elem_of_app. by intros [H|H].
Qed.

Lemma closes_last_getresponse : closes_last [EvGetResponse].
Proof. by intros ?%list_elem_of_singleton. Qed.

Lemma closes_last_getresponse_close : closes_last [EvGetResponse; EvClose].
Proof. intros _. exists []. split; [done|apply not_elem_of_nil]. Qed.

Lemma getresponse_closes_last w c : emits_with closes_last (getresponse w c).
Proof.
  intros tr. unfold getresponse, close.
  destruct (c_state c); cbn; try (exists []; rewrite app_nil_r; split; [done|apply closes_last_nil]).
  destruct (respond _ _ _ _) as [[m|m]|r]; [| |destruct (rs_will_close r)]; cbn;
    first [ exists [EvGetResponse; EvClose]; rewrite <- app_assoc; split; [done|];
            apply closes_last_getresponse_close
          | exists [EvGetResponse]; split; [done|apply closes_last_getresponse] ].
Qed.

End Net.
