(* ===== verification/Json.v ===== *)
(** * [json.dumps] and [json.loads]

    [Fetcher._request] serialises a [bodyObject] with [json.dumps] and
    [Fetcher._parse_JSON] parses the response body with [json.loads],
    turning its [JSONDecodeError] into a failure dictionary with the
    message, line and column.  This file models both as Python 3.11 runs
    them: [json.dumps] with its default separators [", "] and [": "] and
    [ensure_ascii], and [json.loads] with CPython's C scanner
    ([scan_once_unicode], [scanstring_unicode], [_parse_object_unicode],
    [_parse_array_unicode], [_match_number_unicode]), its error messages
    and positions, the byte-order-mark check and the 4300-digit limit of
    integer conversion.

    Text is held as UTF-8 bytes; [\uXXXX] escapes are encoded to UTF-8
    (a lone surrogate to its three-byte form), error positions are
    counted in code points as Python counts them.  A float is kept as the
    literal it was read from and printed as such by [json.dumps] (Python
    prints the shortest [repr] of the double: [1.50] comes back as
    [1.5]).  The scanner runs on fuel: every call of [scan_once],
    [object_members] and [array_items] spends one unit, and every two
    units consume at least one character, so [loads] gives it
    [json_fuel] = twice the length of the document plus one, which
    [scan_fuel_enough] proves is never exhausted.  CPython's recursion
    limit is modelled apart from the fuel: [scan_once] enters one level
    at every object and array ([Py_EnterRecursiveCall]) and raises
    [RecursionError] when none is left; how many levels are left when
    the handler calls [loads] depends on the caller's stack and is the
    argument [depth]. *)

From Stdlib Require Import ZArith String Ascii Strings.Byte Lia.
From stdpp Require Import base list strings option.
From S2P Require Import Prelude PyStr PyVal.

Open Scope string_scope.

Import PyVal.

Module Json.

(** ** Code points and UTF-8 *)

Definition byte_of (n : Z) : ascii := ascii_of_nat (Z.to_nat n).

(** The UTF-8 bytes of a code point (a surrogate gets the three-byte form). *)
Definition utf8_encode (cp : Z) : list ascii :=
  if (cp <? 0x80)%Z then [byte_of cp]
  else if (cp <? 0x800)%Z then
    [byte_of (Z.lor 0xC0 (Z.shiftr cp 6)); byte_of (Z.lor 0x80 (Z.land cp 0x3F))]
  else if (cp <? 0x10000)%Z then
    [byte_of (Z.lor 0xE0 (Z.shiftr cp 12));
     byte_of (Z.lor 0x80 (Z.land (Z.shiftr cp 6) 0x3F));
     byte_of (Z.lor 0x80 (Z.land cp 0x3F))]
  else
    [byte_of (Z.lor 0xF0 (Z.shiftr cp 18));
     byte_of (Z.lor 0x80 (Z.land (Z.shiftr cp 12) 0x3F));
     byte_of (Z.lor 0x80 (Z.land (Z.shiftr cp 6) 0x3F));
     byte_of (Z.lor 0x80 (Z.land cp 0x3F))].

Definition bval (c : ascii) : Z := Z.of_nat (nat_of_ascii c).

Definition low6 (c : ascii) : Z := Z.land (bval c) 0x3F.

(** The code points of UTF-8 text (a stray byte stands for itself). *)
Fixpoint utf8_decode (l : list ascii) : list Z :=
  match l with
  | [] => []
  | c :: r =>
      let b := bval c in
      if (b <? 0x80)%Z then b :: utf8_decode r
      else if (0xC0 <=? b)%Z && (b <? 0xE0)%Z then
        match r with
        | c1 :: r' => Z.lor (Z.shiftl (Z.land b 0x1F) 6) (low6 c1) :: utf8_decode r'
        | [] => [b]
        end
      else if (0xE0 <=? b)%Z && (b <? 0xF0)%Z then
        match r with
        | c1 :: c2 :: r' =>
            Z.lor (Z.shiftl (Z.land b 0x0F) 12) (Z.lor (Z.shiftl (low6 c1) 6) (low6 c2))
              :: utf8_decode r'
        | _ => b :: utf8_decode r
        end
      else if (0xF0 <=? b)%Z then
        match r with
        | c1 :: c2 :: c3 :: r' =>
            Z.lor (Z.shiftl (Z.land b 0x07) 18)
              (Z.lor (Z.shiftl (low6 c1) 12) (Z.lor (Z.shiftl (low6 c2) 6) (low6 c3)))
              :: utf8_decode r'
        | _ => b :: utf8_decode r
        end
      else b :: utf8_decode r
  end.

(** The number of code points in the first [n] bytes: Python's index of
    byte position [n] (continuation bytes [10xxxxxx] do not count). *)
Definition cp_index (doc : list ascii) (n : nat) : nat :=
  length (filter (fun c => negb ((0x80 <=? bval c)%Z && (bval c <? 0xC0)%Z)) (take n doc)).

(** ** [json.dumps] *)

Definition hex_char (n : Z) : ascii := PyStr.hex_digit (Z.to_nat n).

Definition hex4 (n : Z) : string :=
  String (hex_char (Z.shiftr n 12 mod 16))
    (String (hex_char (Z.shiftr n 8 mod 16))
       (String (hex_char (Z.shiftr n 4 mod 16))
          (String (hex_char (n mod 16)) EmptyString))).

Definition u_escape (n : Z) : string := "\u" ++ hex4 n.

(** [py_encode_basestring_ascii] on one code point. *)
Definition escape_cp (cp : Z) : string :=
  if (cp =? 34)%Z then String "\" (String PyStr.dquote EmptyString)
  else if (cp =? 92)%Z then "\\"
  else if (cp =? 10)%Z then "\n"
  else if (cp =? 13)%Z then "\r"
  else if (cp =? 9)%Z then "\t"
  else if (cp =? 8)%Z then "\b"
  else if (cp =? 12)%Z then "\f"
  else if (32 <=? cp)%Z && (cp <=? 126)%Z then String (byte_of cp) EmptyString
  else if (cp <? 0x10000)%Z then u_escape cp
  else
    let v := (cp - 0x10000)%Z in
    u_escape (Z.lor 0xD800 (Z.land (Z.shiftr v 10) 0x3FF))
      ++ u_escape (Z.lor 0xDC00 (Z.land v 0x3FF)).

Definition quote (s : string) : string :=
  String PyStr.dquote
    (PyStr.join_all (map escape_cp (utf8_decode (list_ascii_of_string s)))
       ++ String PyStr.dquote EmptyString).

Fixpoint dumps (v : pyval) : pyexc + string :=
  let fix dumps_list (xs : list pyval) : pyexc + list string :=
    match xs with
    | [] => inr []
    | x :: xs' =>
        match dumps x, dumps_list xs' with
        | inl e, _ => inl e
        | inr s, inl e => inl e
        | inr s, inr ss => inr (s :: ss)
        end
    end in
  let fix dumps_dict (kvs : pydict) : pyexc + list string :=
    match kvs with
    | [] => inr []
    | (k, x) :: kvs' =>
        match dumps x, dumps_dict kvs' with
        | inl e, _ => inl e
        | inr s, inl e => inl e
        | inr s, inr ss => inr ((quote k ++ ": " ++ s) :: ss)
        end
    end in
  match v with
  | PyNone => inr "null"
  | PyBool true => inr "true"
  | PyBool false => inr "false"
  | PyInt z => inr (PyStr.str_int z)
  | PyFloat f => inr f
  | PyStr s => inr (quote s)
  | PyBytes _ => inl (TypeError "Object of type bytes is not JSON serializable")
  | PyList xs | PyTuple xs =>
      match dumps_list xs with
      | inl e => inl e
      | inr ss => inr ("[" ++ join ", " ss ++ "]")
      end
  | PyDict kvs =>
      match dumps_dict kvs with
      | inl e => inl e
      | inr ss => inr ("{" ++ join ", " ss ++ "}")
      end
  end.

(** ** [json.loads]: the scanner *)

(** What a scanning function can end with besides a value: [StopIteration]
    (no value starts here), a [JSONDecodeError], or another exception. *)
Inductive jerr : Type :=
| Stop (pos : nat)
| Decode (msg : string) (pos : nat)
| Fatal (e : pyexc).

Abbreviation scan A := (jerr + (A * nat))%type.

Definition is_ws (c : ascii) : bool :=
  let n := nat_of_ascii c in ((n =? 32) || (n =? 9) || (n =? 10) || (n =? 13))%nat.

Fixpoint ws_len (l : list ascii) : nat :=
  match l with
  | c :: l' => if is_ws c then S (ws_len l') else O
  | [] => O
  end.

(** [_w(s, i).end()]: the first position from [i] that is not white space. *)
Definition skip_ws (doc : list ascii) (i : nat) : nat := (i + ws_len (drop i doc))%nat.

Definition at_is (doc : list ascii) (i : nat) (c : ascii) : bool :=
  match doc !! i with Some d => Ascii.eqb d c | None => false end.

Definition hex_val (c : ascii) : option Z :=
  let n := Z.of_nat (nat_of_ascii c) in
  if (48 <=? n)%Z && (n <=? 57)%Z then Some (n - 48)%Z
  else if (65 <=? n)%Z && (n <=? 70)%Z then Some (n - 55)%Z
  else if (97 <=? n)%Z && (n <=? 102)%Z then Some (n - 87)%Z
  else None.

Definition hex4_val (a b c d : ascii) : option Z :=
  match hex_val a, hex_val b, hex_val c, hex_val d with
  | Some x, Some y, Some z, Some t => Some (x * 4096 + y * 256 + z * 16 + t)%Z
  | _, _, _, _ => None
  end.

(** The one-character escapes after a backslash. *)
Definition simple_escape (e : ascii) : option ascii :=
  let n := nat_of_ascii e in
  if (n =? 34)%nat || (n =? 92)%nat || (n =? 47)%nat then Some e
  else if (n =? 98)%nat then Some (ascii_of_nat 8)
  else if (n =? 102)%nat then Some (ascii_of_nat 12)
  else if (n =? 110)%nat then Some (ascii_of_nat 10)
  else if (n =? 114)%nat then Some (ascii_of_nat 13)
  else if (n =? 116)%nat then Some (ascii_of_nat 9)
  else None.

Definition is_high (cp : Z) : bool := (0xD800 <=? cp)%Z && (cp <=? 0xDBFF)%Z.
Definition is_low (cp : Z) : bool := (0xDC00 <=? cp)%Z && (cp <=? 0xDFFF)%Z.
Definition join_surrogates (hi lo : Z) : Z :=
  (0x10000 + Z.shiftl (hi - 0xD800) 10 + (lo - 0xDC00))%Z.

Definition is_char (c : ascii) (n : nat) : bool := (nat_of_ascii c =? n)%nat.

(** [scanstring_unicode] from position [k] (= [length] of what precedes
    [l] in the document) with the characters decoded so far in [acc],
    reversed; [begin] is the position of the opening quote. *)
Fixpoint scan_chars (begin : nat) (l : list ascii) (k : nat) (acc : list ascii)
  : scan (list ascii) :=
  match l with
  | [] => inl (Decode "Unterminated string starting at" begin)
  | c :: l' =>
      if is_char c 34 then inr (rev acc, S k)
      else if is_char c 92 then
        match l' with
        | [] => inl (Decode "Unterminated string starting at" begin)
        | e :: l'' =>
            if negb (is_char e 117) then
              match simple_escape e with
              | Some ch => scan_chars begin l'' (k + 2) (ch :: acc)
              | None => inl (Decode "Invalid \escape" k)
              end
            else
              match l'' with
              | h1 :: h2 :: h3 :: h4 :: l3 =>
                  if bool_decide (l3 = []) then inl (Decode "Invalid \uXXXX escape" (k + 1))
                  else
                    match hex4_val h1 h2 h3 h4 with
                    | None => inl (Decode "Invalid \uXXXX escape" (k + 1))
                    | Some cp =>
                        let lone := scan_chars begin l3 (k + 6) (rev (utf8_encode cp) ++ acc) in
                        if is_high cp && (6 <? length l3)%nat then
                          match l3 with
                          | b :: u :: g1 :: g2 :: g3 :: g4 :: l4 =>
                              if is_char b 92 && is_char u 117 then
                                match hex4_val g1 g2 g3 g4 with
                                | None => inl (Decode "Invalid \uXXXX escape" (k + 7))
                                | Some cp2 =>
                                    if is_low cp2 then
                                      scan_chars begin l4 (k + 12)
                                        (rev (utf8_encode (join_surrogates cp cp2)) ++ acc)
                                    else lone
                                end
                              else lone
                          | _ => lone
                          end
                        else lone
                    end
              | _ => inl (Decode "Invalid \uXXXX escape" (k + 1))
              end
        end
      else if (nat_of_ascii c <=? 31)%nat then inl (Decode "Invalid control character at" k)
      else scan_chars begin l' (S k) (c :: acc)
  end.

(** A string whose opening quote is at [idx]. *)
Definition scan_string (doc : list ascii) (idx : nat) : scan string :=
  match scan_chars idx (drop (S idx) doc) (S idx) [] with
  | inl e => inl e
  | inr (cs, e) => inr (string_of_list_ascii cs, e)
  end.

Fixpoint digits_len (l : list ascii) : nat :=
  match l with
  | c :: l' => if PyStr.is_digit c then S (digits_len l') else O
  | [] => O
  end.

Definition int_max_str_digits : nat := 4300.

(** [_match_number_unicode] at [start]. *)
Definition match_number (doc : list ascii) (start : nat) : scan pyval :=
  let l := drop start doc in
  let neg := match l with c :: _ => if is_char c 45 then 1%nat else 0%nat | [] => 0%nat end in
  let l1 := drop neg l in
  let int_len :=
    match l1 with
    | c :: r =>
        if is_char c 48 then Some 1%nat
        else if PyStr.is_digit c then Some (S (digits_len r))
        else None
    | [] => None
    end in
  match int_len with
  | None => inl (Stop start)
  | Some il =>
      let l2 := drop il l1 in
      let frac_len :=
        match l2 with
        | c :: d :: r => if is_char c 46 && PyStr.is_digit d then S (S (digits_len r)) else O
        | _ => O
        end in
      let l3 := drop frac_len l2 in
      let exp_len :=
        match l3 with
        | e :: r =>
            if is_char e 101 || is_char e 69 then
              let sl := match r with
                        | s :: _ => if is_char s 43 || is_char s 45 then 1%nat else 0%nat
                        | [] => 0%nat
                        end in
              let dl := digits_len (drop sl r) in
              if (0 <? dl)%nat then (1 + sl + dl)%nat else O
            else O
        | [] => O
        end in
      let total := (neg + il + frac_len + exp_len)%nat in
      let text := take total l in
      let stop := (start + total)%nat in
      if (0 <? frac_len + exp_len)%nat then inr (PyFloat (string_of_list_ascii text), stop)
      else if (int_max_str_digits <? il)%nat then
        inl (Fatal (ValueError ("Exceeds the limit (4300 digits) for integer string conversion: value has "
                                ++ PyStr.str_int (Z.of_nat il)
                                ++ " digits; use sys.set_int_max_str_digits() to increase the limit")))
      else
        let v := PyStr.int_of_digits (string_of_list_ascii (take il l1)) in
        inr (PyInt (if (neg =? 1)%nat then (- v)%Z else v), stop)
  end.

(** [doc[idx:]] starts with the characters of [lit]. *)
Definition lit_at (doc : list ascii) (idx : nat) (lit : string) : bool :=
  bool_decide (take (String.length lit) (drop idx doc) = list_ascii_of_string lit).

(** [Py_EnterRecursiveCall] of [scan_once_unicode] at an object or an
    array when the interpreter has no recursion left. *)
Definition recursion_error (what : string) : pyexc :=
  RecursionError ("maximum recursion depth exceeded while decoding a JSON " ++ what
                  ++ " from a unicode string").

(** [depth] is the recursion the interpreter has left: every object and
    array enters one level, and parses its members with the rest. *)
Fixpoint scan_once (fuel depth : nat) (doc : list ascii) (idx : nat) : option (scan pyval) :=
  match fuel with
  | O => None
  | S f =>
      match doc !! idx with
      | None => Some (inl (Stop idx))
      | Some c =>
          if is_char c 34 then
            Some (match scan_string doc idx with
                  | inl e => inl e
                  | inr (s, e) => inr (PyStr s, e)
                  end)
          else if is_char c 123 then
            match depth with
            | O => Some (inl (Fatal (recursion_error "object")))
            | S d =>
                let i := skip_ws doc (S idx) in
                if at_is doc i "}" then Some (inr (PyDict [], S i))
                else object_members f d doc i []
            end
          else if is_char c 91 then
            match depth with
            | O => Some (inl (Fatal (recursion_error "array")))
            | S d =>
                let i := skip_ws doc (S idx) in
                if at_is doc i "]" then Some (inr (PyList [], S i))
                else array_items f d doc i []
            end
          else if lit_at doc idx "null" then Some (inr (PyNone, idx + 4))
          else if lit_at doc idx "true" then Some (inr (PyBool true, idx + 4))
          else if lit_at doc idx "false" then Some (inr (PyBool false, idx + 5))
          else if lit_at doc idx "NaN" then Some (inr (PyFloat "NaN", idx + 3))
          else if lit_at doc idx "Infinity" then Some (inr (PyFloat "Infinity", idx + 8))
          else if lit_at doc idx "-Infinity" then Some (inr (PyFloat "-Infinity", idx + 9))
          else Some (match_number doc idx)
      end
  end
(** The members of an object from [idx], the pairs read so far in [acc]. *)
with object_members (fuel depth : nat) (doc : list ascii) (idx : nat) (acc : pydict)
  : option (scan pyval) :=
  match fuel with
  | O => None
  | S f =>
      if negb (at_is doc idx (ascii_of_nat 34)) then
        Some (inl (Decode "Expecting property name enclosed in double quotes" idx))
      else
        match scan_string doc idx with
        | inl e => Some (inl e)
        | inr (key, i1) =>
            let i2 := skip_ws doc i1 in
            if negb (at_is doc i2 ":") then Some (inl (Decode "Expecting ':' delimiter" i2))
            else
              match scan_once f depth doc (skip_ws doc (S i2)) with
              | None => None
              | Some (inl e) => Some (inl e)
              | Some (inr (v, i4)) =>
                  let acc' := dict_set key v acc in
                  let i5 := skip_ws doc i4 in
                  if at_is doc i5 "}" then Some (inr (PyDict acc', S i5))
                  else if negb (at_is doc i5 ",") then
                    Some (inl (Decode "Expecting ',' delimiter" i5))
                  else object_members f depth doc (skip_ws doc (S i5)) acc'
              end
        end
  end
(** The items of an array from [idx], those read so far in [acc], reversed. *)
with array_items (fuel depth : nat) (doc : list ascii) (idx : nat) (acc : list pyval)
  : option (scan pyval) :=
  match fuel with
  | O => None
  | S f =>
      match scan_once f depth doc idx with
      | None => None
      | Some (inl e) => Some (inl e)
      | Some (inr (v, i1)) =>
          let i2 := skip_ws doc i1 in
          if at_is doc i2 "]" then Some (inr (PyList (rev (v :: acc)), S i2))
          else if negb (at_is doc i2 ",") then Some (inl (Decode "Expecting ',' delimiter" i2))
          else array_items f depth doc (skip_ws doc (S i2)) (v :: acc)
      end
  end.

(** [JSONDecodeError(msg, doc, pos)]: the position, line and column in code points. *)
Definition count_nl (l : list ascii) : nat := length (filter (fun c => is_char c 10) l).

Definition json_error (doc : list ascii) (msg : string) (pos : nat) : pyexc :=
  let before := take pos doc in
  let p := cp_index doc pos in
  let lineno := S (count_nl before) in
  let colno :=
    match PyStr.rfind (string_of_list_ascii before) (String (ascii_of_nat 10) EmptyString) with
    | Some j => (p - cp_index doc j)%nat
    | None => S p
    end in
  JSONDecodeError msg (Z.of_nat p) (Z.of_nat lineno) (Z.of_nat colno).

Definition bom : list ascii := [ascii_of_nat 239; ascii_of_nat 187; ascii_of_nat 191].

(** The fuel [loads] gives the scanner. *)
Definition json_fuel (doc : list ascii) : nat := 2 * length doc + 1.

(** [json.loads(s)] for a [str], with [depth] levels of recursion left. *)
Definition loads (depth : nat) (s : string) : pyexc + pyval :=
  let doc := list_ascii_of_string s in
  if bool_decide (take 3 doc = bom) then
    inl (json_error doc "Unexpected UTF-8 BOM (decode using utf-8-sig)" 0)
  else
    match scan_once (json_fuel doc) depth doc (skip_ws doc 0) with
    | None => inl (RecursionError "maximum recursion depth exceeded")
    | Some (inl (Stop p)) => inl (json_error doc "Expecting value" p)
    | Some (inl (Decode m p)) => inl (json_error doc m p)
    | Some (inl (Fatal e)) => inl e
    | Some (inr (v, e)) =>
        let e' := skip_ws doc e in
        if (e' =? length doc)%nat then inr v else inl (json_error doc "Extra data" e')
    end.

(** ** The scanner never runs out of fuel *)

Lemma skip_ws_ge doc i : i <= skip_ws doc i.
Proof. unfold skip_ws. lia. Qed.

Lemma at_is_lt doc i c : at_is doc i c = true -> i < length doc.
Proof.
  unfold at_is. destruct (doc !! i) eqn:E; [|discriminate].
  intros _. by apply lookup_lt_Some in E.
Qed.

Lemma scan_chars_end b l k acc cs e : scan_chars b l k acc = inr (cs, e) -> k < e.
Proof.
  revert k acc. induction l as [l IH] using (induction_ltof1 _ (@length ascii)).
  intros k acc H. destruct l as [|c l']; simpl in H; [discriminate|].
  repeat case_match; simplify_eq; try lia;
    match goal with
    | H : scan_chars _ ?y _ _ = inr _ |- _ =>
        apply IH in H; [lia|unfold ltof; simpl in *; simplify_eq/=; lia]
    end.
Qed.

Lemma scan_string_end doc idx s e : scan_string doc idx = inr (s, e) -> idx < e.
Proof.
  unfold scan_string. destruct (scan_chars _ _ _ _) as [|[cs e']] eqn:E; [discriminate|].
  intros [= _ <-]. apply scan_chars_end in E. lia.
Qed.

Lemma match_number_end doc i v e : match_number doc i = inr (v, e) -> i <= e.
Proof. unfold match_number. repeat case_match; intros; simplify_eq; lia. Qed.

Section Fuel.
Context (doc : list ascii).

(** A run that ends, and whose value, if any, ends after [idx]. *)
Definition fuel_ok (idx : nat) (r : option (scan pyval)) : Prop :=
  exists x, r = Some x /\ forall v e, x = inr (v, e) -> idx <= e.

Definition scan_ok (f : nat) : Prop :=
  forall d idx, 2 * (length doc - idx) + 1 <= f -> fuel_ok idx (scan_once f d doc idx).
Definition items_ok (f : nat) : Prop :=
  forall d idx acc, 2 * (length doc - idx) + 2 <= f -> fuel_ok idx (array_items f d doc idx acc).
Definition members_ok (f : nat) : Prop :=
  forall d idx acc, 2 * (length doc - idx) + 2 <= f ->
    fuel_ok idx (object_members f d doc idx acc).

Lemma fuel_ok_stop idx x : (forall v e, x = inr (v, e) -> idx <= e) -> fuel_ok idx (Some x).
Proof. intros H. by exists x. Qed.

Lemma fuel_ok_mono idx idx' r : idx <= idx' -> fuel_ok idx' r -> fuel_ok idx r.
Proof.
  intros Hle (x & -> & H). exists x. split; [done|]. intros v e ->.
  specialize (H v e eq_refl). lia.
Qed.

Lemma scan_once_fuel f : items_ok f -> members_ok f -> scan_ok (S f).
Proof.
  intros Hi Hm d idx Hf. simpl. destruct (doc !! idx) as [c|] eqn:Hc;
    [|apply fuel_ok_stop; discriminate].
  apply lookup_lt_Some in Hc. pose proof (skip_ws_ge doc (S idx)).
  repeat case_match; try (apply fuel_ok_stop; intros; simplify_eq;
    try match goal with H : scan_string _ _ = inr _ |- _ => apply scan_string_end in H end;
    try match goal with H : match_number _ _ = inr _ |- _ => apply match_number_end in H end;
    lia).
  - eapply fuel_ok_mono, Hm; lia.
  - eapply fuel_ok_mono, Hi; lia.
Qed.

Lemma array_items_fuel f : scan_ok f -> items_ok f -> items_ok (S f).
Proof.
  intros Hs Hi d idx acc Hf. simpl. destruct (Hs d idx ltac:(lia)) as (x & -> & Hx).
  destruct x as [e|[v i1]]; [by apply fuel_ok_stop|]. specialize (Hx v i1 eq_refl).
  pose proof (skip_ws_ge doc i1). destruct (at_is doc (skip_ws doc i1) "]");
    [apply fuel_ok_stop; intros; simplify_eq; lia|].
  destruct (at_is doc (skip_ws doc i1) ",") eqn:Hcomma; [|by apply fuel_ok_stop].
  apply at_is_lt in Hcomma. pose proof (skip_ws_ge doc (S (skip_ws doc i1))).
  eapply fuel_ok_mono, Hi; lia.
Qed.

Lemma object_members_fuel f : scan_ok f -> members_ok f -> members_ok (S f).
Proof.
  intros Hs Hm d idx acc Hf. simpl.
  destruct (at_is doc idx (ascii_of_nat 34)) eqn:Hq; [|by apply fuel_ok_stop].
  apply at_is_lt in Hq. simpl.
  destruct (scan_string doc idx) as [e|[key i1]] eqn:Hk; [by apply fuel_ok_stop|].
  apply scan_string_end in Hk. pose proof (skip_ws_ge doc i1).
  destruct (at_is doc (skip_ws doc i1) ":"); [|by apply fuel_ok_stop]. simpl.
  set (j := skip_ws doc (S (skip_ws doc i1))). pose proof (skip_ws_ge doc (S (skip_ws doc i1))).
  destruct (Hs d j ltac:(lia)) as (x & -> & Hx).
  destruct x as [e|[v i4]]; [by apply fuel_ok_stop|]. specialize (Hx v i4 eq_refl).
  pose proof (skip_ws_ge doc i4). destruct (at_is doc (skip_ws doc i4) "}");
    [apply fuel_ok_stop; intros; simplify_eq; lia|].
  destruct (at_is doc (skip_ws doc i4) ",") eqn:Hcomma; [|by apply fuel_ok_stop].
  pose proof (skip_ws_ge doc (S (skip_ws doc i4))).
  eapply fuel_ok_mono, Hm; lia.
Qed.

Lemma fuel_enough f : scan_ok f /\ items_ok f /\ members_ok f.
Proof.
  induction f as [|f (Hs & Hi & Hm)].
  - split_and!; intros ? ? ?; lia.
  - split_and!; auto using scan_once_fuel, array_items_fuel, object_members_fuel.
Qed.
End Fuel.

(** [json.loads] never runs out of fuel: with the fuel [loads] gives
    it, the scanner always ends with a value or an error, whatever the
    recursion left, so the model is total. *)
Lemma scan_fuel_enough (depth : nat) (s : string) :
  let doc := list_ascii_of_string s in
  exists r, scan_once (json_fuel doc) depth doc (skip_ws doc 0) = Some r.
Proof.
  intros doc. destruct (proj1 (fuel_enough doc (json_fuel doc)) depth (skip_ws doc 0))
    as (x & Hx & _); [unfold json_fuel; lia|]. by exists x.
Qed.

(** ** The errors [loads] raises *)

Lemma scan_chars_not_fatal b l k acc e : scan_chars b l k acc <> inl (Fatal e).
Proof.
  revert k acc. induction l as [l IH] using (induction_ltof1 _ (@length ascii)).
  intros k acc H. destruct l as [|c l']; simpl in H; [discriminate|].
  repeat case_match; simplify_eq;
    match goal with
    | H : scan_chars _ ?y _ _ = inl _ |- _ =>
        eapply IH; [|exact H]; unfold ltof; simpl in *; simplify_eq/=; lia
    end.
Qed.

Lemma scan_string_not_fatal doc idx e : scan_string doc idx <> inl (Fatal e).
Proof.
  unfold scan_string. destruct (scan_chars _ _ _ _) as [e'|[cs p]] eqn:E; [|discriminate].
  intros [= ->]. by eapply scan_chars_not_fatal.
Qed.

Lemma match_number_fatal doc i e : match_number doc i = inl (Fatal e) -> exists m, e = ValueError m.
Proof. unfold match_number. repeat case_match; intros; simplify_eq; by eexists. Qed.

(** The fatal errors of the scanner are [int]'s digit limit and the
    recursion limit. *)
Definition fatal_value (r : option (scan pyval)) : Prop :=
  forall e, r = Some (inl (Fatal e)) -> exists m, e = ValueError m \/ e = RecursionError m.

Lemma scan_fatal doc f :
  (forall d idx, fatal_value (scan_once f d doc idx)) /\
  (forall d idx acc, fatal_value (array_items f d doc idx acc)) /\
  (forall d idx acc, fatal_value (object_members f d doc idx acc)).
Proof.
  unfold fatal_value. induction f as [|f (Hs & Hi & Hm)]; [split_and!; intros; discriminate|].
  split_and!; [intros d idx e H|intros d idx acc e H|intros d idx acc e H]; simpl in H;
    repeat case_match; simplify_eq; eauto;
    first [ exfalso; eapply scan_string_not_fatal; eassumption
          | destruct (match_number_fatal _ _ _ ltac:(eassumption)) as [? ->]; eauto ].
Qed.

(** [json.loads] gives a value, raises [JSONDecodeError], raises the
    [ValueError] of the integer digit limit, or raises [RecursionError]
    on a nesting deeper than the recursion left; nothing else. *)
Lemma loads_outcomes depth s :
  (exists v, loads depth s = inr v) \/
  (exists m p l c, loads depth s = inl (JSONDecodeError m p l c)) \/
  (exists m, loads depth s = inl (ValueError m)) \/
  (exists m, loads depth s = inl (RecursionError m)).
Proof.
  unfold loads. destruct (bool_decide _); [right; left; by do 4 eexists|].
  destruct (scan_fuel_enough depth s) as [r Hr]. simpl in Hr. rewrite Hr.
  destruct r as [[p|m p|e]|[v e]].
  - right; left. by do 4 eexists.
  - right; left. by do 4 eexists.
  - right; right. destruct (proj1 (scan_fatal _ _) _ _ e Hr) as [m [-> | ->]];
      [left|right]; by exists m.
  - case_match; [left; by eexists|right; left; by do 4 eexists].
Qed.

End Json.
