(* ===== verification/Base64.v ===== *)
(** * [base64.b64encode] and [hashlib.sha1(...).hexdigest()]

    [Fetcher.get_peer_certificate] returns the peer certificate's DER
    bytes as [base64.b64encode(der).decode('utf-8')] and logs
    [hashlib.sha1(der).hexdigest()].  This file models both: the
    standard base64 alphabet with [=] padding, its inverse on canonical
    text with the round trip [b64decode_b64encode] (each group's shifts,
    masks and ors turned into arithmetic on [Z]), and SHA-1 (FIPS 180-4) on 32-bit words kept as [Z] with their
    wrap-around written out, printed as forty lowercase hexadecimal
    digits. *)

From Stdlib Require Import ZArith String Ascii Strings.Byte Lia.
From stdpp Require Import base list strings option.
From S2P Require Import Prelude PyStr.

Open Scope string_scope.

Module Base64.

Definition alphabet : string :=
  "ABCDEFGHIJKLMNOPQRSTUVWXYZabcdefghijklmnopqrstuvwxyz0123456789+/".

Definition pad : ascii := "=".

(** The character of a six-bit value. *)
Definition enc6 (n : Z) : ascii :=
  match String.get (Z.to_nat (Z.land n 63)) alphabet with
  | Some c => c
  | None => "A"%char
  end.

Definition bv (b : byte) : Z := Z.of_N (Byte.to_N b).

(** Three bytes to four characters; one or two trailing bytes are padded. *)
Fixpoint encode_aux (bs : list byte) : list ascii :=
  match bs with
  | a :: b :: c :: rest =>
      let n := Z.lor (Z.shiftl (bv a) 16) (Z.lor (Z.shiftl (bv b) 8) (bv c)) in
      enc6 (Z.shiftr n 18) :: enc6 (Z.shiftr n 12) :: enc6 (Z.shiftr n 6) :: enc6 n
        :: encode_aux rest
  | [a; b] =>
      let n := Z.lor (Z.shiftl (bv a) 16) (Z.shiftl (bv b) 8) in
      [enc6 (Z.shiftr n 18); enc6 (Z.shiftr n 12); enc6 (Z.shiftr n 6); pad]
  | [a] =>
      let n := Z.shiftl (bv a) 16 in
      [enc6 (Z.shiftr n 18); enc6 (Z.shiftr n 12); pad; pad]
  | [] => []
  end.

(** [base64.b64encode(bs).decode('utf-8')] *)
Definition b64encode (bs : list byte) : string := string_of_list_ascii (encode_aux bs).

(** The six-bit value of a character of the alphabet. *)
Definition dec6 (c : ascii) : option Z :=
  let n := Z.of_nat (nat_of_ascii c) in
  if (65 <=? n)%Z && (n <=? 90)%Z then Some (n - 65)%Z
  else if (97 <=? n)%Z && (n <=? 122)%Z then Some (n - 71)%Z
  else if (48 <=? n)%Z && (n <=? 57)%Z then Some (n + 4)%Z
  else if (n =? 43)%Z then Some 62%Z
  else if (n =? 47)%Z then Some 63%Z
  else None.

Definition byte_of_Z (n : Z) : byte :=
  match Byte.of_N (Z.to_N (Z.land n 255)) with Some b => b | None => Byte.x00 end.

(** [base64.b64decode(s, validate=True)] on groups of four characters. *)
Fixpoint decode_aux (cs : list ascii) : option (list byte) :=
  match cs with
  | [] => Some []
  | c1 :: c2 :: c3 :: c4 :: rest =>
      match dec6 c1, dec6 c2 with
      | Some a, Some b =>
          if Ascii.eqb c3 pad then
            if Ascii.eqb c4 pad && bool_decide (rest = []) then
              Some [byte_of_Z (Z.lor (Z.shiftl a 2) (Z.shiftr b 4))]
            else None
          else
            match dec6 c3 with
            | None => None
            | Some c =>
                if Ascii.eqb c4 pad then
                  if bool_decide (rest = []) then
                    Some [byte_of_Z (Z.lor (Z.shiftl a 2) (Z.shiftr b 4));
                          byte_of_Z (Z.lor (Z.shiftl b 4) (Z.shiftr c 2))]
                  else None
                else
                  match dec6 c4 with
                  | None => None
                  | Some d =>
                      (fun r => byte_of_Z (Z.lor (Z.shiftl a 2) (Z.shiftr b 4))
                                :: byte_of_Z (Z.lor (Z.shiftl b 4) (Z.shiftr c 2))
                                :: byte_of_Z (Z.lor (Z.shiftl c 6) d) :: r)
                        <$> decode_aux rest
                  end
            end
      | _, _ => None
      end
  | _ => None
  end.

Definition b64decode (s : string) : option (list byte) := decode_aux (list_ascii_of_string s).

(** ** Laws *)

(** Three bytes make four characters: the output has [4 * ceil(n / 3)]
    characters. *)
Lemma encode_aux_length (bs : list byte) :
  length (encode_aux bs) = (4 * ((length bs + 2) / 3))%nat.
Proof.
  induction bs as [bs IH] using (induction_ltof1 _ (@length byte)).
  destruct bs as [|a [|b [|c rest]]]; [done..|]. cbn [encode_aux length].
  rewrite (IH rest) by (unfold ltof; cbn [length]; lia).
  replace (S (S (S (length rest))) + 2)%nat with (1 * 3 + (length rest + 2))%nat by lia.
  rewrite Nat.div_add_l by lia. lia.
Qed.

(** ** Bit operations as arithmetic *)

Lemma bv_range b : (0 <= bv b < 256)%Z.
Proof. unfold bv. pose proof (Byte.to_N_bounded b). lia. Qed.

Lemma land_low n k : (0 <= k)%Z -> Z.land n (2 ^ k - 1) = (n mod 2 ^ k)%Z.
Proof. intros Hk. rewrite <- Z.land_ones by lia. f_equal. by rewrite Z.ones_equiv. Qed.

Lemma land63 n : Z.land n 63 = (n mod 64)%Z.
Proof. apply (land_low n 6). lia. Qed.

Lemma testbit_high a k i : (0 <= a < 2 ^ k)%Z -> (0 <= k <= i)%Z -> Z.testbit a i = false.
Proof.
  intros Ha Hi. rewrite <- (Z.mod_small a (2 ^ k)) by lia.
  apply Z.mod_pow2_bits_high. lia.
Qed.

(** [a << k | b] is [a * 2^k + b] when [b] fits in [k] bits. *)
Lemma lor_shiftl a b k :
  (0 <= k)%Z -> (0 <= b < 2 ^ k)%Z -> Z.lor (Z.shiftl a k) b = (a * 2 ^ k + b)%Z.
Proof.
  intros Hk Hb.
  assert (H0 : Z.land (Z.shiftl a k) b = 0%Z).
  { apply Z.bits_inj'. intros i Hi. rewrite Z.land_spec, Z.bits_0.
    destruct (Z.lt_ge_cases i k).
    - by rewrite Z.shiftl_spec_low.
    - rewrite (testbit_high b k i) by lia. apply andb_false_r. }
  rewrite <- Z.lxor_lor, <- Z.add_nocarry_lxor by exact H0.
  by rewrite Z.shiftl_mul_pow2.
Qed.

Lemma byte_of_Z_mod n b : (n mod 256 = bv b)%Z -> byte_of_Z n = b.
Proof.
  intros H. unfold byte_of_Z. change (Z.land n 255) with (Z.land n (2 ^ 8 - 1)).
  rewrite (land_low n 8) by lia. change (2 ^ 8)%Z with 256%Z. rewrite H. unfold bv.
  by rewrite N2Z.id, Byte.of_to_N.
Qed.

(** ** The alphabet *)

Lemma enc6_table :
  forallb (fun k => bool_decide (dec6 (enc6 (Z.of_nat k)) = Some (Z.of_nat k))
                    && negb (Ascii.eqb (enc6 (Z.of_nat k)) pad)) (seq 0 64) = true.
Proof. vm_compute. reflexivity. Qed.

(** A character of the alphabet decodes to its six bits and is not [=]. *)
Lemma dec6_enc6 n : dec6 (enc6 n) = Some (n mod 64)%Z /\ Ascii.eqb (enc6 n) pad = false.
Proof.
  assert (Hb : (0 <= n mod 64 < 64)%Z) by (apply Z.mod_pos_bound; lia).
  assert (Hn : enc6 n = enc6 (Z.of_nat (Z.to_nat (n mod 64)))).
  { unfold enc6. rewrite !land63, Z2Nat.id, Z.mod_mod; [done|lia|lia]. }
  pose proof (proj1 (forallb_forall _ _) enc6_table (Z.to_nat (n mod 64))) as H.
  rewrite in_seq in H. specialize (H ltac:(lia)).
  apply andb_true_iff in H as [H1 H2]. apply bool_decide_eq_true in H1.
  rewrite Z2Nat.id in H1, H2 by lia. rewrite Hn, Z2Nat.id, H1 by lia.
  split; [done|]. by apply negb_true_iff.
Qed.

(** Close an arithmetic goal over the bytes of a group. *)
Ltac group_arith :=
  repeat match goal with b : byte |- _ => pose proof (bv_range b); generalize dependent b end;
  intros; repeat match goal with
  | |- context [(2 ^ ?k)%Z] => let v := eval vm_compute in (2 ^ k)%Z in change (2 ^ k)%Z with v
  end; Z.div_mod_to_equations; lia.

Lemma decode_group x y z rest :
  decode_aux (encode_aux (x :: y :: z :: rest)) =
    (fun r => x :: y :: z :: r) <$> decode_aux (encode_aux rest).
Proof.
  cbn [encode_aux decode_aux].
  rewrite (lor_shiftl (bv y) (bv z) 8), (lor_shiftl (bv x) _ 16) by (pose proof (bv_range y);
    pose proof (bv_range z); lia).
  rewrite !(proj1 (dec6_enc6 _)), !(proj2 (dec6_enc6 _)). cbn.
  rewrite !Z.shiftr_div_pow2 by lia.
  rewrite !(lor_shiftl _ _ 2), !(lor_shiftl _ _ 4), !(lor_shiftl _ _ 6)
    by (Z.div_mod_to_equations; lia).
  destruct (decode_aux (encode_aux rest)); [|done]. cbn. f_equal.
  repeat f_equal; apply byte_of_Z_mod; group_arith.
Qed.

(** The six-bit digits of a padded group, back to bytes. *)
Ltac decode_digits :=
  rewrite ?(proj1 (dec6_enc6 _)), ?(proj2 (dec6_enc6 _)); cbn;
  rewrite ?Z.shiftr_div_pow2 by lia;
  rewrite ?(lor_shiftl _ _ 2), ?(lor_shiftl _ _ 4) by (Z.div_mod_to_equations; lia);
  repeat f_equal; apply byte_of_Z_mod; group_arith.

Lemma decode_pair x y : decode_aux (encode_aux [x; y]) = Some [x; y].
Proof.
  cbn [encode_aux decode_aux]. pose proof (bv_range y).
  rewrite (Z.shiftl_mul_pow2 (bv y) 8), (lor_shiftl (bv x) _ 16) by lia.
  decode_digits.
Qed.

Lemma decode_single x : decode_aux (encode_aux [x]) = Some [x].
Proof. cbn [encode_aux decode_aux]. rewrite Z.shiftl_mul_pow2 by lia. decode_digits. Qed.

(** Decoding inverts encoding: the text [b64encode] produces decodes to
    the bytes it was made from. *)
Lemma decode_encode (bs : list byte) : decode_aux (encode_aux bs) = Some bs.
Proof.
  induction bs as [bs IH] using (induction_ltof1 _ (@length byte)).
  destruct bs as [|a [|b [|c rest]]]; [done|apply decode_single|apply decode_pair|].
  rewrite decode_group, IH; [done|]. unfold ltof. cbn [length]. lia.
Qed.

Lemma b64decode_b64encode (bs : list byte) : b64decode (b64encode bs) = Some bs.
Proof. unfold b64decode, b64encode. rewrite list_ascii_of_string_of_list_ascii. apply decode_encode. Qed.

Lemma b64encode_length (bs : list byte) :
  String.length (b64encode bs) = (4 * ((length bs + 2) / 3))%nat.
Proof. unfold b64encode. rewrite PyStr.string_of_list_ascii_length. apply encode_aux_length. Qed.
End Base64.

Module Digest.

Definition w32 (z : Z) : Z := Z.land z (2 ^ 32 - 1).

Definition rotl (n x : Z) : Z := w32 (Z.lor (Z.shiftl x n) (Z.shiftr x (32 - n))).

(** The message padded to a multiple of 64 bytes: a one bit, zeros, and
    the bit length as a 64-bit big-endian number. *)
Definition be_bytes (k : nat) (n : Z) : list Z :=
  map (fun i => Z.land (Z.shiftr n (8 * Z.of_nat (k - 1 - i))) 255) (seq 0 k).

Definition padded (msg : list Z) : list Z :=
  let len := length msg in
  (msg ++ [128%Z] ++ replicate ((119 - len mod 64) mod 64) 0%Z
       ++ be_bytes 8 (8 * Z.of_nat len))%list.

Fixpoint words (bs : list Z) : list Z :=
  match bs with
  | a :: b :: c :: d :: rest =>
      Z.lor (Z.shiftl a 24) (Z.lor (Z.shiftl b 16) (Z.lor (Z.shiftl c 8) d)) :: words rest
  | _ => []
  end.

(** The 80-word message schedule of a block. *)
Definition schedule (w16 : list Z) : list Z :=
  fold_left (fun (w : list Z) (t : nat) =>
    (w ++ [rotl 1 (Z.lxor (nth (t - 3) w 0%Z) (Z.lxor (nth (t - 8) w 0%Z)
             (Z.lxor (nth (t - 14) w 0%Z) (nth (t - 16) w 0%Z))))])%list)
    (seq 16 64) w16.

Record state := mk_state { h0 : Z; h1 : Z; h2 : Z; h3 : Z; h4 : Z }.

Definition init : state :=
  mk_state 0x67452301 0xEFCDAB89 0x98BADCFE 0x10325476 0xC3D2E1F0.

Definition round_fk (t : nat) (b c d : Z) : Z * Z :=
  if (t <? 20)%nat then (Z.lor (Z.land b c) (Z.land (Z.lxor b (2 ^ 32 - 1)) d), 0x5A827999%Z)
  else if (t <? 40)%nat then (Z.lxor b (Z.lxor c d), 0x6ED9EBA1%Z)
  else if (t <? 60)%nat then
    (Z.lor (Z.lor (Z.land b c) (Z.land b d)) (Z.land c d), 0x8F1BBCDC%Z)
  else (Z.lxor b (Z.lxor c d), 0xCA62C1D6%Z).

Definition compress (h : state) (w16 : list Z) : state :=
  let w := schedule w16 in
  let '(a, b, c, d, e) :=
    fold_left (fun '(a, b, c, d, e) t =>
      let '(f, k) := round_fk t b c d in
      let temp := w32 (rotl 5 a + f + e + k + nth t w 0%Z)%Z in
      (temp, a, rotl 30 b, c, d))
      (seq 0 80) (h0 h, h1 h, h2 h, h3 h, h4 h) in
  mk_state (w32 (h0 h + a)%Z) (w32 (h1 h + b)%Z) (w32 (h2 h + c)%Z) (w32 (h3 h + d)%Z)
           (w32 (h4 h + e)%Z).

Fixpoint blocks (fuel : nat) (ws : list Z) : list (list Z) :=
  match fuel with
  | O => []
  | S f => match ws with [] => [] | _ => take 16 ws :: blocks f (drop 16 ws) end
  end.

Definition sha1 (msg : list byte) : state :=
  let ws := words (padded (map Base64.bv msg)) in
  fold_left compress (blocks (length ws) ws) init.

Definition hex8 (n : Z) : string :=
  PyStr.join_all (map (fun i => String (PyStr.hex_digit (Z.to_nat
                   (Z.land (Z.shiftr n (4 * Z.of_nat (7 - i))) 15))) EmptyString) (seq 0 8)).

(** [hashlib.sha1(msg).hexdigest()] *)
Definition sha1_hexdigest (msg : list byte) : string :=
  let h := sha1 msg in hex8 (h0 h) ++ hex8 (h1 h) ++ hex8 (h2 h) ++ hex8 (h3 h) ++ hex8 (h4 h).

End Digest.
