(* ===== verification/Fetcher.v ===== *)
(** * [fetch.py]: the fetch pipeline

    The methods of [Fetcher] that a fetch runs, and
    [FetchCommandHandler.__call__], translated line by line: each method
    is a computation of [Net.NetM] (state: the trace of events; errors:
    Python exceptions) over a [Net.world] fixed for the section.  The
    tuples the methods return are Rocq tuples with [option] for the
    values that may be [None]; the dictionaries are [PyVal.pydict]s built
    in the code's key order.

    [fetch]'s closure [return_] reads the local variables
    [peerCertEncoded], [peerCertLength] and [fetchedRaw] when it is
    called; [return_] here takes their values at the call as arguments,
    which is what late binding gives.  [self._pemPath] is the one field
    of [Fetcher] the pipeline reads (in [openssl_thumbprint]); the SSL
    context built from it is the trust of the world's handshake. *)

From Stdlib Require Import ZArith String Ascii Strings.Byte.
From stdpp Require Import base list strings option.
From S2P Require Import Prelude PyStr PyVal Url Net Json Base64.

Open Scope string_scope.

Import PyVal Net.

Module Fetcher.

(** The state of a [Fetcher] object the pipeline reads. *)
Record fetcher := mk_fetcher {
  pemPath : string      (** [str(self._pemPath)] *)
}.

Definition nl : string := String (ascii_of_nat 10) EmptyString.
Definition dq : string := String PyStr.dquote EmptyString.

Definition opt_str (o : option string) : pyval :=
  match o with Some s => PyStr s | None => PyNone end.

Definition opt_int (o : option Z) : pyval :=
  match o with Some z => PyInt z | None => PyNone end.

(** [f'{x}'] of an optional string or integer. *)
Definition fmt_str (o : option string) : string := match o with Some s => s | None => "None" end.
Definition fmt_int (o : option Z) : string :=
  match o with Some z => PyStr.str_int z | None => "None" end.

(** [return_(status, fetched, details)] of [fetch], the closure's three
    variables being [peerCertEncoded], [peerCertLength], [fetchedRaw]. *)
Definition return_ (peerCertEncoded : option string) (peerCertLength : option Z)
    (fetchedRaw : option string) (status : option Z) (fetched : pyval)
    (details : pydict) : pyval :=
  let r := [("peerCertificateDER", opt_str peerCertEncoded);
            ("peerCertificateLength", opt_int peerCertLength);
            ("fetchedRaw", opt_str fetchedRaw)] in
  let details' :=
    match status with
    | Some s => dict_set "status" (PyInt s) details
    | None => details
    end in
  match fetched with
  | PyNone => PyDict (dict_set "fetchError" (PyDict details') r)
  | _ => PyDict (dict_set "fetchedDetails" (PyDict details') (dict_set "fetched" fetched r))
  end.

(** [_parse_resource(parameters)]: [(url, port, fetchError)]. *)
Definition _parse_resource (parameters : pyval)
  : pyexc + (option Url.parse_result * option Z * option pydict) :=
  match getitem parameters "resource" with
  | inl (KeyError _) =>
      match keys parameters with
      | inl e => inl e
      | inr ks =>
          inr (None, None,
               Some [("statusText", PyStr ("No " ++ dq ++ "resource" ++ dq ++ " in parameters."));
                     ("parameterKeys", PyTuple (map PyStr ks))])
      end
  | inl e => inl e
  | inr resource =>
      match Url.urlparse resource with
      | inl e => inl e
      | inr url =>
          match Url.hostname url with
          | None =>
              inr (None, None,
                   Some [("statusText", PyStr "No host in parameters.resource");
                         ("resource", resource);
                         ("url", PyStr (Url.repr url))])
          | Some _ =>
              match Url.port url with
              | inl e => inl e
              | inr p => inr (Some url, Some (default 443%Z p), None)
              end
          end
      end
  end.

Section Fetch.
Context (w : world) (self : fetcher).

(** [_log(httpHandler, message)]: [print] or the handler's [log_message]. *)
Definition _log (httpHandler : bool) (message : string) : NetM unit :=
  emit (EvLog httpHandler message).

(** [_connect(host, port)]: [(connection, fetchError)]; each [try]
    block returns early from its [except Exception] clause. *)
Definition connect_error (what : string) (host : string) (port : Z) (error : pyexc)
  : option conn * option pydict :=
  (None, Some [("statusText", PyStr ("HTTPSConnection(" ++ host ++ "," ++ PyStr.str_int port
                                     ++ ",)" ++ what ++ " " ++ exc_str error))]).

Definition _connect (host : string) (port : Z) : NetM (option conn * option pydict) :=
  let* constructed :=
    catch (let* connection := https_connection host port in ret (inr connection))
          (fun error => Some (ret (inl (connect_error EmptyString host port error)))) in
  match constructed with
  | inl early => ret early
  | inr connection =>
      catch (let* connection := connect w connection in ret (Some connection, None))
            (fun error => Some (ret (connect_error ".connect()" host port error)))
  end.

(** [get_peer_certificate(connection, httpHandler)]:
    [(base64 text, length)] of the DER certificate. *)
Definition get_peer_certificate (connection : conn) (httpHandler : bool)
  : NetM (string * Z) :=
  let* peerCertBinary := getpeercert_der connection in
  let* peerCertDict := getpeercert_dict connection in
  let peerCertLength := Z.of_nat (length peerCertBinary) in
  let peerCertMessage :=
    join nl (map (fun kv => fst kv ++ " " ++ dq ++ str (snd kv) ++ dq) peerCertDict) in
  let* _ := _log httpHandler ("Peer certificate. Binary length: " ++ PyStr.str_int peerCertLength
                              ++ ". Dictionary:" ++ nl ++ peerCertMessage) in
  let peerThumb := Digest.sha1_hexdigest peerCertBinary in
  let* _ := _log httpHandler ("Peer certificate thumbprint:" ++ nl ++ peerThumb) in
  ret (Base64.b64encode peerCertBinary, peerCertLength).

(** The loop over [options['headers'].items()]. *)
Fixpoint put_headers (c : conn) (hs : pydict) : NetM conn :=
  match hs with
  | [] => ret c
  | (header, value) :: hs' =>
      let* c' := putheader c header value in put_headers c' hs'
  end.

(** The argument of [endheaders]: the body as bytes. *)
Definition request_body (options : pyval) : NetM (option (list byte)) :=
  let* has_body := of_sum (contains_key options "body") in
  if has_body then
    let* b := of_sum (getitem options "body") in
    match b with
    | PyStr s => ret (Some (PyStr.encode_utf8 s))
    | v => raise (no_attribute v "encode")
    end
  else
    let* has_object := of_sum (contains_key options "bodyObject") in
    if has_object then
      let* o := of_sum (getitem options "bodyObject") in
      let* j := of_sum (Json.dumps o) in
      ret (Some (PyStr.encode_utf8 j))
    else ret None.

(** [_request(connection, parameters)]: the connection after the
    exchange and [(fetchedRaw, details)]. *)
Definition _request (connection : conn) (parameters : pyval)
  : NetM (conn * (string * pydict)) :=
  let* options :=
    catch (of_sum (getitem parameters "options"))
          (fun e => match e with KeyError _ => Some (ret (PyDict [])) | _ => None end) in
  let* method := of_sum (dict_get options "method") in
  let* resource := of_sum (getitem parameters "resource") in
  let* url :=
    match resource with
    | PyStr s => ret s
    | v => raise (TypeError ("expected string or bytes-like object, got '"
                             ++ type_name v ++ "'"))
    end in
  let* c1 := putrequest connection (match method with PyNone => PyStr "GET" | m => m end) url in
  let* has_body := of_sum (contains_key options "body") in
  let* has_json :=
    if has_body then ret true else of_sum (contains_key options "bodyObject") in
  let* c2 :=
    if has_json then putheader c1 "Content-Type" (PyStr "application/json") else ret c1 in
  let* c3 :=
    catch (let* hs := of_sum (getitem options "headers") in
           let* its := of_sum (items hs) in
           put_headers c2 its)
          (fun e => match e with KeyError _ => Some (ret c2) | _ => None end) in
  let* body := request_body options in
  let* c4 := endheaders c3 body in
  let* _ := send c4 [] in
  let* '(c5, response) := getresponse w c4 in
  match PyStr.decode_utf8 (rs_body response) with
  | None => raise (UnicodeDecodeError "'utf-8' codec can't decode the response body")
  | Some raw =>
      ret (c5, (raw, [("status", PyInt (rs_status response));
                      ("statusText", PyStr (rs_reason response));
                      ("headers", PyDict (dict_of_pairs
                         (map (fun hv => (fst hv, PyStr (snd hv))) (rs_headers response))))]))
  end.

(** [_parse_JSON(raw)]: [(parsed, fetchError)]. *)
Definition _parse_JSON (raw : option string) : pyexc + (pyval * option pydict) :=
  match raw with
  | None => inr (PyNone, None)
  | Some r =>
      if String.eqb r EmptyString then inr (PyStr r, None)
      else
        match Json.loads (recursion_headroom w) r with
        | inr v => inr (v, None)
        | inl (JSONDecodeError msg _ lineno colno) =>
            inr (PyNone, Some [("statusText", PyStr "JSONDecodeError");
                               ("headers", PyDict [("msg", PyStr msg);
                                                   ("lineno", PyInt lineno);
                                                   ("colno", PyInt colno)])])
        | inl e => inl e
        end
  end.

(** The loop of [openssl_thumbprint] over the lines of [s_client]'s
    output: the lines from the first [BEGIN CERTIFICATE] line through the
    first [END CERTIFICATE] line, [None] when no [BEGIN] line came. *)
Definition is_marker (line marker : string) : bool :=
  PyStr.startswith line "--" && PyStr.contains line marker.

Fixpoint pem_lines (lines : list string) (pem : option (list string))
  : option (list string) :=
  match lines with
  | [] => pem
  | line :: rest =>
      let pem1 := if is_marker line "BEGIN CERTIFICATE" then Some [] else pem in
      let pem2 := (fun l => (l ++ [line])%list) <$> pem1 in
      if is_marker line "END CERTIFICATE" then pem2 else pem_lines rest pem2
  end.

(** The [s_client] command line of [openssl_thumbprint]. *)
Definition s_client_argv (serverName connectAddress : string) : list string :=
  ["openssl"; "s_client"; "-servername"; serverName; "-showcerts";
   "-CAfile"; pemPath self; "-connect"; connectAddress].

(** [openssl_thumbprint(serverName, connectAddress, httpHandler)] *)
Definition openssl_thumbprint (serverName connectAddress : string) (httpHandler : bool)
  : NetM unit :=
  let* '(out, err) := subprocess_run w (s_client_argv serverName connectAddress) None false in
  let* _ := _log httpHandler ("openssl s_client stderr" ++ nl ++ err) in
  match pem_lines (PyStr.splitlines out) None with
  | None => raise (TypeError "object of type 'NoneType' has no len()")
  | Some pem =>
      let* _ := _log httpHandler ("openssl s_client PEM lines: "
                                  ++ PyStr.str_int (Z.of_nat (length pem))) in
      let* '(xout, _) :=
        subprocess_run w ["openssl"; "x509"; "-inform"; "PEM"; "-fingerprint"; "-noout"]
                       (Some (PyStr.join_all pem)) true in
      _log httpHandler ("openssl x509" ++ nl ++ xout)
  end.

(** The second argument of [openssl_thumbprint]:
    [f'{url.hostname}:{port}' if url.port is None else url.netloc]. *)
Definition connect_address (u : Url.parse_result) (port : option Z) : pyexc + string :=
  match Url.port u with
  | inl e => inl e
  | inr None => inr (fmt_str (Url.hostname u) ++ ":" ++ fmt_int port)
  | inr (Some _) => inr (Url.netloc u)
  end.

(** [fetch] from [get_peer_certificate] on, once [_connect] returned a
    connection: the certificate, the exchange, [close()], the status
    test, [_parse_JSON], [openssl_thumbprint] and the result. *)
Definition fetch_exchange (parameters : pyval) (u : Url.parse_result) (port : option Z)
    (connection : conn) (httpHandler : bool) : NetM pyval :=
  let* '(peerCertEncoded, peerCertLength) := get_peer_certificate connection httpHandler in
  let* '(connection, (fetchedRaw, details)) := _request connection parameters in
  let* _ := close connection in
  match dict_lookup "status" details with
  | Some (PyInt st) =>
      if (400 <=? st)%Z then
        ret (return_ (Some peerCertEncoded) (Some peerCertLength) (Some fetchedRaw)
                     None PyNone details)
      else
        let* '(fetchedObject, fetchError) := of_sum (_parse_JSON (Some fetchedRaw)) in
        match fetchError with
        | Some fe =>
            ret (return_ (Some peerCertEncoded) (Some peerCertLength)
                         (Some fetchedRaw) (Some 2%Z) PyNone fe)
        | None =>
            let* addr := of_sum (connect_address u port) in
            let* _ := openssl_thumbprint (fmt_str (Url.hostname u)) addr httpHandler in
            ret (return_ (Some peerCertEncoded) (Some peerCertLength)
                         (Some fetchedRaw) None fetchedObject details)
        end
  | _ => raise (KeyError "status")
  end.

(** The log line of [fetch]: [f'fetch() {url.hostname} {port}.']. *)
Definition fetch_message (u : Url.parse_result) (port : option Z) : string :=
  "fetch() " ++ fmt_str (Url.hostname u) ++ " " ++ fmt_int port ++ ".".

(** [fetch(parameters, httpHandler)] *)
Definition fetch (parameters : pyval) (httpHandler : bool) : NetM pyval :=
  let* '(url, port, fetchError) := of_sum (_parse_resource parameters) in
  match url with
  | None => raise (no_attribute PyNone "hostname")
  | Some u =>
      let* _ := _log httpHandler (fetch_message u port) in
      match fetchError with
      | Some fe => ret (return_ None None None (Some 0%Z) PyNone fe)
      | None =>
          let* '(connection, fetchError) :=
            _connect (fmt_str (Url.hostname u)) (default 0%Z port) in
          match fetchError, connection with
          | Some fe, _ => ret (return_ None None None (Some 1%Z) PyNone fe)
          | None, None => raise (no_attribute PyNone "sock")
          | None, Some connection => fetch_exchange parameters u port connection httpHandler
          end
      end
  end.

(** [FetchCommandHandler.__call__(commandObject, httpHandler)], with
    [parseCommandObject] of the base class. *)
Definition handler_call (parseCommandObject : pyval -> pyexc + (pyval * pyval))
    (commandObject : pyval) (httpHandler : bool) : NetM pyval :=
  let* '(command, parameters) := of_sum (parseCommandObject commandObject) in
  match command with
  | PyStr c => if String.eqb c "fetch" then fetch parameters httpHandler else ret PyNone
  | _ => ret PyNone
  end.
End Fetch.

(** ** Every stage is framed *)

Section Framed.
Context (w : world) (self : fetcher).

Lemma _log_framed h m : framed (_log h m).
Proof. unfold _log. solve_framed. Qed.
Hint Resolve _log_framed : pyfetch.

Lemma _connect_framed h p : framed (_connect w h p).
Proof. unfold _connect. solve_framed. Qed.

Lemma get_peer_certificate_framed c h : framed (get_peer_certificate c h).
Proof. unfold get_peer_certificate. solve_framed. Qed.

Lemma put_headers_framed c hs : framed (put_headers c hs).
Proof. revert c. induction hs as [|[k v] hs IH]; simpl; solve_framed. Qed.
Hint Resolve put_headers_framed : pyfetch.

Lemma request_body_framed o : framed (request_body o).
Proof. unfold request_body. solve_framed. Qed.
Hint Resolve request_body_framed : pyfetch.

Lemma _request_framed c p : framed (_request w c p).
Proof. unfold _request. solve_framed. Qed.

Lemma openssl_thumbprint_framed s a h : framed (openssl_thumbprint w self s a h).
Proof. unfold openssl_thumbprint. solve_framed. Qed.
Hint Resolve _connect_framed get_peer_certificate_framed _request_framed
  openssl_thumbprint_framed : pyfetch.

Lemma fetch_exchange_framed p u port c h : framed (fetch_exchange w self p u port c h).
Proof. unfold fetch_exchange. solve_framed. Qed.
Hint Resolve fetch_exchange_framed : pyfetch.

Lemma fetch_framed p h : framed (fetch w self p h).
Proof. unfold fetch. solve_framed. Qed.
End Framed.

#[export] Hint Resolve _log_framed _connect_framed get_peer_certificate_framed
  put_headers_framed request_body_framed _request_framed
  openssl_thumbprint_framed fetch_exchange_framed fetch_framed : pyfetch.

(** ** The stages' results *)

(** The connection [_connect] returns after a successful handshake. *)
Definition connected (host : string) (port : Z) (pc : peer_cert) : conn :=
  mk_conn host port (Some pc) CS_IDLE EmptyString EmptyString [] None false.

Lemma _connect_ok w host port pc :
  first_disallowed host = None -> handshake w host port = inr pc ->
  _connect w host port [] =
    (Ret (Some (connected host port pc), None), [EvHandshake host port]).
Proof.
  intros H1 H2. unfold _connect, https_connection, connect. rewrite H1. mstep.
  cbv [catch bind emit modify ret]. cbn [c_host c_port]. rewrite H2. reflexivity.
Qed.

Lemma _connect_handshake_error w host port msg :
  first_disallowed host = None -> handshake w host port = inl msg ->
  _connect w host port [] =
    (Ret (connect_error ".connect()" host port (OSError msg)), [EvHandshake host port]).
Proof.
  intros H1 H2. unfold _connect, https_connection, connect. rewrite H1. mstep.
  cbv [catch bind emit modify ret raise]. cbn [c_host c_port]. rewrite H2. reflexivity.
Qed.

(** The target [_parse_resource] returns has a host and a port in range. *)
Lemma _parse_resource_target params u port fe :
  _parse_resource params = inr (Some u, port, fe) ->
  fe = None /\ exists host p, Url.hostname u = Some host /\ Url.port u = inr p
                            /\ port = Some (default 443%Z p).
Proof.
  unfold _parse_resource.
  destruct (getitem params "resource") as [[]|r];
    try (destruct (keys params); congruence); try congruence.
  destruct (Url.urlparse r) as [|u']; [congruence|].
  destruct (Url.hostname u') as [host|] eqn:Hh; [|congruence].
  destruct (Url.port u') as [|q] eqn:Hq; [congruence|].
  intros [= <- <- <-]. split; [done|]. by exists host, q.
Qed.

(** The two error dictionaries of [_parse_resource]: no [resource] key,
    or a resource that has no host. *)
Definition no_target (d : pydict) : Prop :=
  dict_lookup "resource" d = None \/
  exists r u, dict_lookup "resource" d = Some r /\ Url.urlparse r = inr u
              /\ Url.hostname u = None.

Lemma _parse_resource_no_target (d : pydict) :
  no_target d -> exists fe, _parse_resource (PyDict d) = inr (None, None, Some fe).
Proof.
  unfold _parse_resource, no_target; simpl. intros [H | (r & u & H & Hu & Hh)]; rewrite H.
  - by eexists.
  - rewrite Hu, Hh. by eexists.
Qed.

(** [fetch] up to the exchange: the log line, then [_connect]. *)
Lemma fetch_connected w self params h tr u port host c ext :
  _parse_resource params = inr (Some u, Some port, None) ->
  Url.hostname u = Some host ->
  _connect w host port [] = (Ret (Some c, None), ext) ->
  fetch w self params h tr =
    fetch_exchange w self params u (Some port) c h
      (tr ++ EvLog h (fetch_message u (Some port)) :: ext)%list.
Proof.
  intros Hp Hh Hc. unfold fetch. rewrite Hp. mstep. unfold _log. mstep.
  rewrite Hh. simpl. stage Hc. by rewrite <- app_assoc.
Qed.

Lemma get_peer_certificate_starts c h :
  starts_with (EvPeerCert true) (get_peer_certificate c h).
Proof.
  unfold get_peer_certificate, getpeercert_der.
  apply bind_starts_with; [apply bind_emit_starts_with|]; solve_framed.
Qed.

(** ** Which events each stage emits *)

Definition log_event (e : event) : Prop :=
  match e with EvLog _ _ => True | _ => False end.

(** Events that may come before the certificate is read: log lines and the
    handshake. *)
Definition setup_event (e : event) : Prop :=
  match e with EvLog _ _ | EvHandshake _ _ => True | _ => False end.

Lemma _connect_emits w h p : emits_only setup_event (_connect w h p).
Proof. unfold _connect, https_connection, connect. solve_emits. Qed.

Lemma put_headers_emits c hs : emits_only request_event (put_headers c hs).
Proof. revert c. induction hs as [|[k v] hs IH]; simpl; solve_emits. Qed.
#[export] Hint Resolve put_headers_emits : pyfetch.

Lemma request_body_emits o : emits_only request_event (request_body o).
Proof. unfold request_body. solve_emits. Qed.
#[export] Hint Resolve request_body_emits : pyfetch.

(** A request stage only talks to the connection and never logs; the
    only close in it is the one [getresponse] performs, as its last
    event. *)
Lemma _request_closes_last w c p : emits_with closes_last (_request w c p).
Proof.
  unfold _request.
  repeat first
    [ eapply bind_emits_with_post; [apply getresponse_closes_last|intros; solve_emits]
    | eapply (bind_emits_with_pre _ request_event);
        [apply closes_last_nil|apply closes_last_app|solve_emits|intros] ].
Qed.

Lemma setup_no_cert l b : Forall setup_event l -> EvPeerCert b ∉ l.
Proof. intros Hl. apply (Forall_not_elem_of _ _ _ Hl). simpl. tauto. Qed.

Lemma get_peer_certificate_connected host port pc h :
  exists ext, get_peer_certificate (connected host port pc) h [] =
    (Ret (Base64.b64encode (der pc), Z.of_nat (length (der pc))),
     EvPeerCert true :: EvPeerCert false :: ext) /\ Forall log_event ext.
Proof.
  eexists. split.
  - cbv [get_peer_certificate getpeercert_der getpeercert_dict _log connected
         bind emit modify ret c_sock app].
    reflexivity.
  - by repeat constructor.
Qed.

(** [fetch_exchange] returns only after [close()]. *)
Lemma fetch_exchange_closes w self p u port c h v ext :
  fetch_exchange w self p u port c h [] = (Ret v, ext) -> EvClose ∈ ext.
Proof.
  unfold fetch_exchange. split_stage (get_peer_certificate c h); [|congruence].
  destruct a as [enc len]. split_stage (_request w c p); [|congruence].
  destruct a as [c' [raw d]]. unfold close. mstep.
  match goal with
  | |- ?m ?t = _ -> _ =>
      intros H; pose proof (framed_keeps m t EvClose ltac:(solve_framed)
                              ltac:(by apply elem_of_app; right; left)) as K;
      by rewrite H in K
  end.
Qed.

(** ** The PEM extraction loop against a reference definition *)

(** The lines the loop reads: through the first [END CERTIFICATE] line. *)
Fixpoint upto_end (ls : list string) : list string :=
  match ls with
  | [] => []
  | l :: r => if is_marker l "END CERTIFICATE" then [l] else l :: upto_end r
  end.

(** The suffix of [ls] from its last [BEGIN CERTIFICATE] line. *)
Fixpoint last_begin (ls : list string) : option (list string) :=
  match ls with
  | [] => None
  | l :: r =>
      match last_begin r with
      | Some s => Some s
      | None => if is_marker l "BEGIN CERTIFICATE" then Some (l :: r) else None
      end
  end.

Lemma pem_lines_acc ls acc :
  pem_lines ls acc =
    match last_begin (upto_end ls) with
    | Some s => Some s
    | None => (fun p => (p ++ upto_end ls)%list) <$> acc
    end.
Proof.
  revert acc. induction ls as [|l r IH]; intros acc; simpl.
  - destruct acc; simpl; by rewrite ?app_nil_r.
  - destruct (is_marker l "END CERTIFICATE"); simpl.
    + by destruct (is_marker l "BEGIN CERTIFICATE"), acc.
    + rewrite IH. destruct (last_begin (upto_end r)); [done|].
      destruct (is_marker l "BEGIN CERTIFICATE"), acc; simpl; by rewrite <- ?app_assoc.
Qed.

(** ** The result envelope *)

(** The dictionaries [return_] builds: the certificate's base64 text and
    length and the raw body, then either [fetchError] or [fetched] (a
    value other than [None]) and [fetchedDetails]. *)
Definition envelope (v : pyval) : Prop :=
  exists pe pl raw,
    (exists d, v = PyDict [("peerCertificateDER", pe); ("peerCertificateLength", pl);
                           ("fetchedRaw", raw); ("fetchError", PyDict d)]) \/
    (exists f d, f <> PyNone /\
       v = PyDict [("peerCertificateDER", pe); ("peerCertificateLength", pl);
                   ("fetchedRaw", raw); ("fetched", f); ("fetchedDetails", PyDict d)]).

Lemma return_envelope pe pl raw st f d : envelope (return_ pe pl raw st f d).
Proof.
  unfold return_, envelope. do 3 eexists.
  destruct f; [left; by eexists|right; eexists _, _; split; cycle 1; [reflexivity|discriminate]..].
Qed.
#[export] Hint Resolve return_envelope : pyfetch.

(** ** The certificate fields of the result *)

(** What the result says of the certificate: a [peerCertificateDER]
    string is the base64 text of the DER bytes of the socket's
    certificate, and [peerCertificateLength] is their number. *)
Definition cert_result (sock : option peer_cert) (v : pyval) : Prop :=
  forall enc, getitem v "peerCertificateDER" = inr (PyStr enc) ->
  exists pc, sock = Some pc /\ Base64.b64decode enc = Some (der pc) /\
    getitem v "peerCertificateLength" = inr (PyInt (Z.of_nat (length (der pc)))).

Lemma return_cert_fields pe pl raw st f d :
  getitem (return_ pe pl raw st f d) "peerCertificateDER" = inr (opt_str pe) /\
  getitem (return_ pe pl raw st f d) "peerCertificateLength" = inr (opt_int pl).
Proof. unfold return_. by destruct f. Qed.

(** The failure envelopes before a connection hold no certificate. *)
Lemma return_no_cert sock raw st f d : cert_result sock (return_ None None raw st f d).
Proof. intros enc. by rewrite (proj1 (return_cert_fields _ _ _ _ _ _)). Qed.

Lemma return_cert pc raw st f d :
  cert_result (Some pc)
    (return_ (Some (Base64.b64encode (der pc))) (Some (Z.of_nat (length (der pc)))) raw st f d).
Proof.
  intros enc. destruct (return_cert_fields (Some (Base64.b64encode (der pc)))
                          (Some (Z.of_nat (length (der pc)))) raw st f d) as [H1 H2].
  rewrite H1. intros [= <-]. exists pc. by rewrite Base64.b64decode_b64encode, H2.
Qed.

Lemma get_peer_certificate_returns c h :
  returns_only (fun '(enc, len) => exists pc, c_sock c = Some pc /\
                  enc = Base64.b64encode (der pc) /\ len = Z.of_nat (length (der pc)))
    (get_peer_certificate c h).
Proof.
  intros s [enc len] s'. unfold get_peer_certificate, getpeercert_der, getpeercert_dict, _log.
  cbv [bind emit modify ret raise]. destruct (c_sock c) as [pc|]; [|discriminate].
  intros [= <- <- _]. by exists pc.
Qed.

(** Every result of the exchange carries the certificate of its socket. *)
Lemma fetch_exchange_cert w self p u port c h :
  returns_only (cert_result (c_sock c)) (fetch_exchange w self p u port c h).
Proof.
  unfold fetch_exchange. eapply bind_returns_with; [apply get_peer_certificate_returns|].
  intros [enc len] (pc & -> & -> & ->).
  solve_returns_with ltac:(apply ret_returns, return_cert).
Qed.

(** What [_connect] returns: a connection to the server the handshake
    with [(host, port)] reached and no error, or no connection and an
    error after the constructor or the handshake failed. *)
Definition connect_result (w : world) (host : string) (port : Z)
    (r : option conn * option pydict) : Prop :=
  match r with
  | (Some c, None) => exists pc, c = connected host port pc /\ handshake w host port = inr pc
  | (None, Some _) => is_Some (first_disallowed host) \/ exists msg, handshake w host port = inl msg
  | _ => False
  end.

Lemma _connect_returns w host port : returns_only (connect_result w host port) (_connect w host port).
Proof.
  intros s [co fe] s'. unfold _connect, https_connection, connect.
  destruct (first_disallowed host) eqn:Hd;
    [cbv [catch bind raise ret]; intros [= <- <- _]; left; cbn; by rewrite Hd|].
  cbv [catch bind emit modify ret raise]. cbn [c_host c_port c_sock].
  destruct (handshake w host port) eqn:E; intros [= <- <- _]; [right; by eexists|by eexists].
Qed.

(** ** The response body *)

Lemma put_headers_endpoint h p c hs :
  endpoint h p c -> returns_only (endpoint h p) (put_headers c hs).
Proof.
  revert c. induction hs as [|[k v] hs IH]; intros c Hc; simpl; [by apply ret_returns|].
  eapply bind_returns_with; [by apply putheader_endpoint|]. exact IH.
Qed.

(** What [_request] returns: the text of the body of the world's answer
    to a request on the connection's endpoint, and its status. *)
Definition body_answered (w : world) (h : string) (p : Z) (r : conn * (string * pydict)) : Prop :=
  exists rq rs, respond w h p rq = inr rs /\ PyStr.encode_utf8 (fst (snd r)) = rs_body rs /\
    dict_lookup "status" (snd (snd r)) = Some (PyInt (rs_status rs)).

Lemma _request_returns w c params :
  returns_only (body_answered w (c_host c) (c_port c)) (_request w c params).
Proof.
  assert (Hc : endpoint (c_host c) (c_port c) c) by (split; reflexivity).
  unfold _request. solve_returns_with ltac:(first
    [ eapply bind_returns_with with (Q := endpoint (c_host c) (c_port c));
        [solve [solve_returns_with ltac:(first
          [ endpoint_step putrequest_endpoint Hc | endpoint_step putheader_endpoint Hc
          | endpoint_step put_headers_endpoint Hc | endpoint_step endheaders_endpoint Hc
          | apply ret_returns; assumption ])]|]
    | eapply bind_returns_with; [apply getresponse_answered; eassumption|]
    | match goal with
      | |- returns_only _ (match PyStr.decode_utf8 ?b with _ => _ end) =>
          destruct (PyStr.decode_utf8 b) eqn:?
      | Hd : PyStr.decode_utf8 _ = Some _, Ha : answered _ _ _ (_, ?r) |- returns_only _ (ret _) =>
          apply ret_returns; destruct Ha as [_ [rq Hrq]]; exists rq, r;
          split; [exact Hrq|split; [apply PyStr.decode_utf8_encode; exact Hd|reflexivity]]
      end ]).
Qed.

(** ** Concrete runs *)

(** A server [example.test] whose certificate is [demo_cert] and whose
    answers depend on the request's URL; every other host is unknown. *)
Definition demo_cert : peer_cert :=
  mk_peer_cert (list_byte_of_string "0DER")
               [("subject", PyTuple [PyTuple [PyTuple [PyStr "commonName";
                                                       PyStr "example.test"]]])].

Definition demo_answer (url : string) : Z * string :=
  if String.eqb url "https://example.test/get" then (200%Z, "{" ++ dq ++ "a" ++ dq ++ ": 1}")
  else if String.eqb url "https://example.test/null" then (200%Z, "null")
  else if String.eqb url "https://example.test/bad" then (200%Z, "{" ++ dq ++ "a" ++ dq)
  else if String.eqb url "https://example.test/empty" then (200%Z, EmptyString)
  else if String.eqb url "https://example.test/deep" then (200%Z, "[[[1]]]")
  else (404%Z, "Not Found").

Definition demo_pem : string :=
  "-----BEGIN CERTIFICATE-----" ++ nl ++ "MIIB" ++ nl ++ "-----END CERTIFICATE-----" ++ nl.

(** The recursion limit's default, 1000, less the frames of a server's
    handler stack. *)
Definition demo_headroom : nat := 960.

Definition demo_world : world :=
  mk_world
    (fun host _ => if String.eqb host "example.test" then inr demo_cert
                   else inl "[Errno 8] nodename nor servname provided, or not known")
    (fun _ _ rq => let '(st, b) := demo_answer (rq_url rq) in
                   inr (mk_response st "OK" [("Content-Type", "application/json")]
                                    (list_byte_of_string b) false))
    (fun _ _ _ => inr (demo_pem, "depth=0"))
    demo_headroom.

(** [demo_world] where the handler runs with two levels of recursion left. *)
Definition shallow_world : world :=
  mk_world (handshake demo_world) (respond demo_world) (run demo_world) 2.

(** A server that accepts the handshake and drops the connection. *)
Definition dropping_world : world :=
  mk_world (fun _ _ => inr demo_cert)
           (fun _ _ _ => inl (ConnectionLost "Remote end closed connection without response"))
           (fun _ _ _ => inr (demo_pem, EmptyString)) demo_headroom.

(** [demo_world] where [openssl s_client] cannot reach the server and
    prints no certificate. *)
Definition refusing_openssl_world : world :=
  mk_world (handshake demo_world) (respond demo_world)
           (fun _ _ _ => inr (EmptyString, "connect:errno=61")) demo_headroom.

Definition demo_fetcher : fetcher := mk_fetcher "/tmp/keychains.pem".

Definition demo_params (resource : string) : pyval := PyDict [("resource", PyStr resource)].

(** Close an equation between traces built with [++]. *)
Ltac close_trace := simpl; rewrite ?app_nil_r, <- ?app_assoc; try reflexivity.

(** ** Properties of [fetch] *)

Section FetchProperties.
Context (w : world) (self : fetcher).

(** C1. When the parameters have no [resource], or a resource with no
    host, [fetch] does not return the failure envelope [return_(0, ...)]
    the code prepares: the log line [f'fetch() {url.hostname} {port}.']
    reads an attribute of [None] and raises [AttributeError] before any
    event, so no connection is attempted and the failure envelope is
    never built. *)
Theorem fetch_parse_failure_raises (d : pydict) h tr :
  no_target d ->
  fetch w self (PyDict d) h tr =
    (Exc (AttributeError "'NoneType' object has no attribute 'hostname'"), tr).
Proof.
  intros H. destruct (_parse_resource_no_target d H) as [fe Hfe].
  unfold fetch. by rewrite Hfe.
Qed.

(** C2. Nothing of the request is sent before the peer certificate is
    read: every event [fetch] emits before its first [getpeercert(True)]
    is a log line or the TLS handshake, whatever the parameters and the
    world. *)
Theorem fetch_certificate_before_request params h tr :
  exists pre post,
    snd (fetch w self params h tr) = (tr ++ pre ++ post)%list /\
    Forall setup_event pre /\
    (post = [] \/ exists post', post = EvPeerCert true :: post').
Proof.
  unfold fetch. destruct (_parse_resource params) as [e|[[[u|] port] fe]]; mstep;
    [exists [], []; split; [close_trace|split; [constructor|by left]]| |
     exists [], []; split; [close_trace|split; [constructor|by left]]].
  unfold _log. mstep. set (msg := fetch_message u port).
  destruct fe as [fe|]; cbn beta iota.
  { exists [EvLog h msg], []. split; [close_trace|split; [by repeat constructor|by left]]. }
  destruct (_connect_emits w (fmt_str (Url.hostname u)) (default 0%Z port) (tr ++ [EvLog h msg])%list)
    as (ext & Hext & Hset).
  assert (Hpre : Forall setup_event (EvLog h msg :: ext)) by (constructor; [exact I|exact Hset]).
  split_stage (_connect w (fmt_str (Url.hostname u)) (default 0%Z port)); simpl in Hext; subst;
    [|exists (EvLog h msg :: ext), []; split; [close_trace|split; [exact Hpre|by left]]].
  destruct a as [c [fe|]]; [|destruct c as [c|]];
    try (exists (EvLog h msg :: ext), []; split; [solve [close_trace]|split; [exact Hpre|by left]]).
  unfold fetch_exchange.
  match goal with
  | |- context [bind (get_peer_certificate c h) ?k ?s] =>
      destruct (bind_starts_with _ _ k (get_peer_certificate_starts c h)
                  ltac:(solve_framed) s) as [e1 He1]
  end.
  rewrite He1. eexists _, _. split; [|split; [exact Hpre|right; by eexists]]. close_trace.
Qed.

(** Run [fetch] to [close()] on a connected server: [_parse_resource]
    found the target ([Hp], [Hh]), the handshake succeeded ([Hd], [Hk]),
    the certificate was read ([Hg]) and the exchange returned ([Hr]). *)
Ltac run_to_close Hp Hh Hd Hk Hg Hr :=
  rewrite (fetch_connected _ _ _ _ _ _ _ _ _ _ Hp Hh (_connect_ok _ _ _ _ Hd Hk));
  unfold fetch_exchange; stage Hg; stage Hr; unfold close; mstep.

(** C4. On a 2xx (below 400) response whose body [_parse_JSON] parses,
    [fetch] returns the [fetched] envelope: the certificate the handshake
    presented, base64-encoded, with its length in bytes, the raw body, the
    parsed value and the response details; the trace is the log line,
    the handshake, the certificate reads, the exchange, [close()] and
    then the [openssl] diagnostics. *)
Theorem fetch_returns_fetched params h tr u port host pc c' raw details st v addr e3 e4 :
  _parse_resource params = inr (Some u, Some port, None) ->
  Url.hostname u = Some host -> first_disallowed host = None ->
  handshake w host port = inr pc ->
  _request w (connected host port pc) params [] = (Ret (c', (raw, details)), e3) ->
  dict_lookup "status" details = Some (PyInt st) -> (st < 400)%Z ->
  _parse_JSON w (Some raw) = inr (v, None) ->
  connect_address u (Some port) = inr addr ->
  openssl_thumbprint w self host addr h [] = (Ret tt, e4) ->
  exists e2, fetch w self params h tr =
    (Ret (return_ (Some (Base64.b64encode (der pc))) (Some (Z.of_nat (length (der pc))))
                  (Some raw) None v details),
     tr ++ EvLog h (fetch_message u (Some port)) :: EvHandshake host port
        :: EvPeerCert true :: EvPeerCert false :: e2 ++ e3 ++ EvClose :: e4)%list.
Proof.
  intros Hp Hh Hd Hk Hr Hs Hst Hj Ha Ho.
  destruct (get_peer_certificate_connected host port pc h) as (e2 & Hg & _). exists e2.
  run_to_close Hp Hh Hd Hk Hg Hr. rewrite Hs, (proj2 (Z.leb_gt _ _) Hst), Hj. mstep.
  rewrite Ha. mstep. rewrite Hh. simpl fmt_str. stage Ho. close_trace.
Qed.

(** C12. Capturing the certificate cannot fail: after a successful
    handshake [fetch] always reads the certificate in both forms, logs
    it, and goes on to the request stage on the connected socket, so
    its trace continues with the whole run of [_request] on that
    connection. *)
Theorem fetch_reaches_request params h tr u port host pc :
  _parse_resource params = inr (Some u, Some port, None) ->
  Url.hostname u = Some host -> first_disallowed host = None ->
  handshake w host port = inr pc ->
  exists e2 rest, snd (fetch w self params h tr) =
    (tr ++ EvLog h (fetch_message u (Some port)) :: EvHandshake host port
        :: EvPeerCert true :: EvPeerCert false :: e2
        ++ snd (_request w (connected host port pc) params []) ++ rest)%list
    /\ Forall log_event e2.
Proof.
  intros Hp Hh Hd Hk.
  destruct (get_peer_certificate_connected host port pc h) as (e2 & Hg & Hl).
  rewrite (fetch_connected _ _ _ _ _ _ _ _ _ _ Hp Hh (_connect_ok _ _ _ _ Hd Hk)).
  unfold fetch_exchange. stage Hg.
  destruct (_request w (connected host port pc) params []) as [[[c' [raw d]]|x] e3] eqn:Hr;
    stage Hr.
  - match goal with
    | |- exists _ _, snd (?m ?t) = _ /\ _ =>
        destruct (framed_extends m t ltac:(solve_framed)) as [rest Hrest]
    end.
    exists e2, rest. rewrite Hrest. split; [close_trace|exact Hl].
  - exists e2, []. split; [close_trace|exact Hl].
Qed.

(** C6. On a response with status 400 or more, [fetch] returns the
    [fetchError] envelope holding the response details, the raw body and
    the certificate, and runs no [openssl] diagnostics: the trace ends
    with [close()]. *)
Theorem fetch_http_error params h tr u port host pc c' raw details st e3 :
  _parse_resource params = inr (Some u, Some port, None) ->
  Url.hostname u = Some host -> first_disallowed host = None ->
  handshake w host port = inr pc ->
  _request w (connected host port pc) params [] = (Ret (c', (raw, details)), e3) ->
  dict_lookup "status" details = Some (PyInt st) -> (400 <= st)%Z ->
  exists e2, fetch w self params h tr =
    (Ret (PyDict [("peerCertificateDER", PyStr (Base64.b64encode (der pc)));
                  ("peerCertificateLength", PyInt (Z.of_nat (length (der pc))));
                  ("fetchedRaw", PyStr raw); ("fetchError", PyDict details)]),
     tr ++ EvLog h (fetch_message u (Some port)) :: EvHandshake host port
        :: EvPeerCert true :: EvPeerCert false :: e2 ++ e3 ++ [EvClose])%list.
Proof.
  intros Hp Hh Hd Hk Hr Hs Hst.
  destruct (get_peer_certificate_connected host port pc h) as (e2 & Hg & _). exists e2.
  run_to_close Hp Hh Hd Hk Hg Hr. rewrite Hs, (proj2 (Z.leb_le _ _) Hst). close_trace.
Qed.

(** C7. A response body [null] with a 2xx status is reported as a
    failure: [_parse_JSON] returns [None] with no error, and [return_]
    tests [fetched is None], so the result is the [fetchError] envelope
    holding the successful response's details, after the [openssl]
    diagnostics ran as for a success. *)
Theorem fetch_null_body_is_failure params h tr u port host pc c' details st addr e3 e4 :
  _parse_resource params = inr (Some u, Some port, None) ->
  Url.hostname u = Some host -> first_disallowed host = None ->
  handshake w host port = inr pc ->
  _request w (connected host port pc) params [] = (Ret (c', ("null", details)), e3) ->
  dict_lookup "status" details = Some (PyInt st) -> (st < 400)%Z ->
  connect_address u (Some port) = inr addr ->
  openssl_thumbprint w self host addr h [] = (Ret tt, e4) ->
  exists e2, fetch w self params h tr =
    (Ret (PyDict [("peerCertificateDER", PyStr (Base64.b64encode (der pc)));
                  ("peerCertificateLength", PyInt (Z.of_nat (length (der pc))));
                  ("fetchedRaw", PyStr "null"); ("fetchError", PyDict details)]),
     tr ++ EvLog h (fetch_message u (Some port)) :: EvHandshake host port
        :: EvPeerCert true :: EvPeerCert false :: e2 ++ e3 ++ EvClose :: e4)%list.
Proof.
  intros Hp Hh Hd Hk Hr Hs Hst Ha Ho.
  destruct (get_peer_certificate_connected host port pc h) as (e2 & Hg & _). exists e2.
  run_to_close Hp Hh Hd Hk Hg Hr. rewrite Hs, (proj2 (Z.leb_gt _ _) Hst).
  replace (_parse_JSON w (Some "null")) with (inr (A := pyexc) (PyNone, @None pydict))
    by (vm_compute; reflexivity).
  mstep. rewrite Ha. mstep. rewrite Hh. simpl fmt_str. stage Ho. close_trace.
Qed.

(** C9. A 2xx body that is not valid JSON gives the [fetchError]
    envelope with status 2 carrying [json]'s message, line and column,
    the raw body and the certificate; no [openssl] diagnostics run. *)
Theorem fetch_json_decode_error params h tr u port host pc c' raw details st msg pos ln col e3 :
  _parse_resource params = inr (Some u, Some port, None) ->
  Url.hostname u = Some host -> first_disallowed host = None ->
  handshake w host port = inr pc ->
  _request w (connected host port pc) params [] = (Ret (c', (raw, details)), e3) ->
  dict_lookup "status" details = Some (PyInt st) -> (st < 400)%Z ->
  String.eqb raw EmptyString = false ->
  Json.loads (recursion_headroom w) raw = inl (JSONDecodeError msg pos ln col) ->
  exists e2, fetch w self params h tr =
    (Ret (PyDict [("peerCertificateDER", PyStr (Base64.b64encode (der pc)));
                  ("peerCertificateLength", PyInt (Z.of_nat (length (der pc))));
                  ("fetchedRaw", PyStr raw);
                  ("fetchError", PyDict [("statusText", PyStr "JSONDecodeError");
                                         ("headers", PyDict [("msg", PyStr msg);
                                                             ("lineno", PyInt ln);
                                                             ("colno", PyInt col)]);
                                         ("status", PyInt 2)])]),
     tr ++ EvLog h (fetch_message u (Some port)) :: EvHandshake host port
        :: EvPeerCert true :: EvPeerCert false :: e2 ++ e3 ++ [EvClose])%list.
Proof.
  intros Hp Hh Hd Hk Hr Hs Hst Hne Hl.
  destruct (get_peer_certificate_connected host port pc h) as (e2 & Hg & _). exists e2.
  run_to_close Hp Hh Hd Hk Hg Hr. rewrite Hs, (proj2 (Z.leb_gt _ _) Hst).
  unfold _parse_JSON. rewrite Hne, Hl. mstep. close_trace.
Qed.

(** C10. A 2xx body nested deeper than the recursion the interpreter has
    left makes [fetch] raise [RecursionError] after closing the
    connection: [_parse_JSON] catches only [JSONDecodeError] and [fetch]
    catches nothing, so no [fetchError] envelope is returned and no
    [openssl] diagnostics run. *)
Theorem fetch_deep_body_raises params h tr u port host pc c' raw details st m e3 :
  _parse_resource params = inr (Some u, Some port, None) ->
  Url.hostname u = Some host -> first_disallowed host = None ->
  handshake w host port = inr pc ->
  _request w (connected host port pc) params [] = (Ret (c', (raw, details)), e3) ->
  dict_lookup "status" details = Some (PyInt st) -> (st < 400)%Z ->
  String.eqb raw EmptyString = false ->
  Json.loads (recursion_headroom w) raw = inl (RecursionError m) ->
  exists e2, fetch w self params h tr =
    (Exc (RecursionError m),
     tr ++ EvLog h (fetch_message u (Some port)) :: EvHandshake host port
        :: EvPeerCert true :: EvPeerCert false :: e2 ++ e3 ++ [EvClose])%list.
Proof.
  intros Hp Hh Hd Hk Hr Hs Hst Hne Hl.
  destruct (get_peer_certificate_connected host port pc h) as (e2 & Hg & _). exists e2.
  run_to_close Hp Hh Hd Hk Hg Hr. rewrite Hs, (proj2 (Z.leb_gt _ _) Hst).
  unfold _parse_JSON. rewrite Hne, Hl. mstep. close_trace.
Qed.

(** C11. A failed handshake gives the [fetchError] envelope with status 1
    whose text names the phase ([.connect()]), the host, the port and
    the error, with every certificate field [None]. *)
Theorem fetch_connect_failure params h tr u port host msg :
  _parse_resource params = inr (Some u, Some port, None) ->
  Url.hostname u = Some host -> first_disallowed host = None ->
  handshake w host port = inl msg ->
  fetch w self params h tr =
    (Ret (PyDict [("peerCertificateDER", PyNone); ("peerCertificateLength", PyNone);
                  ("fetchedRaw", PyNone);
                  ("fetchError",
                   PyDict [("statusText", PyStr ("HTTPSConnection(" ++ host ++ ","
                                                 ++ PyStr.str_int port ++ ",).connect() "
                                                 ++ msg));
                           ("status", PyInt 1)])]),
     tr ++ [EvLog h (fetch_message u (Some port)); EvHandshake host port])%list.
Proof.
  intros Hp Hh Hd Hk. unfold fetch. rewrite Hp. mstep. unfold _log. mstep.
  rewrite Hh. simpl fmt_str. stage (_connect_handshake_error w host port msg Hd Hk).
  close_trace.
Qed.

(** C15. Whenever [fetch] returns a value after reading the peer
    certificate, the connection was closed. *)
Theorem fetch_closes_connection params h v ext :
  fetch w self params h [] = (Ret v, ext) -> EvPeerCert true ∈ ext -> EvClose ∈ ext.
Proof.
  unfold fetch. destruct (_parse_resource params) as [e|[[[u|] port] fe]]; mstep;
    try discriminate.
  unfold _log. mstep. destruct fe as [fe|]; cbn beta iota.
  { intros [= _ <-] Hin. exfalso.
    exact (setup_no_cert [EvLog h (fetch_message u port)] true ltac:(repeat constructor) Hin). }
  destruct (_connect_emits w (fmt_str (Url.hostname u)) (default 0%Z port)
              ([] ++ [EvLog h (fetch_message u port)])%list) as (e1 & He1 & Hs1).
  assert (Hpre : Forall setup_event (EvLog h (fetch_message u port) :: e1))
    by (constructor; [exact I|exact Hs1]).
  split_stage (_connect w (fmt_str (Url.hostname u)) (default 0%Z port));
    [|discriminate]. simpl in He1. subst.
  destruct a as [c [fe|]]; [|destruct c as [c|]]; try discriminate.
  - intros [= _ <-] Hin. exfalso. exact (setup_no_cert _ true Hpre Hin).
  - rewrite (fetch_exchange_framed w self params u port c h).
    destruct (fetch_exchange w self params u port c h []) as [o e'] eqn:Ex.
    intros [= -> <-] _. rewrite elem_of_cons, elem_of_app. right; right.
    exact (fetch_exchange_closes _ _ _ _ _ _ _ _ _ Ex).
Qed.

(** C16. When the exchange raises (a transport error, an invalid header,
    a body that is not UTF-8), [fetch] propagates the exception without
    running its own [close()]: the trace ends with the request stage's
    events.  Nothing between the certificate read and the request stage
    closes the connection, and the only close within the stage is the
    one [http.client]'s [getresponse] performs (on a [ConnectionError],
    or for a response that will close): the stage's last event, right
    after the response was requested. *)
Theorem fetch_request_error_skips_close params h tr u port host pc x e3 :
  _parse_resource params = inr (Some u, Some port, None) ->
  Url.hostname u = Some host -> first_disallowed host = None ->
  handshake w host port = inr pc ->
  _request w (connected host port pc) params [] = (Exc x, e3) ->
  exists e2, fetch w self params h tr =
    (Exc x, tr ++ EvLog h (fetch_message u (Some port)) :: EvHandshake host port
              :: EvPeerCert true :: EvPeerCert false :: e2 ++ e3)%list
    /\ (EvClose ∉ e2) /\ closes_last e3.
Proof.
  intros Hp Hh Hd Hk Hr.
  destruct (get_peer_certificate_connected host port pc h) as (e2 & Hg & Hl). exists e2.
  rewrite (fetch_connected _ _ _ _ _ _ _ _ _ _ Hp Hh (_connect_ok _ _ _ _ Hd Hk)).
  unfold fetch_exchange. stage Hg. stage Hr. split_and!; [close_trace| |].
  - apply (Forall_not_elem_of _ _ _ Hl). simpl. tauto.
  - destruct (_request_closes_last w (connected host port pc) params []) as (e & He & Hc).
    rewrite Hr in He. simpl in He. by subst.
Qed.

(** C17. Every value [fetch] returns is a result envelope: the three
    evidence fields in that order, then either [fetchError] or a
    [fetched] value other than [None] with [fetchedDetails]. *)
Theorem fetch_result_envelope params h : returns_only envelope (fetch w self params h).
Proof. unfold fetch, fetch_exchange. solve_returns. Qed.

(** C18. A 2xx response with an empty body is a success whose [fetched]
    is the empty string: [_parse_JSON] returns [raw] itself for an empty
    [raw], where the spec says [fetched] is null. *)
Theorem fetch_empty_body params h tr u port host pc c' details st addr e3 e4 :
  _parse_resource params = inr (Some u, Some port, None) ->
  Url.hostname u = Some host -> first_disallowed host = None ->
  handshake w host port = inr pc ->
  _request w (connected host port pc) params [] = (Ret (c', (EmptyString, details)), e3) ->
  dict_lookup "status" details = Some (PyInt st) -> (st < 400)%Z ->
  connect_address u (Some port) = inr addr ->
  openssl_thumbprint w self host addr h [] = (Ret tt, e4) ->
  exists e2, fetch w self params h tr =
    (Ret (PyDict [("peerCertificateDER", PyStr (Base64.b64encode (der pc)));
                  ("peerCertificateLength", PyInt (Z.of_nat (length (der pc))));
                  ("fetchedRaw", PyStr EmptyString); ("fetched", PyStr EmptyString);
                  ("fetchedDetails", PyDict details)]),
     tr ++ EvLog h (fetch_message u (Some port)) :: EvHandshake host port
        :: EvPeerCert true :: EvPeerCert false :: e2 ++ e3 ++ EvClose :: e4)%list.
Proof.
  intros Hp Hh Hd Hk Hr Hs Hst Ha Ho.
  destruct (get_peer_certificate_connected host port pc h) as (e2 & Hg & _). exists e2.
  run_to_close Hp Hh Hd Hk Hg Hr. rewrite Hs, (proj2 (Z.leb_gt _ _) Hst).
  change (_parse_JSON w (Some EmptyString)) with (inr (A := pyexc) (PyStr EmptyString, @None pydict)).
  mstep. rewrite Ha. mstep. rewrite Hh. simpl fmt_str. stage Ho. close_trace.
Qed.

(** C19. The [openssl] cross-check gates the result: when [s_client]
    prints no [BEGIN CERTIFICATE] line, [len(None)] raises [TypeError]
    after the connection was closed, and [fetch] propagates it instead
    of returning the envelope it had built. *)
Theorem fetch_diagnostics_failure_propagates params h tr u port host pc c' raw details st v
    addr out err e3 :
  _parse_resource params = inr (Some u, Some port, None) ->
  Url.hostname u = Some host -> first_disallowed host = None ->
  handshake w host port = inr pc ->
  _request w (connected host port pc) params [] = (Ret (c', (raw, details)), e3) ->
  dict_lookup "status" details = Some (PyInt st) -> (st < 400)%Z ->
  _parse_JSON w (Some raw) = inr (v, None) ->
  connect_address u (Some port) = inr addr ->
  run w (s_client_argv self host addr) None false = inr (out, err) ->
  pem_lines (PyStr.splitlines out) None = None ->
  exists e2, fetch w self params h tr =
    (Exc (TypeError "object of type 'NoneType' has no len()"),
     tr ++ EvLog h (fetch_message u (Some port)) :: EvHandshake host port
        :: EvPeerCert true :: EvPeerCert false :: e2 ++ e3
        ++ [EvClose; EvRun (s_client_argv self host addr);
            EvLog h ("openssl s_client stderr" ++ nl ++ err)])%list.
Proof.
  intros Hp Hh Hd Hk Hr Hs Hst Hj Ha Hrun Hpem.
  destruct (get_peer_certificate_connected host port pc h) as (e2 & Hg & _). exists e2.
  run_to_close Hp Hh Hd Hk Hg Hr. rewrite Hs, (proj2 (Z.leb_gt _ _) Hst), Hj. mstep.
  rewrite Ha. mstep. rewrite Hh. simpl fmt_str.
  unfold openssl_thumbprint, subprocess_run, _log. mstep. rewrite Hrun. mstep.
  rewrite Hpem. close_trace.
Qed.

(** C24. [_parse_resource] gives a target exactly when the parameters
    have a [resource] that [urlparse] splits, with a host name and a
    [port] attribute that does not raise; the target is then that URL
    with no error, on [url.port], or 443 when the URL has none.  Its
    host name is never empty and its port is in 0-65535. *)
Theorem _parse_resource_target_bounds params u port fe :
  _parse_resource params = inr (Some u, port, fe) <->
  exists r host p,
    getitem params "resource" = inr r /\ Url.urlparse r = inr u /\
    Url.hostname u = Some host /\ Url.port u = inr p /\
    fe = None /\ port = Some (default 443%Z p) /\
    host <> EmptyString /\ (0 <= default 443%Z p <= 65535)%Z.
Proof.
  split.
  - unfold _parse_resource.
    destruct (getitem params "resource") as [[]|r] eqn:Hr;
      try (destruct (keys params); congruence); try congruence.
    destruct (Url.urlparse r) as [|u'] eqn:Hu; [congruence|].
    destruct (Url.hostname u') as [host|] eqn:Hh; [|congruence].
    destruct (Url.port u') as [|q] eqn:Hq; [congruence|].
    intros [= <- <- <-]. exists r, host, q.
    assert (0 <= default 443%Z q <= 65535)%Z
      by (destruct q as [n|]; simpl; [by apply (Url.port_range u')|lia]).
    split_and!; try done; try lia. by eapply Url.hostname_nonempty.
  - intros (r & host & p & Hr & Hu & Hh & Hp & -> & -> & _).
    unfold _parse_resource. by rewrite Hr, Hu, Hh, Hp.
Qed.


(** C26. The loop of [openssl_thumbprint] over the [s_client] output
    keeps the lines from the last [BEGIN CERTIFICATE] line up to and
    including the first [END CERTIFICATE] line, and gives [None] when no
    [BEGIN] line comes before it. *)
Theorem pem_lines_spec ls : pem_lines ls None = last_begin (upto_end ls).
Proof. rewrite pem_lines_acc. by destruct (last_begin (upto_end ls)). Qed.

(** C25. [FetchCommandHandler.__call__] runs [fetch] on the parameters
    exactly when the command is the string ["fetch"]; any other command,
    a non-string included, returns [None] with no event. *)
Theorem handler_call_dispatch parse cobj h tr cmd params :
  parse cobj = inr (cmd, params) ->
  (cmd = PyStr "fetch" -> handler_call w self parse cobj h tr = fetch w self params h tr) /\
  (cmd <> PyStr "fetch" -> handler_call w self parse cobj h tr = (Ret PyNone, tr)).
Proof.
  intros Hp. unfold handler_call. rewrite Hp. mstep. split; [by intros ->|].
  intros Hne. destruct cmd; try reflexivity.
  destruct (String.eqb s "fetch") eqn:E; [|reflexivity].
  apply String.eqb_eq in E. by subst.
Qed.


(** C5. Whenever [fetch] returns a result whose [peerCertificateDER] is
    a string, that string is base64 text that decodes to the DER bytes
    of the certificate the TLS handshake with the resource's host and
    port received, and [peerCertificateLength] is their number: the
    encoding of [get_peer_certificate] loses nothing, on every path
    that returns. *)
Theorem fetch_certificate_roundtrip params h tr v tr' enc :
  fetch w self params h tr = (Ret v, tr') ->
  getitem v "peerCertificateDER" = inr (PyStr enc) ->
  exists u host port pc,
    _parse_resource params = inr (Some u, Some port, None) /\ Url.hostname u = Some host /\
    handshake w host port = inr pc /\ Base64.b64decode enc = Some (der pc) /\
    getitem v "peerCertificateLength" = inr (PyInt (Z.of_nat (length (der pc)))).
Proof.
  intros Hf Henc. revert enc Henc. revert tr v tr' Hf.
  refine (_ : returns_only (fun v => _) (fetch w self params h)).
  unfold fetch. eapply (bind_returns_with _ (fun r => _parse_resource params = inr r)).
  { intros s a s'. destruct (_parse_resource params); cbv; congruence. }
  intros [[[u|] port] fe] Hp; cbn beta iota; [|apply raise_returns].
  apply bind_returns. intros _.
  destruct (_parse_resource_target _ _ _ _ Hp) as (-> & host & p & Hh & _ & ->).
  rewrite Hh. cbn [fmt_str default].
  eapply bind_returns_with; [apply _connect_returns|]. intros [co fe] Hc. cbn beta iota.
  destruct fe as [fe|].
  { apply ret_returns. intros enc He.
    by destruct (return_no_cert None None _ PyNone fe enc He) as (? & ? & _). }
  destruct co as [c|]; [|apply raise_returns].
  destruct Hc as (pc & -> & Hk).
  intros s v s' Hx enc He.
  destruct (fetch_exchange_cert w self params u _ _ h s v s' Hx enc He) as (pc' & Hs' & Hd & Hl).
  injection Hs' as <-. by exists u, host, (default 443%Z p), pc.
Qed.
End FetchProperties.

(** ** The properties at concrete runs *)

(** [v[k]] of a result dictionary. *)
Definition field (k : string) (v : pyval) : option pyval :=
  match v with PyDict d => dict_lookup k d | _ => None end.

(** Discharge a hypothesis about a concrete run. *)
Ltac concrete :=
  first [ vm_compute; reflexivity
        | apply Z.leb_le; vm_compute; reflexivity
        | apply Z.ltb_lt; vm_compute; reflexivity ].

Lemma fetch_parse_failure_raises_witness :
  fetch demo_world demo_fetcher (PyDict [("options", PyDict [])]) false [] =
    (Exc (AttributeError "'NoneType' object has no attribute 'hostname'"), []).
Proof. apply fetch_parse_failure_raises. left. reflexivity. Defined.

Lemma fetch_returns_fetched_witness :
  exists v tr', fetch demo_world demo_fetcher (demo_params "https://example.test/get") false []
                = (Ret v, tr') /\ field "fetched" v = Some (PyDict [("a", PyInt 1)]).
Proof.
  edestruct (fetch_returns_fetched demo_world demo_fetcher
               (demo_params "https://example.test/get") false []) as [e2 He]; [concrete..|].
  rewrite He. eexists _, _. split; [reflexivity|vm_compute; reflexivity].
Defined.

Lemma fetch_http_error_witness :
  exists v tr', fetch demo_world demo_fetcher (demo_params "https://example.test/status/404")
                  false [] = (Ret v, tr')
                /\ option_map (field "status") (field "fetchError" v) = Some (Some (PyInt 404)).
Proof.
  edestruct (fetch_http_error demo_world demo_fetcher
               (demo_params "https://example.test/status/404") false []) as [e2 He];
    [concrete..|].
  rewrite He. eexists _, _. split; [reflexivity|vm_compute; reflexivity].
Defined.

Lemma fetch_null_body_is_failure_witness :
  exists v tr', fetch demo_world demo_fetcher (demo_params "https://example.test/null") false []
                = (Ret v, tr')
                /\ option_map (field "status") (field "fetchError" v) = Some (Some (PyInt 200)).
Proof.
  edestruct (fetch_null_body_is_failure demo_world demo_fetcher
               (demo_params "https://example.test/null") false []) as [e2 He]; [concrete..|].
  rewrite He. eexists _, _. split; [reflexivity|vm_compute; reflexivity].
Defined.

Lemma fetch_json_decode_error_witness :
  exists v tr', fetch demo_world demo_fetcher (demo_params "https://example.test/bad") false []
                = (Ret v, tr')
                /\ option_map (field "status") (field "fetchError" v) = Some (Some (PyInt 2)).
Proof.
  edestruct (fetch_json_decode_error demo_world demo_fetcher
               (demo_params "https://example.test/bad") false []) as [e2 He]; [concrete..|].
  rewrite He. eexists _, _. split; [reflexivity|vm_compute; reflexivity].
Defined.

Lemma fetch_deep_body_raises_witness :
  exists tr', fetch shallow_world demo_fetcher (demo_params "https://example.test/deep") false []
                = (Exc (Json.recursion_error "array"), tr').
Proof.
  edestruct (fetch_deep_body_raises shallow_world demo_fetcher
               (demo_params "https://example.test/deep") false []) as [e2 He]; [concrete..|].
  rewrite He. eexists. reflexivity.
Defined.

Lemma fetch_connect_failure_witness :
  exists v tr', fetch demo_world demo_fetcher (demo_params "https://other.test/") false []
                = (Ret v, tr')
                /\ option_map (field "status") (field "fetchError" v) = Some (Some (PyInt 1)).
Proof.
  erewrite (fetch_connect_failure demo_world demo_fetcher
              (demo_params "https://other.test/") false []); [|concrete..].
  eexists _, _. split; [reflexivity|vm_compute; reflexivity].
Defined.

Lemma fetch_closes_connection_witness :
  EvClose ∈ snd (fetch demo_world demo_fetcher (demo_params "https://example.test/get") false []).
Proof.
  set (run := fetch demo_world demo_fetcher (demo_params "https://example.test/get") false []).
  apply (fetch_closes_connection demo_world demo_fetcher
           (demo_params "https://example.test/get") false
           (match fst run with Ret v => v | Exc _ => PyNone end));
    [vm_compute; reflexivity|].
  apply (bool_decide_unpack (EvPeerCert true ∈ snd run)). vm_compute. exact I.
Defined.

Lemma fetch_request_error_skips_close_witness :
  exists tr', fetch dropping_world demo_fetcher (demo_params "https://example.test/get") false []
                = (Exc (ConnectionError "Remote end closed connection without response"), tr')
              /\ EvClose ∈ tr'.
Proof.
  edestruct (fetch_request_error_skips_close dropping_world demo_fetcher
               (demo_params "https://example.test/get") false []) as (e2 & He & _ & _);
    [concrete..|].
  rewrite He. eexists. split; [reflexivity|]. simpl. do 4 (apply elem_of_cons; right).
  apply elem_of_app; right. refine (bool_decide_unpack _ _). by vm_compute.
Defined.

Lemma fetch_empty_body_witness :
  exists v tr', fetch demo_world demo_fetcher (demo_params "https://example.test/empty") false []
                = (Ret v, tr') /\ field "fetched" v = Some (PyStr EmptyString).
Proof.
  edestruct (fetch_empty_body demo_world demo_fetcher
               (demo_params "https://example.test/empty") false []) as [e2 He]; [concrete..|].
  rewrite He. eexists _, _. split; reflexivity.
Defined.

Lemma fetch_diagnostics_failure_propagates_witness :
  exists tr', fetch refusing_openssl_world demo_fetcher (demo_params "https://example.test/get")
                false [] = (Exc (TypeError "object of type 'NoneType' has no len()"), tr').
Proof.
  edestruct (fetch_diagnostics_failure_propagates refusing_openssl_world demo_fetcher
               (demo_params "https://example.test/get") false []) as [e2 He]; [concrete..|].
  rewrite He. by eexists.
Defined.

(** The URL [urlparse] gives for a resource. *)
Definition demo_url (resource : string) : Url.parse_result :=
  match Url.urlparse (PyStr resource) with inr u => u | inl _ => Url.empty_bytes_result end.

Lemma fetch_reaches_request_witness :
  exists e2 rest,
    snd (fetch demo_world demo_fetcher (demo_params "https://example.test/get") false []) =
      ([] ++ EvLog false (fetch_message (demo_url "https://example.test/get") (Some 443%Z))
          :: EvHandshake "example.test" 443 :: EvPeerCert true :: EvPeerCert false :: e2
          ++ snd (_request demo_world (connected "example.test" 443 demo_cert)
                           (demo_params "https://example.test/get") []) ++ rest)%list
    /\ Forall log_event e2.
Proof.
  apply (fetch_reaches_request demo_world demo_fetcher (demo_params "https://example.test/get")
           false [] (demo_url "https://example.test/get") 443 "example.test" demo_cert);
    concrete.
Defined.

Lemma _parse_resource_target_bounds_witness :
  _parse_resource (demo_params "https://example.test/get")
    = inr (Some (demo_url "https://example.test/get"), Some 443%Z, None).
Proof.
  apply (_parse_resource_target_bounds (demo_params "https://example.test/get")).
  exists (PyStr "https://example.test/get"), "example.test", None.
  split_and!; first [vm_compute; reflexivity | discriminate | lia].
Defined.


Lemma handler_call_dispatch_witness :
  handler_call demo_world demo_fetcher (fun v => inr (PyStr "status", v)) (PyDict []) false []
    = (Ret PyNone, []).
Proof.
  apply (handler_call_dispatch demo_world demo_fetcher (fun v => inr (PyStr "status", v))
           (PyDict []) false [] (PyStr "status") (PyDict []) eq_refl).
  discriminate.
Defined.

Lemma fetch_certificate_roundtrip_witness :
  exists v tr' enc,
    fetch demo_world demo_fetcher (demo_params "https://example.test/get") false [] = (Ret v, tr')
    /\ getitem v "peerCertificateDER" = inr (PyStr enc)
    /\ Base64.b64decode enc = Some (der demo_cert).
Proof.
  destruct (fetch demo_world demo_fetcher (demo_params "https://example.test/get") false [])
    as [[v|x] tr'] eqn:E; pose proof E as E'; vm_compute in E'; [|discriminate E'].
  injection E' as Hv _.
  assert (He : getitem v "peerCertificateDER" = inr (PyStr (Base64.b64encode (der demo_cert))))
    by (rewrite <- Hv; vm_compute; reflexivity).
  do 3 eexists. split; [reflexivity|split; [exact He|]].
  destruct (fetch_certificate_roundtrip demo_world demo_fetcher _ _ _ _ _ _ E He)
    as (u & host & port & pc & _ & _ & Hk & Hd & _).
  cbn in Hk. destruct (String.eqb host "example.test"); [|discriminate Hk].
  injection Hk as <-. exact Hd.
Defined.

End Fetcher.
