(* ===== verification/Keychain.v ===== *)
(** * [Fetcher.__init__] and [Fetcher.keychain_PEM]: the trust bundle

    [__init__] exports the certificates of the two macOS system keychains
    into a temporary PEM file ([keychain_PEM]), builds an SSL context and
    loads the file into it with [load_verify_locations].  [keychain_PEM]
    runs [security export -k <keychain> -t certs -f pemseq] once per
    keychain, prints the length of each output, appends the output to
    the file, then reads the file back line by line and prints how many
    lines start a certificate.

    The temporary file is private to [keychain_PEM]: its state is the
    record [pem_file] threaded through the loop.  Reading it back uses
    Python's universal newlines ([\r\n], [\r] and [\n] end a line, and
    read as [\n]), modelled by [read_lines].  What [load_verify_locations]
    accepts is the parameter [load_verify]: OpenSSL's verdict on the
    bundle's text (the text of the [ssl.SSLError] it raises, an
    [OSError]).  What the count means is stated over PEM bundles
    (RFC 7468): certificates with explanatory text and base64 lines
    ([pem_bundle]). *)

From Stdlib Require Import ZArith String Ascii Lia.
From stdpp Require Import base list strings option.
From S2P Require Import Prelude PyStr PyVal Net Fetcher.

Open Scope string_scope.

Import PyVal Net Fetcher.
Import (hints) PyStr.

Module Keychain.

(** [Path().resolve().root] *)
Definition rootPath : string := "/".

(** [Fetcher._keychains] *)
Definition keychains : list (list string) :=
  [[rootPath; "System"; "Library"; "Keychains"; "SystemRootCertificates.keychain"];
   [rootPath; "Library"; "Keychains"; "System.keychain"]].

(** [str(Path( *parts))]: the parts joined by one slash, none added after
    a part that already ends with one (the root). *)
Definition ends_with_slash (s : string) : bool :=
  match String.get (String.length s - 1) s with
  | Some c => Ascii.eqb c "/"
  | None => false
  end.

Definition path_join (parts : list string) : string :=
  match parts with
  | [] => "."
  | p :: rest =>
      fold_left (fun acc q => if ends_with_slash acc then acc ++ q else acc ++ "/" ++ q) rest p
  end.

(** The [security] command line for one keychain. *)
Definition security_argv (keychainPath : string) : list string :=
  ["security"; "export"; "-k"; keychainPath; "-t"; "certs"; "-f"; "pemseq"].

(** [len(s)] of a [str]: its code points, the UTF-8 bytes that do not
    continue a sequence. *)
Fixpoint py_len (s : string) : nat :=
  match s with
  | EmptyString => 0
  | String c s' =>
      (if ((128 <=? nat_of_ascii c) && (nat_of_ascii c <? 192))%nat then 0 else 1)
        + py_len s'
  end.

(** [file.readline()] until [''], in text mode: a line ends at [\n], at
    [\r\n] or at a lone [\r], and is read with a final [\n]. *)
Fixpoint read_lines_acc (s : string) (cur : string) : list string :=
  match s with
  | EmptyString => if String.eqb cur EmptyString then [] else [cur]
  | String c r =>
      if Ascii.eqb c (ascii_of_nat 10) then (cur ++ nl) :: read_lines_acc r EmptyString
      else if Ascii.eqb c (ascii_of_nat 13) then
        match r with
        | String d r' =>
            if Ascii.eqb d (ascii_of_nat 10) then (cur ++ nl) :: read_lines_acc r' EmptyString
            else (cur ++ nl) :: read_lines_acc r EmptyString
        | EmptyString => [cur ++ nl]
        end
      else read_lines_acc r (cur ++ String c EmptyString)
  end.

Definition read_lines (s : string) : list string := read_lines_acc s EmptyString.

(** The counting loop: [certificates += 1] for every line that starts
    with [--] and contains [BEGIN CERTIFICATE]. *)
Fixpoint count_loop (lines : list string) (certificates : nat) : nat :=
  match lines with
  | [] => certificates
  | line :: rest =>
      count_loop rest (if is_marker line "BEGIN CERTIFICATE" then S certificates
                       else certificates)
  end.

Definition count_certificates (contents : string) : nat := count_loop (read_lines contents) 0.

(** ** PEM bundles (RFC 7468), for what the count means *)

(** A line with no line break in it. *)
Definition no_break (l : string) : bool :=
  forallb (fun c => negb (Ascii.eqb c (ascii_of_nat 10) || Ascii.eqb c (ascii_of_nat 13)))
          (list_ascii_of_string l).

(** A line of explanatory text or of base64 data: it does not start
    with [--]. *)
Definition text_line (l : string) : bool := no_break l && negb (PyStr.startswith l "--").

(** Lines written one after the other, each ended by [\n]. *)
Definition lines_text (ls : list string) : string :=
  fold_right (fun l acc => l ++ nl ++ acc) EmptyString ls.

(** The lines of a bundle of certificates: for each, its explanatory
    text, its BEGIN boundary, its base64 lines and its END boundary. *)
Definition pem_bundle (certs : list (list string * list string)) : list string :=
  concat (map (fun '(text, body) =>
                 (text ++ ["-----BEGIN CERTIFICATE-----"] ++ body
                       ++ ["-----END CERTIFICATE-----"])%list) certs).

(** [f'"{keychainPath}" PEM {len(securityRun.stdout)} characters.'] *)
Definition export_message (keychainPath out : string) : string :=
  dq ++ keychainPath ++ dq ++ " PEM " ++ PyStr.str_int (Z.of_nat (py_len out)) ++ " characters.".

(** [f'Keychain certificates: {certificates}.'] *)
Definition count_message (certificates : nat) : string :=
  "Keychain certificates: " ++ PyStr.str_int (Z.of_nat certificates) ++ ".".

(** The temporary file: its name and its text. *)
Record pem_file := mk_pem_file { pem_path : string; pem_text : string }.

Section Trust.
Context (w : world).
(** The name [NamedTemporaryFile(suffix=".pem")] picks. *)
Context (tmp_name : string).
(** [load_verify_locations] on the bundle's text: [None] when OpenSSL
    loads it, else the text of the [ssl.SSLError]. *)
Context (load_verify : string -> option string).

(** One pass of the [for keychain in self._keychains] loop. *)
Definition export_keychain (file : pem_file) (keychain : list string) : NetM pem_file :=
  let keychainPath := path_join keychain in
  let* '(out, _) := subprocess_run w (security_argv keychainPath) None false in
  let* _ := emit (EvLog false (export_message keychainPath out)) in
  ret (mk_pem_file (pem_path file) (pem_text file ++ out)).

Fixpoint export_all (file : pem_file) (ks : list (list string)) : NetM pem_file :=
  match ks with
  | [] => ret file
  | k :: ks' => let* file' := export_keychain file k in export_all file' ks'
  end.

(** [keychain_PEM()]: the file, created empty, after the exports. *)
Definition keychain_PEM : NetM pem_file :=
  let* file := export_all (mk_pem_file tmp_name EmptyString) keychains in
  let certificates := count_certificates (pem_text file) in
  let* _ := emit (EvLog false (count_message certificates)) in
  ret file.

(** [Fetcher.__init__()] *)
Definition init : NetM fetcher :=
  let* file := keychain_PEM in
  match load_verify (pem_text file) with
  | Some msg => raise (OSError msg)
  | None => ret (mk_fetcher (pem_path file))
  end.
End Trust.

(** ** Reading the bundle back *)

Lemma read_lines_acc_app_nl a b cur :
  read_lines_acc (a ++ nl ++ b) cur = (read_lines_acc (a ++ nl) cur ++ read_lines b)%list.
Proof.
  remember (String.length a) as n eqn:Hn. revert a cur Hn.
  induction n as [n IH] using (induction_ltof1 _ id); intros a cur ->.
  destruct a as [|c r]; [reflexivity|]. autorewrite with pyrw. cbn [read_lines_acc].
  destruct (Ascii.eqb c (ascii_of_nat 10)).
  { rewrite (IH (String.length r)) by (unfold ltof, id; simpl; lia). done. }
  destruct (Ascii.eqb c (ascii_of_nat 13)).
  2: { rewrite (IH (String.length r)) by (unfold ltof, id; simpl; lia). done. }
  destruct r as [|d r']; [reflexivity|]. autorewrite with pyrw.
  destruct (Ascii.eqb d (ascii_of_nat 10)).
  - rewrite (IH (String.length r')) by (unfold ltof, id; simpl; lia). done.
  - rewrite <- !PyStr.str_app_cons.
    rewrite (IH (String.length (String d r'))) by (unfold ltof, id; simpl; lia). done.
Qed.

Lemma count_loop_app l1 l2 n : count_loop (l1 ++ l2) n = count_loop l2 (count_loop l1 n).
Proof. revert n. induction l1 as [|l l1 IH]; intros n; simpl; auto. Qed.

Lemma count_loop_shift l n : count_loop l n = n + count_loop l 0.
Proof.
  revert n. induction l as [|l ls IH]; intros n; simpl; [lia|].
  destruct (is_marker l "BEGIN CERTIFICATE"); rewrite IH; [rewrite (IH 1)|]; lia.
Qed.

Lemma read_lines_acc_line l cur :
  no_break l = true -> read_lines_acc (l ++ nl) cur = [cur ++ l ++ nl].
Proof.
  revert cur. induction l as [|c l IH]; intros cur Hl; [reflexivity|].
  cbn in Hl. apply andb_prop in Hl as [Hc Hl]. rewrite PyStr.str_app_cons. cbn [read_lines_acc].
  destruct (Ascii.eqb c (ascii_of_nat 10)), (Ascii.eqb c (ascii_of_nat 13)); try discriminate.
  rewrite IH by exact Hl. rewrite <- PyStr.str_app_assoc. by autorewrite with pyrw.
Qed.

(** Lines without breaks read back as themselves, each with its [\n]. *)
Lemma read_lines_text ls :
  Forall (fun l => no_break l = true) ls -> read_lines (lines_text ls) = map (fun l => l ++ nl) ls.
Proof.
  induction 1 as [|l ls Hl _ IH]; [reflexivity|].
  change (lines_text (l :: ls)) with (l ++ nl ++ lines_text ls). unfold read_lines at 1.
  rewrite read_lines_acc_app_nl, read_lines_acc_line by exact Hl. by rewrite IH.
Qed.

Lemma prefix_cons_eq x xs ys : String.prefix (String x xs) (String x ys) = String.prefix xs ys.
Proof. simpl. by destruct (ascii_dec x x). Qed.

Lemma prefix_cons_neq x y xs ys : x <> y -> String.prefix (String x xs) (String y ys) = false.
Proof. intros H. simpl. by destruct (ascii_dec x y). Qed.

(** Its line break does not make a line start with [--]. *)
Lemma dashes_line_nl l :
  String.prefix "--" (l ++ nl) = true -> String.prefix "--" l = true.
Proof.
  destruct l as [|a [|b r]]; autorewrite with pyrw; intros H; [by vm_compute in H| |].
  - destruct (ascii_dec "-" a) as [<-|Ha]; [by vm_compute in H|].
    rewrite prefix_cons_neq in H; [discriminate|assumption].
  - destruct (ascii_dec "-" a) as [<-|Ha]; [|rewrite prefix_cons_neq in H; [discriminate|assumption]].
    rewrite prefix_cons_eq in *.
    destruct (ascii_dec "-" b) as [<-|Hb]; [|rewrite prefix_cons_neq in H; [discriminate|assumption]].
    rewrite prefix_cons_eq. by destruct r.
Qed.

(** A text line, read with its [\n], is not a [BEGIN] line. *)
Lemma text_line_not_marker l m : text_line l = true -> is_marker (l ++ nl) m = false.
Proof.
  unfold text_line, is_marker, PyStr.startswith. intros [_ Hs]%andb_prop.
  destruct (String.prefix "--" (l ++ nl)) eqn:E; [|done].
  apply dashes_line_nl in E. by rewrite E in Hs.
Qed.

Lemma count_loop_text ls n :
  Forall (fun l => text_line l = true) ls -> count_loop (map (fun l => l ++ nl) ls) n = n.
Proof.
  intros F. revert n. induction F as [|l ls Hl _ IH]; intros n; [done|].
  cbn. by rewrite text_line_not_marker.
Qed.

Lemma text_lines_no_break ls :
  Forall (fun l => text_line l = true) ls -> Forall (fun l => no_break l = true) ls.
Proof. induction 1 as [|l ls Hl _ IH]; constructor; [by apply andb_prop in Hl as [? _]|done]. Qed.

Lemma pem_bundle_cons text body certs :
  pem_bundle ((text, body) :: certs) =
    (text ++ ["-----BEGIN CERTIFICATE-----"] ++ body ++ ["-----END CERTIFICATE-----"]
       ++ pem_bundle certs)%list.
Proof. unfold pem_bundle. simpl. rewrite <- !app_assoc. simpl. by rewrite <- !app_assoc. Qed.

Definition text_lines (tb : list string * list string) : Prop :=
  Forall (fun l => text_line l = true) (fst tb ++ snd tb).

Lemma pem_bundle_no_break certs :
  Forall text_lines certs -> Forall (fun l => no_break l = true) (pem_bundle certs).
Proof.
  induction 1 as [|[t b] certs Htb _ IH]; [constructor|]. rewrite pem_bundle_cons.
  apply Forall_app in Htb as [Ht Hb]. simpl in Ht, Hb.
  repeat (apply Forall_app; split);
    first [ exact IH | by apply text_lines_no_break
          | constructor; [vm_compute; reflexivity|constructor] ].
Qed.

Lemma begin_is_marker :
  is_marker ("-----BEGIN CERTIFICATE-----" ++ nl) "BEGIN CERTIFICATE" = true.
Proof. reflexivity. Qed.

Lemma end_not_marker :
  is_marker ("-----END CERTIFICATE-----" ++ nl) "BEGIN CERTIFICATE" = false.
Proof. reflexivity. Qed.

Section TrustProperties.
Context (w : world) (tmp_name : string) (load_verify : string -> option string).

Let k1 : string := "/System/Library/Keychains/SystemRootCertificates.keychain".
Let k2 : string := "/Library/Keychains/System.keychain".

(** C21. [keychain_PEM] runs [security export] on the system root
    keychain, then on the system keychain, logging each output's length,
    and returns the temporary file holding the two outputs one after the
    other, whatever their exit status, after logging the number of
    certificate lines it reads back. *)
Theorem keychain_PEM_run o1 e1 o2 e2 tr :
  run w (security_argv k1) None false = inr (o1, e1) ->
  run w (security_argv k2) None false = inr (o2, e2) ->
  keychain_PEM w tmp_name tr =
    (Ret (mk_pem_file tmp_name (o1 ++ o2)),
     tr ++ [EvRun (security_argv k1); EvLog false (export_message k1 o1);
            EvRun (security_argv k2); EvLog false (export_message k2 o2);
            EvLog false (count_message (count_certificates (o1 ++ o2)))])%list.
Proof.
  intros H1 H2. unfold keychain_PEM, keychains. cbn [export_all].
  unfold export_keychain, subprocess_run. change (path_join [rootPath; _; _; _; _]) with k1.
  change (path_join [rootPath; _; _; _]) with k2. mstep. rewrite H1. mstep. rewrite H2. mstep.
  by rewrite <- !app_assoc.
Qed.

(** C20. [__init__] returns a [Fetcher] whose [_pemPath] is the
    temporary file exactly when [load_verify_locations] accepts the two
    exports put together; otherwise it raises [ssl.SSLError], so an empty
    bundle never makes a [Fetcher]. *)
Theorem init_trust_bundle o1 e1 o2 e2 tr :
  run w (security_argv k1) None false = inr (o1, e1) ->
  run w (security_argv k2) None false = inr (o2, e2) ->
  fst (init w tmp_name load_verify tr) =
    match load_verify (o1 ++ o2) with
    | Some msg => Exc (OSError msg)
    | None => Ret (mk_fetcher tmp_name)
    end.
Proof.
  intros H1 H2. unfold init. rewrite (bind_run _ _ _ _ _ (keychain_PEM_run o1 e1 o2 e2 tr H1 H2)).
  cbn. by destruct (load_verify (o1 ++ o2)).
Qed.

End TrustProperties.

(** C28. The count [keychain_PEM] logs is the number of certificates in
    the bundle: for certificates in PEM form (RFC 7468), each its
    explanatory text, its BEGIN boundary, its base64 lines and its END
    boundary, where text and base64 lines have no line break and do not
    start with [--], [count_certificates] counts one line per
    certificate: neither the END boundaries nor a text line that
    mentions [BEGIN CERTIFICATE]. *)
Theorem count_certificates_bundle certs :
  Forall text_lines certs ->
  count_certificates (lines_text (pem_bundle certs)) = length certs.
Proof.
  intros F. unfold count_certificates. rewrite read_lines_text by auto using pem_bundle_no_break.
  rewrite <- (Nat.add_0_l (length certs)). generalize 0.
  induction F as [|[t b] certs Htb _ IH]; intros n; [simpl; lia|].
  apply Forall_app in Htb as [Ht Hb]. simpl in Ht, Hb.
  rewrite pem_bundle_cons, !map_app, !count_loop_app, (count_loop_text t n Ht).
  cbn [map count_loop]. rewrite begin_is_marker, (count_loop_text b _ Hb).
  cbn [map count_loop]. rewrite end_not_marker, IH. simpl. lia.
Qed.

(** ** The properties at concrete runs *)

(** OpenSSL's verdict on a bundle, for the concrete runs: a bundle without
    a certificate line is refused as [load_verify_locations] refuses an
    empty file. *)
Definition demo_load_verify (text : string) : option string :=
  if (count_certificates text =? 0)%nat
  then Some "[X509: NO_CERTIFICATE_OR_CRL_FOUND] no certificate or crl found (_ssl.c:4123)"
  else None.

(** A machine whose keychains export nothing. *)
Definition locked_world : world :=
  mk_world (handshake demo_world) (respond demo_world)
           (fun _ _ _ => inr (EmptyString, "security: SecKeychainSearchCopyNext: The specified item could not be found in the keychain."))
           (recursion_headroom demo_world).

Lemma keychain_PEM_run_witness :
  fst (keychain_PEM demo_world "/tmp/tmpk3j1.pem" [])
    = Ret (mk_pem_file "/tmp/tmpk3j1.pem" (demo_pem ++ demo_pem)).
Proof.
  rewrite (keychain_PEM_run demo_world "/tmp/tmpk3j1.pem" demo_pem "depth=0" demo_pem "depth=0" []);
    reflexivity.
Defined.

Lemma init_trust_bundle_witness :
  fst (init locked_world "/tmp/tmpk3j1.pem" demo_load_verify [])
    = Exc (OSError "[X509: NO_CERTIFICATE_OR_CRL_FOUND] no certificate or crl found (_ssl.c:4123)").
Proof.
  set (err := "security: SecKeychainSearchCopyNext: The specified item could not be found in the keychain.").
  rewrite (init_trust_bundle locked_world "/tmp/tmpk3j1.pem" demo_load_verify
             EmptyString err EmptyString err []); reflexivity.
Defined.

(** Two certificates, the first after a line of text that mentions its
    boundary. *)
Definition demo_certs : list (list string * list string) :=
  [(["Root CA, BEGIN CERTIFICATE block follows"], ["MIIBszCCAVmgAwIBAgIU"; "AQAB"]);
   ([], ["MIICIjANBgkqhkiG9w0B"])].

Lemma count_certificates_bundle_witness :
  count_certificates (lines_text (pem_bundle demo_certs)) = 2.
Proof.
  apply (count_certificates_bundle demo_certs).
  unfold text_lines. simpl. repeat constructor.
Defined.

End Keychain.
