(* ===== verification/UrlRequest.v ===== *)
(** * [urllib.request.Request]: the request object [fetch_JSON] builds

    The parts of [urllib.request.Request] that [Fetcher.fetch_JSON] sets
    or reads, after Python 3.11's [urllib/request.py] and
    [urllib/parse.py]: the URL setter ([unwrap], [_splittag],
    [_splittype], [_splithost], then [unquote] of the host),
    [request_host]'s call of [urlparse], the [method] attribute, the
    [data] setter (which drops a [Content-length] header when the data
    changes), [add_header] (which capitalizes the name) and
    [header_items].  The record [Request] holds the attributes; each
    setter is a function from request to request. *)

From Stdlib Require Import ZArith String Ascii Strings.Byte.
From stdpp Require Import base list strings option.
From S2P Require Import Prelude PyStr PyVal Url Net Json.

Open Scope string_scope.

Import PyVal Net.

Module UrlRequest.

(** The attributes of a [Request] that [fetch_JSON] sets or reads. *)
Record Request := mk_Request {
  req_full_url : string;          (** [_full_url], without the fragment *)
  req_fragment : option string;
  req_type : string;
  req_host : option string;
  req_selector : string;
  req_method : option pyval;
  req_data : option (list byte);
  req_headers : pydict            (** [headers], keys capitalized *)
}.

(** [unwrap(url)]: [str(url).strip()], then [<...>] and [URL:] removed. *)
Definition unwrap (url : pyval) : string :=
  let u := PyStr.strip (str url) in
  let u := if PyStr.startswith u "<" && String.eqb (PyStr.drop (String.length u - 1) u) ">"
           then PyStr.strip (substring 1 (String.length u - 2) u) else u in
  if PyStr.startswith u "URL:" then PyStr.strip (PyStr.drop 4 u) else u.

(** [_splittag(url)]: [url.rpartition('#')]. *)
Definition _splittag (url : string) : string * option string :=
  match PyStr.rpartition url "#" with
  | (path, true, tag) => (path, Some tag)
  | _ => (url, None)
  end.

(** [_splittype(url)]: the regular expression [([^/:]+):] and the rest;
    the scheme is lower-cased. *)
Fixpoint scheme_len (s : string) : option nat :=
  match s with
  | EmptyString => None
  | String c s' =>
      if Ascii.eqb c ":" then Some 0%nat
      else if Ascii.eqb c "/" then None
      else S <$> scheme_len s'
  end.

Definition _splittype (url : string) : option string * string :=
  match scheme_len url with
  | Some (S _ as n) => (Some (PyStr.lower (PyStr.take n url)), PyStr.drop (S n) url)
  | _ => (None, url)
  end.

(** [_splithost(url)]: after a leading [//], the host is the longest
    run of characters other than [/], [#] and [?], and the path the
    rest; a path that does not start with [/] gets one. *)
Fixpoint host_len (s : string) : nat :=
  match s with
  | EmptyString => 0
  | String c s' => if PyStr.char_in c "/#?" then 0 else S (host_len s')
  end.

Definition _splithost (url : string) : option string * string :=
  if PyStr.startswith url "//" then
    let rest := PyStr.drop 2 url in
    let n := host_len rest in
    let path := PyStr.drop n rest in
    (Some (PyStr.take n rest),
     match path with
     | EmptyString => path
     | String c _ => if Ascii.eqb c "/" then path else "/" ++ path
     end)
  else (None, url).

(** [unquote_to_bytes] of a run of ASCII characters: [%] and two
    hexadecimal digits is a byte, any other [%] stays. *)
Fixpoint pct_decode (l : list ascii) : list N :=
  match l with
  | c :: ((a :: b :: r) as rest) =>
      if Ascii.eqb c "%" then
        match Json.hex_val a, Json.hex_val b with
        | Some x, Some y => Z.to_N (16 * x + y) :: pct_decode r
        | _, _ => N_of_ascii c :: pct_decode rest
        end
      else N_of_ascii c :: pct_decode rest
  | c :: r => N_of_ascii c :: pct_decode r
  | [] => []
  end.

(** [unquote(string)]: each maximal run of ASCII characters is
    percent-decoded and decoded as UTF-8 with replacement; the other
    characters stay. *)
Fixpoint unquote_aux (l : list ascii) (run : list ascii) : list N :=
  match l with
  | [] => PyStr.decode_replace (pct_decode (rev run))
  | c :: r =>
      if (N_of_ascii c <? 128)%N then unquote_aux r (c :: run)
      else PyStr.decode_replace (pct_decode (rev run)) ++ N_of_ascii c :: unquote_aux r []
  end.

Definition unquote (s : string) : string :=
  if negb (PyStr.contains s "%") then s
  else string_of_list_ascii (map ascii_of_N (unquote_aux (list_ascii_of_string s) [])).

(** [Request(url)]: the URL setter and [_parse], then [request_host]'s
    [urlparse(full_url)]. *)
Definition full_url (r : Request) : string :=
  match req_fragment r with
  | Some f => if String.eqb f EmptyString then req_full_url r else req_full_url r ++ "#" ++ f
  | None => req_full_url r
  end.

Definition make (url : pyval) : pyexc + Request :=
  let '(u, fragment) := _splittag (unwrap url) in
  match _splittype u with
  | (None, _) =>
      let r := mk_Request u fragment EmptyString None EmptyString None None [] in
      inl (ValueError ("unknown url type: " ++ PyStr.repr (full_url r)))
  | (Some ty, rest) =>
      let '(host, selector) := _splithost rest in
      let host := match host with
                  | Some h => if String.eqb h EmptyString then Some h else Some (unquote h)
                  | None => None
                  end in
      let r := mk_Request u fragment ty host selector None None [] in
      match Url.urlparse (PyStr (full_url r)) with
      | inl e => inl e
      | inr _ => inr r
      end
  end.

Definition set_method (m : pyval) (r : Request) : Request :=
  mk_Request (req_full_url r) (req_fragment r) (req_type r) (req_host r) (req_selector r)
             (Some m) (req_data r) (req_headers r).

(** [dict.pop(k, None)] *)
Fixpoint dict_pop (k : string) (d : pydict) : pydict :=
  match d with
  | [] => []
  | (k', v) :: d' => if String.eqb k' k then d' else (k', v) :: dict_pop k d'
  end.

(** [request.has_header(name)]: in [headers] or [unredirected_hdrs],
    and [fetch_JSON] adds no unredirected header. *)
Definition has_header (name : string) (r : Request) : bool := dict_mem name (req_headers r).

(** [request.remove_header(name)] *)
Definition remove_header (name : string) (r : Request) : Request :=
  mk_Request (req_full_url r) (req_fragment r) (req_type r) (req_host r) (req_selector r)
             (req_method r) (req_data r) (dict_pop name (req_headers r)).

(** [request.data = d]: when the data changes, a [Content-length] header
    computed for the old data is removed. *)
Definition set_data (d : list byte) (r : Request) : Request :=
  if bool_decide (Some d = req_data r) then r
  else
    let r' := mk_Request (req_full_url r) (req_fragment r) (req_type r) (req_host r)
                         (req_selector r) (req_method r) (Some d) (req_headers r) in
    if has_header "Content-length" r' then remove_header "Content-length" r' else r'.

(** [request.add_header(key, val)]: [self.headers[key.capitalize()] = val]. *)
Definition add_header (key : string) (val : pyval) (r : Request) : Request :=
  mk_Request (req_full_url r) (req_fragment r) (req_type r) (req_host r) (req_selector r)
             (req_method r) (req_data r) (dict_set (PyStr.capitalize key) val (req_headers r)).

(** [request.header_items()]: [list({**unredirected_hdrs, **headers}.items())]
    with no unredirected header. *)
Definition header_items (r : Request) : pyval :=
  PyList (map (fun kv => PyTuple [PyStr (fst kv); snd kv]) (req_headers r)).

Lemma dict_pop_sublist k d : dict_pop k d `sublist_of` d.
Proof.
  induction d as [|[k' v] d IH]; simpl; [done|].
  destruct (String.eqb k' k); [apply sublist_cons, reflexivity|by apply sublist_skip].
Qed.

End UrlRequest.
