(* ===== verification/FetchJSON.v ===== *)
(** * [Fetcher.fetch_JSON]: the unused first version of [fetch]

    [fetch_JSON(parameters, httpHandler, host, port)] builds a
    [urllib.request.Request] from the parameters, logs it, then opens an
    [HTTPSConnection], connects, reads the peer certificate and closes
    the connection inside a [try] block whose only [except] clause names
    [urllib.error.HTTPError].  The block sets [opened = None] and
    [details = {}], so after it the code reads [details['status']] from
    an empty dictionary.  ([fetch] calls it only in a comment.)

    The request object is [UrlRequest.Request] (file [UrlRequest]).
    [Module FetchJSON] models the method: [build_request] is its pure
    prefix (the request and its options), [fetch_JSON] the whole method
    over the connection of [Net].  What [f'{connection.sock}'] and
    [dir(connection)] print depends on the interpreter, not on the
    program: they are the parameters [sock_repr] and [dir_connection]. *)

From Stdlib Require Import ZArith String Ascii Strings.Byte Lia.
From stdpp Require Import base list strings option.
From S2P Require Import Prelude PyStr PyVal Url Net Json Fetcher Keychain UrlRequest.

Open Scope string_scope.

Import PyVal Net Fetcher.
Import (hints) PyStr.

Module FetchJSON.
Import UrlRequest.

(** [k in v] for a string [k]: a key of a dictionary, a substring of a
    string, an element of a list or tuple. *)
Definition py_in (k : string) (v : pyval) : pyexc + bool :=
  match v with
  | PyDict d => inr (dict_mem k d)
  | PyStr s => inr (PyStr.contains s k)
  | PyList xs | PyTuple xs =>
      inr (existsb (fun x => match x with PyStr s => String.eqb s k | _ => false end) xs)
  | PyBytes _ => inl (TypeError "a bytes-like object is required, not 'str'")
  | _ => inl (TypeError ("argument of type '" ++ type_name v ++ "' is not iterable"))
  end.

(** [v.encode()] *)
Definition encode (v : pyval) : pyexc + list byte :=
  match v with
  | PyStr s => inr (PyStr.encode_utf8 s)
  | _ => inl (no_attribute v "encode")
  end.

(** [request.data = data] then [request.add_header('Content-Type',
    "application/json")]. *)
Definition set_json_data (d : list byte) (r : Request) : Request :=
  add_header "Content-Type" (PyStr "application/json") (set_data d r).

(** The [if 'options' in parameters:] block. *)
Definition set_options (options : pyval) (request : Request) : pyexc + Request :=
  mlet has_method := py_in "method" options in
  mlet request :=
    (if has_method then
       mlet m := getitem options "method" in inr (set_method m request)
     else inr request) in
  mlet has_body := py_in "body" options in
  mlet request :=
    (if has_body then
       mlet b := getitem options "body" in
       mlet d := encode b in inr (set_json_data d request)
     else inr request) in
  mlet has_object := py_in "bodyObject" options in
  mlet request :=
    (if has_object then
       mlet o := getitem options "bodyObject" in
       mlet j := Json.dumps o in inr (set_json_data (PyStr.encode_utf8 j) request)
     else inr request) in
  mlet has_headers := py_in "headers" options in
  if has_headers then
    mlet hs := getitem options "headers" in
    mlet its := items hs in
    inr (fold_left (fun r kv => add_header (fst kv) (snd kv) r) its request)
  else inr request.

(** The method up to its first log line: the request and its options. *)
Definition build_request (parameters : pyval) : pyexc + Request :=
  mlet resource := getitem parameters "resource" in
  mlet request := make resource in
  mlet has_options := contains_key parameters "options" in
  if has_options then
    mlet options := getitem parameters "options" in
    set_options options request
  else inr request.

(** The first log line. *)
Definition request_message (r : Request) : string :=
  "Request:" ++ nl ++ "host " ++ dq ++ fmt_str (req_host r) ++ dq ++ nl
    ++ "Body: " ++ repr (match req_data r with Some d => PyBytes d | None => PyNone end)
    ++ nl ++ "selector " ++ dq ++ req_selector r ++ dq
    ++ nl ++ "headers " ++ repr (header_items r).

(** [details['status'] >= 400]: the status is [error.code], an [int];
    a [bool] compares as an integer, and the other values, which cannot
    arise here, raise [TypeError]. *)
Definition status_ge_400 (st : pyval) : pyexc + bool :=
  match st with
  | PyInt z => inr (400 <=? z)%Z
  | PyBool _ => inr false
  | v => inl (TypeError ("'>=' not supported between instances of '" ++ type_name v
                         ++ "' and 'int'"))
  end.

Section FetchJSON.
Context (w : world) (sock_repr : peer_cert -> string) (dir_connection : string).

(** [f'{connection.sock} {dir(connection)}'] *)
Definition connection_message (c : conn) : string :=
  match c_sock c with Some pc => sock_repr pc | None => "None" end ++ " " ++ dir_connection.

(** The [try] block: it returns [(opened, details)]. *)
Definition open_block (host : string) (port : Z) (httpHandler : bool)
  : NetM (option (list byte) * pydict) :=
  let* connection := https_connection host port in
  let* _ := _log httpHandler (connection_message connection) in
  let* connection := connect w connection in
  let* _ := _log httpHandler (connection_message connection) in
  let* peerCertBinary := getpeercert_der connection in
  let* peerCertDict := getpeercert_dict connection in
  let* _ := _log httpHandler (repr (PyDict peerCertDict)) in
  let opened := None in
  let* _ := close connection in
  ret (opened, []).

(** [except urllib.error.HTTPError as error:] *)
Definition http_error_handler (e : pyexc) : option (NetM (option (list byte) * pydict)) :=
  match e with
  | HTTPError code reason hs =>
      Some (ret (None, [("opened", PyBool false); ("status", PyInt code);
                        ("statusText", PyStr reason);
                        ("headers", PyDict (dict_of_pairs (map (fun kv => (fst kv, PyStr (snd kv))) hs)))]))
  | _ => None
  end.

(** [fetch_JSON(parameters, httpHandler, host, port)] *)
Definition fetch_JSON (parameters : pyval) (httpHandler : bool) (host : string) (port : Z)
  : NetM pyval :=
  let* request := of_sum (build_request parameters) in
  let* _ := _log httpHandler (request_message request) in
  let* '(opened, details) := catch (open_block host port httpHandler) http_error_handler in
  let* _ := _log httpHandler ("Opened details: " ++ repr (PyDict details)) in
  let* raw :=
    match opened with
    | None => ret None
    | Some body =>
        match PyStr.decode_utf8 body with
        | Some s => ret (Some s)
        | None => raise (UnicodeDecodeError "'utf-8' codec can't decode the response body")
        end
    end in
  let fetchedLength := option_map (fun r => Z.of_nat (Keychain.py_len r)) raw in
  let* _ := _log httpHandler ("Fetched length: " ++ fmt_int fetchedLength ++ ".") in
  let* status := of_sum (getitem (PyDict details) "status") in
  let* failed := of_sum (status_ge_400 status) in
  if failed then ret (PyDict [("fetchError", PyDict details); ("fetchedRaw", opt_str raw)])
  else
    let fetched :=
      match raw with
      | None => inr PyNone
      | Some r => if (Keychain.py_len r =? 0)%nat then inr PyNone
                  else Json.loads (recursion_headroom w) r
      end in
    match fetched with
    | inr v => ret (PyDict [("fetched", v); ("fetchedDetails", PyDict details);
                            ("fetchedRaw", opt_str raw)])
    | inl (JSONDecodeError msg _ lineno colno) =>
        ret (PyDict [("fetchError", PyDict [("status", PyInt 0); ("statusText", PyStr msg);
                                            ("headers", PyDict [("lineno", PyInt lineno);
                                                                ("colno", PyInt colno)])]);
                     ("fetchedRaw", opt_str raw)])
    | inl e => raise e
    end.
End FetchJSON.

(** ** The request's headers *)

Lemma upper_lower_char c : PyStr.upper_char (PyStr.upper_char c) = PyStr.upper_char c /\
                           PyStr.lower_char (PyStr.lower_char c) = PyStr.lower_char c.
Proof. destruct c as [[] [] [] [] [] [] [] []]; split; reflexivity. Qed.

Lemma lower_idem s : PyStr.lower (PyStr.lower s) = PyStr.lower s.
Proof. induction s as [|c s IH]; simpl; [done|]. by rewrite (proj2 (upper_lower_char c)), IH. Qed.

Lemma capitalize_idem s : PyStr.capitalize (PyStr.capitalize s) = PyStr.capitalize s.
Proof. destruct s as [|c s]; simpl; [done|]. by rewrite (proj1 (upper_lower_char c)), lower_idem. Qed.

(** The invariant of [Request.headers]: a dictionary whose keys are
    capitalized. *)
Definition headers_ok (d : pydict) : Prop :=
  dict_wf d /\ Forall (fun k => PyStr.capitalize k = k) (dict_keys d).

Lemma add_header_ok k v r :
  headers_ok (req_headers r) -> headers_ok (req_headers (add_header k v r)).
Proof.
  intros [Hwf Hcap]. split; [by apply dict_set_wf|]. cbn [req_headers add_header].
  rewrite dict_keys_set. destruct (dict_mem _ _); [done|].
  apply Forall_app; split; [done|]. constructor; [apply capitalize_idem|constructor].
Qed.

Lemma add_headers_ok (its : pydict) r :
  headers_ok (req_headers r) ->
  headers_ok (req_headers (fold_left (fun r kv => add_header (fst kv) (snd kv) r) its r)).
Proof. revert r. induction its as [|[k v] its IH]; simpl; [done|]. auto using add_header_ok. Qed.

Lemma dict_pop_ok k d : headers_ok d -> headers_ok (dict_pop k d).
Proof.
  intros [Hwf Hcap]. pose proof (fmap_sublist fst _ _ (dict_pop_sublist k d)) as Hs.
  split; [exact (sublist_NoDup _ _ Hwf Hs)|].
  apply Forall_forall. intros x Hx%list_elem_of_In. apply (proj1 (Forall_forall _ _) Hcap).
  apply list_elem_of_In. exact (sublist_subseteq _ _ Hs x Hx).
Qed.

Lemma set_data_ok d r : headers_ok (req_headers r) -> headers_ok (req_headers (set_data d r)).
Proof.
  intros H. unfold set_data. case_bool_decide; [done|].
  destruct (has_header _ _); [apply dict_pop_ok|]; exact H.
Qed.

Lemma set_json_data_ok d r :
  headers_ok (req_headers r) -> headers_ok (req_headers (set_json_data d r)).
Proof. intros H. by apply add_header_ok, set_data_ok. Qed.

Lemma make_ok u r : make u = inr r -> headers_ok (req_headers r).
Proof.
  unfold make. destruct (_splittag (unwrap u)) as [v f]. destruct (_splittype v) as [[ty|] rest];
    [|discriminate]. destruct (_splithost rest) as [h sel].
  destruct (Url.urlparse _); intros [= <-]; split; constructor.
Qed.

Lemma sbind_inr {X A B} (m : X + A) (k : A -> X + B) b :
  sbind m k = inr b -> exists a, m = inr a /\ k a = inr b.
Proof. destruct m as [x|a]; [discriminate|]. by exists a. Qed.

Lemma set_options_ok o r r' :
  headers_ok (req_headers r) -> set_options o r = inr r' -> headers_ok (req_headers r').
Proof.
  intros Hr. unfold set_options. intros H.
  repeat match goal with
  | H : sbind _ _ = inr _ |- _ => apply sbind_inr in H as (? & ? & H)
  | H : (if ?b then _ else _) = inr _ |- _ => destruct b
  end; simplify_eq;
  repeat first [apply add_headers_ok | apply set_json_data_ok | exact Hr |
                progress cbn [set_method req_headers]].
Qed.

(** Every header name of the request [fetch_JSON] builds is
    capitalized, as [add_header] stores it, and appears once: the
    request's header dictionary keeps its invariant through the
    options, the JSON body's [Content-Type] and the caller's headers. *)
Theorem build_request_headers params r :
  build_request params = inr r ->
  dict_wf (req_headers r) /\ Forall (fun k => PyStr.capitalize k = k) (dict_keys (req_headers r)).
Proof.
  unfold build_request. intros H.
  apply sbind_inr in H as (u & _ & H). apply sbind_inr in H as (r0 & Hm & H).
  apply sbind_inr in H as (b & _ & H). apply make_ok in Hm.
  destruct b; [|by simplify_eq]. apply sbind_inr in H as (o & _ & H).
  exact (set_options_ok o r0 r Hm H).
Qed.

(** ** The connection block *)

Section OpenBlock.
Context (w : world) (sock_repr : peer_cert -> string) (dir_connection : string).

(** Nothing in the [try] block raises [HTTPError]: its [except] clause
    never runs. *)
Lemma open_block_unhandled host port h :
  raises_only (fun x => http_error_handler x = None) (open_block w sock_repr dir_connection host port h).
Proof.
  unfold open_block, https_connection, connect, getpeercert_der, getpeercert_dict, close, _log.
  solve_raises.
Qed.

Lemma open_block_result host port h :
  returns_only (fun r => r = (None, [])) (open_block w sock_repr dir_connection host port h).
Proof.
  unfold open_block, https_connection, connect, getpeercert_der, getpeercert_dict, close, _log.
  solve_returns.
Qed.

Lemma open_block_returns host port h :
  returns_only (fun r => r = (None, []))
    (catch (open_block w sock_repr dir_connection host port h) http_error_handler).
Proof.
  intros s a s'. rewrite catch_unhandled by apply open_block_unhandled.
  apply open_block_result.
Qed.

(** C22. [fetch_JSON] never returns a value: whatever the parameters,
    the host, the port and the network, every run ends in an exception.
    The [try] block leaves [details = {}] and raises nothing its
    [except HTTPError] clause catches, so [details['status']] raises
    [KeyError] when no earlier step raised. *)
Theorem fetch_JSON_raises params h host port tr :
  exists x, fst (fetch_JSON w sock_repr dir_connection params h host port tr) = Exc x.
Proof.
  destruct (fetch_JSON w sock_repr dir_connection params h host port tr) as [[v|x] tr'] eqn:E;
    [exfalso|by exists x].
  enough (Hr : returns_only (fun _ => False) (fetch_JSON w sock_repr dir_connection params h host port))
    by exact (Hr _ _ _ E).
  unfold fetch_JSON. apply bind_returns. intros r. apply bind_returns. intros _.
  eapply bind_returns_with; [apply open_block_returns|]. intros ? ->. cbn beta iota.
  apply bind_returns. intros _. apply bind_returns_with with (Q := fun raw => raw = None);
    [apply ret_returns; reflexivity|]. intros ? ->.
  apply bind_returns. intros _. apply raise_returns.
Qed.

(** C23. After a successful handshake [fetch_JSON] raises
    [KeyError('status')]: it logs the request, the connection before
    and after [connect()], reads the certificate in both forms, logs its
    dictionary, closes the connection, logs the empty details and the
    unknown length, and then reads [details['status']]. *)
Theorem fetch_JSON_status_key_error params h host port r pc tr :
  build_request params = inr r -> first_disallowed host = None ->
  handshake w host port = inr pc ->
  fetch_JSON w sock_repr dir_connection params h host port tr =
    (Exc (KeyError "status"),
     tr ++ [EvLog h (request_message r); EvLog h ("None " ++ dir_connection);
            EvHandshake host port; EvLog h (sock_repr pc ++ " " ++ dir_connection);
            EvPeerCert true; EvPeerCert false; EvLog h (repr (PyDict (decoded pc)));
            EvClose; EvLog h "Opened details: {}"; EvLog h "Fetched length: None."])%list.
Proof.
  intros Hb Hd Hk. unfold fetch_JSON. rewrite Hb.
  cbv [catch open_block https_connection connect getpeercert_der getpeercert_dict close _log
       connection_message bind emit modify ret raise of_sum].
  rewrite Hd. cbn [c_host c_port c_sock]. rewrite Hk. cbn [c_sock].
  by rewrite <- !app_assoc.
Qed.
End OpenBlock.

(** ** The properties at concrete runs *)

Definition demo_json_params : pyval :=
  PyDict [("resource", PyStr "https://example.test/get");
          ("options", PyDict [("bodyObject", PyDict [("a", PyInt 1)]);
                              ("headers", PyDict [("content-TYPE", PyStr "text/plain");
                                                  ("x-token", PyStr "t")])])].

Lemma build_request_headers_witness :
  exists r, build_request demo_json_params = inr r /\
    dict_keys (req_headers r) = ["Content-type"; "X-token"] /\ dict_wf (req_headers r).
Proof.
  destruct (build_request demo_json_params) as [e|r] eqn:Hb; [vm_compute in Hb; discriminate|].
  exists r. split; [reflexivity|]. split.
  - vm_compute in Hb. injection Hb as <-. reflexivity.
  - exact (proj1 (build_request_headers demo_json_params r Hb)).
Defined.

Lemma fetch_JSON_status_key_error_witness :
  fst (fetch_JSON demo_world (fun _ => "<ssl.SSLSocket>") "[]" demo_json_params false
                  "example.test" 443 []) = Exc (KeyError "status").
Proof.
  destruct (build_request demo_json_params) as [e|r] eqn:Hb; [vm_compute in Hb; discriminate|].
  rewrite (fetch_JSON_status_key_error demo_world (fun _ => "<ssl.SSLSocket>") "[]"
             demo_json_params false "example.test" 443 r demo_cert [] Hb);
    [reflexivity|vm_compute; reflexivity..].
Defined.

End FetchJSON.
