(* ===== verification/Exchange.v ===== *)
(** * The request [fetch] writes ([Fetcher._request])

    What the request executor puts on the wire for the options it is
    given: the request line, the headers [http.client] adds, the
    [Content-Type] header of a JSON body, the caller's headers and the
    body, as the trace of events of one [_request] run. *)

From Stdlib Require Import ZArith String Ascii Strings.Byte.
From stdpp Require Import base list strings option.
From S2P Require Import Prelude PyStr PyVal Url Net Json Fetcher.

Open Scope string_scope.

Import PyVal Net Fetcher.

Module Exchange.

(** Case on every test of a run until it is an explicit outcome. *)
Ltac run_cases H :=
  repeat (cbn in H; first
    [ discriminate H
    | match type of H with
      | context [match ?x with _ => _ end] =>
          lazymatch type of x with
          | (_ * _)%type => fail
          | _ => destruct x eqn:?
          end
      end ]).

(** Close a run that returned: name the request the server answered and
    the response, whose [will_close] the run has cased on. *)
Ltac answered :=
  match goal with
  | Hr : respond _ _ _ _ = inr ?rs, Hc : rs_will_close ?rs = ?b |- _ =>
      eexists _, _, rs; split; [exact Hr|by rewrite Hc]
  end.

Section Requests.
Context (w : world).

(** C13. A request with [method] and [bodyObject] options: [_request]
    writes the request line with that method, [http.client]'s [Host]
    and [Accept-Encoding] headers, the [Content-Type: application/json]
    header, then ends the headers with the UTF-8 bytes of
    [json.dumps(bodyObject)] as the body, sends and reads the response:
    nothing else, in that order.  The server receives exactly that
    request, and the connection is closed after it only when the
    response will close. *)
Theorem _request_json_body c url m o j r e :
  Json.dumps o = inr j ->
  _request w c (PyDict [("resource", PyStr url);
                        ("options", PyDict [("method", PyStr m); ("bodyObject", o)])]) [] =
    (Ret r, e) ->
  exists url' host rs,
    respond w (c_host c) (c_port c)
      (mk_request m url' [("Host", host); ("Accept-Encoding", "identity");
                          ("Content-Type", "application/json")]
                  (Some (PyStr.encode_utf8 j))) = inr rs /\
    e = ([EvPutRequest m url'; EvPutHeader "Host" host; EvPutHeader "Accept-Encoding" "identity";
         EvPutHeader "Content-Type" "application/json";
         EvEndHeaders (Some (PyStr.encode_utf8 j)); EvSend []; EvGetResponse]
        ++ closed_if (rs_will_close rs))%list.
Proof.
  intros Hj H. unfold _request, putrequest, putheader, request_body, endheaders, send,
    getresponse in H.
  cbv [bind catch ret raise emit modify of_sum] in H. rewrite ?Hj in H.
  run_cases H. all: injection H as _ <-; simplify_eq; answered.
Qed.

(** C14. A request with no options: [_request] writes a [GET] request
    line with only [http.client]'s [Host] and [Accept-Encoding] headers,
    no [Content-Type], and ends the headers with no body; the server
    receives exactly that request. *)
Theorem _request_get_default c url r e :
  _request w c (PyDict [("resource", PyStr url)]) [] = (Ret r, e) ->
  exists url' host rs,
    respond w (c_host c) (c_port c)
      (mk_request "GET" url' [("Host", host); ("Accept-Encoding", "identity")] None) = inr rs /\
    e = ([EvPutRequest "GET" url'; EvPutHeader "Host" host; EvPutHeader "Accept-Encoding" "identity";
         EvEndHeaders None; EvSend []; EvGetResponse] ++ closed_if (rs_will_close rs))%list.
Proof.
  intros H. unfold _request, putrequest, putheader, request_body, endheaders, send,
    getresponse in H.
  cbv [bind catch ret raise emit modify of_sum] in H.
  run_cases H. all: injection H as _ <-; answered.
Qed.
End Requests.

(** ** At a concrete run *)

Definition demo_post : pyval :=
  PyDict [("resource", PyStr "https://example.test/post");
          ("options", PyDict [("method", PyStr "POST"); ("bodyObject", PyDict [("x", PyInt 1)])])].

Lemma _request_json_body_witness :
  exists r e url' host rs,
    _request demo_world (connected "example.test" 443 demo_cert) demo_post [] = (Ret r, e) /\
    respond demo_world "example.test" 443
      (mk_request "POST" url' [("Host", host); ("Accept-Encoding", "identity");
                               ("Content-Type", "application/json")]
         (Some (PyStr.encode_utf8 ("{" ++ dq ++ "x" ++ dq ++ ": 1}")))) = inr rs /\
    e = ([EvPutRequest "POST" url'; EvPutHeader "Host" host;
          EvPutHeader "Accept-Encoding" "identity"; EvPutHeader "Content-Type" "application/json";
          EvEndHeaders (Some (PyStr.encode_utf8 ("{" ++ dq ++ "x" ++ dq ++ ": 1}")));
          EvSend []; EvGetResponse] ++ closed_if (rs_will_close rs))%list.
Proof.
  destruct (_request demo_world (connected "example.test" 443 demo_cert) demo_post [])
    as [[r|x] e] eqn:E; pose proof E as E'; vm_compute in E'; [|discriminate E'].
  destruct (_request_json_body demo_world _ "https://example.test/post" "POST"
              (PyDict [("x", PyInt 1)]) ("{" ++ dq ++ "x" ++ dq ++ ": 1}") r e
              ltac:(vm_compute; reflexivity) E) as (url' & host & rs & Hrs & He).
  exists r, e, url', host, rs. split_and!; [reflexivity|exact Hrs|exact He].
Defined.

Lemma _request_get_default_witness :
  exists r e url' host rs,
    _request demo_world (connected "example.test" 443 demo_cert)
      (demo_params "https://example.test/get") [] = (Ret r, e) /\
    respond demo_world "example.test" 443
      (mk_request "GET" url' [("Host", host); ("Accept-Encoding", "identity")] None) = inr rs /\
    e = ([EvPutRequest "GET" url'; EvPutHeader "Host" host;
          EvPutHeader "Accept-Encoding" "identity"; EvEndHeaders None; EvSend []; EvGetResponse]
         ++ closed_if (rs_will_close rs))%list.
Proof.
  destruct (_request demo_world (connected "example.test" 443 demo_cert)
              (demo_params "https://example.test/get") [])
    as [[r|x] e] eqn:E; pose proof E as E'; vm_compute in E'; [|discriminate E'].
  destruct (_request_get_default demo_world _ "https://example.test/get" r e E)
    as (url' & host & rs & Hrs & He).
  exists r, e, url', host, rs. split_and!; [reflexivity|exact Hrs|exact He].
Defined.

End Exchange.
