(* ===== verification/Pipeline.v ===== *)
(** * The orchestrator's state machine, and [fetch] as a refinement of it

    The design of [fetch] is a pipeline of stages, each terminal on
    failure: [ParseTarget -> Connect -> CaptureCertificate ->
    SendRequest -> ClassifyStatus -> ParseBody -> Done], with the
    certificate fields and the raw body accumulated along the way.  This
    file states that machine as an inductive step relation [step] over
    [pstate], whose states carry the accumulator explicitly, and whose
    transitions are guarded by the contracts of the components it
    composes: [_parse_resource] for the target, the world's handshake
    for the connection, the DER bytes of the peer certificate,
    [_request] for the exchange, the [status] of the response details
    and [_parse_JSON] for the body.  A finished run yields an abstract
    [result]; [render] is the dictionary [return_] builds of it.

    The theorems: the machine's invariant by rule induction (from the
    capture on, the certificate fields are the base64 text and length
    of the certificate the handshake received), and the refinement:
    every value [fetch] returns is the rendering of a result the
    machine reaches.  The refinement is an inclusion: the machine also
    allows a target failure envelope and transport failures, which
    [fetch] never returns (it raises instead, see the findings). *)

From Stdlib Require Import ZArith String Lia.
From stdpp Require Import base list strings option.
From S2P Require Import Prelude PyStr PyVal Url Net Json Base64 Fetcher.

Open Scope string_scope.

Import PyVal Net Fetcher.

Module Pipeline.

(** The result of a finished run: the failure envelopes and the
    success, with what each one carries. *)
Inductive result : Type :=
| FailTarget (fe : pydict)
| FailConnect (fe : pydict)
| FailStatus (cert : string * Z) (raw : string) (details : pydict)
| FailParse (cert : string * Z) (raw : string) (err : pydict)
| Success (cert : string * Z) (raw : string) (fetched : pyval) (details : pydict).

(** The stages, each with the accumulator it has built. *)
Inductive pstate : Type :=
| ParseTarget
| Connect (host : string) (port : Z)
| CaptureCertificate (host : string) (port : Z) (pc : peer_cert)
| SendRequest (host : string) (port : Z) (pc : peer_cert) (cert : string * Z)
| ClassifyStatus (cert : string * Z) (raw : string) (details : pydict)
| ParseBody (cert : string * Z) (raw : string) (details : pydict)
| Done (cert : string * Z) (raw : string) (fetched : pyval) (details : pydict)
| Finished (r : result).

(** The certificate fields: [base64.b64encode(der)] and [len(der)]. *)
Definition cert_fields (pc : peer_cert) : string * Z :=
  (Base64.b64encode (der pc), Z.of_nat (length (der pc))).

(** The envelope of a result, as [return_] builds it. *)
Definition render (r : result) : pyval :=
  match r with
  | FailTarget fe => return_ None None None (Some 0%Z) PyNone fe
  | FailConnect fe => return_ None None None (Some 1%Z) PyNone fe
  | FailStatus (enc, len) raw details => return_ (Some enc) (Some len) (Some raw) None PyNone details
  | FailParse (enc, len) raw err => return_ (Some enc) (Some len) (Some raw) (Some 2%Z) PyNone err
  | Success (enc, len) raw v details => return_ (Some enc) (Some len) (Some raw) None v details
  end.

Section Machine.
Context (w : world) (params : pyval).

Inductive step : pstate -> pstate -> Prop :=
| st_target_fail fe :
    _parse_resource params = inr (None, None, Some fe) ->
    step ParseTarget (Finished (FailTarget fe))
| st_target_ok u host port :
    _parse_resource params = inr (Some u, Some port, None) -> Url.hostname u = Some host ->
    step ParseTarget (Connect host port)
| st_connect_fail host port fe :
    is_Some (first_disallowed host) \/ (exists msg, handshake w host port = inl msg) ->
    step (Connect host port) (Finished (FailConnect fe))
| st_connect_ok host port pc :
    handshake w host port = inr pc ->
    step (Connect host port) (CaptureCertificate host port pc)
| st_capture host port pc :
    step (CaptureCertificate host port pc) (SendRequest host port pc (cert_fields pc))
| st_send host port pc cert c' raw details ext :
    _request w (connected host port pc) params [] = (Ret (c', (raw, details)), ext) ->
    step (SendRequest host port pc cert) (ClassifyStatus cert raw details)
| st_status_fail cert raw details st :
    dict_lookup "status" details = Some (PyInt st) -> (400 <= st)%Z ->
    step (ClassifyStatus cert raw details) (Finished (FailStatus cert raw details))
| st_status_ok cert raw details st :
    dict_lookup "status" details = Some (PyInt st) -> (st < 400)%Z ->
    step (ClassifyStatus cert raw details) (ParseBody cert raw details)
| st_parse_fail cert raw details v err :
    _parse_JSON w (Some raw) = inr (v, Some err) ->
    step (ParseBody cert raw details) (Finished (FailParse cert raw err))
| st_parse_ok cert raw details v :
    _parse_JSON w (Some raw) = inr (v, None) ->
    step (ParseBody cert raw details) (Done cert raw v details)
| st_done cert raw v details :
    step (Done cert raw v details) (Finished (Success cert raw v details)).

End Machine.

#[export] Hint Constructors step : pyfetch.

(** The certificate fields of a state or a result, once captured. *)
Definition state_cert (s : pstate) : option (string * Z) :=
  match s with
  | SendRequest _ _ _ c | ClassifyStatus c _ _ | ParseBody c _ _ | Done c _ _ _ => Some c
  | Finished (FailStatus c _ _ | FailParse c _ _ | Success c _ _ _) => Some c
  | _ => None
  end.

(** The states the machine reaches from [ParseTarget]. *)
Inductive reachable (w : world) (params : pyval) : pstate -> Prop :=
| reach_init : reachable w params ParseTarget
| reach_step s s' : reachable w params s -> step w params s s' -> reachable w params s'.

#[export] Hint Constructors reachable : pyfetch.

(** ** The machine's invariant *)

Section Invariant.
Context (w : world) (params : pyval).

(** The certificate fields, once captured, are those of the certificate
    the handshake received. *)
Definition cert_inv (s : pstate) : Prop :=
  match s with
  | CaptureCertificate host port pc => handshake w host port = inr pc
  | SendRequest host port pc c => handshake w host port = inr pc /\ c = cert_fields pc
  | _ => True
  end /\
  forall c, state_cert s = Some c ->
    exists host port pc, handshake w host port = inr pc /\ c = cert_fields pc.

Lemma reachable_cert_inv s : reachable w params s -> cert_inv s.
Proof.
  induction 1 as [|s s' _ [IH1 IH2] Hs]; [split; [done|discriminate]|].
  destruct Hs; simpl in *; split; try done; intros c [= <-]; eauto.
Qed.

(** The target a state's endpoint comes from. *)
Definition target_of (host : string) (port : Z) : Prop :=
  exists u, _parse_resource params = inr (Some u, Some port, None) /\ Url.hostname u = Some host.

(** The raw body of a state or a result, once read. *)
Definition state_raw (s : pstate) : option string :=
  match s with
  | ClassifyStatus _ r _ | ParseBody _ r _ | Done _ r _ _ => Some r
  | Finished (FailStatus _ r _ | FailParse _ r _ | Success _ r _ _) => Some r
  | _ => None
  end.

(** Once read, the raw body is what [_request] returned on a connection
    to the target. *)
Definition raw_inv (s : pstate) : Prop :=
  match s with
  | Connect host port | CaptureCertificate host port _ | SendRequest host port _ _ =>
      target_of host port
  | _ => True
  end /\
  forall raw, state_raw s = Some raw ->
    exists host port pc c' details ext, target_of host port /\
      _request w (connected host port pc) params [] = (Ret (c', (raw, details)), ext).

Lemma reachable_raw_inv s : reachable w params s -> raw_inv s.
Proof.
  induction 1 as [|s s' _ [IH1 IH2] Hs]; [split; [done|discriminate]|].
  destruct Hs; simpl in *; split; try done; try (intros r [= <-]); eauto 10.
  by exists u.
Qed.
End Invariant.

(** ** [fetch] refines the machine *)

Section Refinement.
Context (w : world) (self : fetcher).

(** From the certificate on, [fetch_exchange] returns the rendering of a
    result the machine reaches from the capture. *)
Lemma fetch_exchange_refines params u (port : option Z) host p pc h :
  reachable w params (CaptureCertificate host p pc) ->
  returns_only (fun v => exists r, reachable w params (Finished r) /\ v = render r)
    (fetch_exchange w self params u port (connected host p pc) h).
Proof.
  intros Hc. unfold fetch_exchange.
  eapply bind_returns_with; [apply get_peer_certificate_returns|].
  intros [enc len] (pc' & [= <-] & -> & ->).
  eapply bind_returns_with; [apply framed_returns, _request_framed|].
  intros [c' [raw details]] [ext Hr]. cbn beta iota.
  pose proof (reach_step _ _ _ _ (reach_step _ _ _ _ Hc (st_capture w params host p pc))
                (st_send _ _ _ _ _ _ _ _ _ _ Hr)) as Hs.
  apply bind_returns. intros _.
  destruct (dict_lookup "status" details) as [[]|] eqn:Hst; try apply raise_returns.
  destruct (Z.leb_spec 400 z).
  - apply ret_returns. exists (FailStatus (cert_fields pc) raw details).
    split; [eauto with pyfetch|reflexivity].
  - eapply bind_returns_with; [apply of_sum_returns|]. intros [fo [fe|]] Hj.
    + apply ret_returns. exists (FailParse (cert_fields pc) raw fe).
      split; [eauto 6 with pyfetch|reflexivity].
    + apply bind_returns. intros ?. apply bind_returns. intros _.
      apply ret_returns. exists (Success (cert_fields pc) raw fo details).
      split; [eauto 7 with pyfetch|reflexivity].
Qed.

(** Every value [fetch] returns renders a result the machine reaches. *)
Lemma fetch_results_reachable params h :
  returns_only (fun v => exists r, reachable w params (Finished r) /\ v = render r)
    (fetch w self params h).
Proof.
  unfold fetch. eapply bind_returns_with; [apply of_sum_returns|].
  intros [[[u|] port] fe] Hp; cbn beta iota; [|apply raise_returns].
  apply bind_returns. intros _.
  destruct (_parse_resource_target _ _ _ _ Hp) as (-> & host & p & Hh & _ & ->).
  rewrite Hh. cbn [fmt_str default].
  pose proof (reach_step _ _ _ _ (reach_init w params) (st_target_ok _ _ _ _ _ Hp Hh)) as Hc.
  eapply bind_returns_with; [apply _connect_returns|]. intros [[c|] [fe|]] Hk; try contradiction.
  - destruct Hk as (pc & -> & Hk).
    exact (fetch_exchange_refines _ _ _ _ _ _ _ (reach_step _ _ _ _ Hc (st_connect_ok _ _ _ _ _ Hk))).
  - apply ret_returns. exists (FailConnect fe). split; [eauto with pyfetch|reflexivity].
Qed.

(** C3. [fetch] refines the orchestrator's state machine: every value
    it returns is the envelope [render] builds of a result the machine
    reaches from [ParseTarget], through the stages in their order, each
    guarded by its component's contract. *)
Theorem fetch_refines_pipeline params h tr v tr' :
  fetch w self params h tr = (Ret v, tr') ->
  exists r, reachable w params (Finished r) /\ v = render r.
Proof. apply fetch_results_reachable. Qed.

Lemma render_raw r : getitem (render r) "fetchedRaw" = inr (opt_str (state_raw (Finished r))).
Proof. destruct r as [| |[] ? ?|[] ? ?|[] ? v ?]; simpl; try destruct v; reflexivity. Qed.

(** C8. The raw body is reported unmodified: whenever [fetch] returns a
    result whose [fetchedRaw] is a string, its UTF-8 bytes are exactly
    the body of the server's answer to a request on the resource's host
    and port, on every returning path (success, status 400 or more,
    parse error). *)
Theorem fetch_raw_roundtrip params h tr v tr' raw :
  fetch w self params h tr = (Ret v, tr') ->
  getitem v "fetchedRaw" = inr (PyStr raw) ->
  exists u host port rq rs,
    _parse_resource params = inr (Some u, Some port, None) /\ Url.hostname u = Some host /\
    respond w host port rq = inr rs /\ PyStr.encode_utf8 raw = rs_body rs.
Proof.
  intros Hf Hraw. destruct (fetch_results_reachable params h tr v tr' Hf) as (r & Hr & ->).
  rewrite render_raw in Hraw.
  destruct (state_raw (Finished r)) as [raw'|] eqn:Es; [|discriminate]. injection Hraw as <-.
  destruct (proj2 (reachable_raw_inv _ _ _ Hr) raw' Es)
    as (host & port & pc & c' & d & ext & (u & Hp & Hh) & Hq).
  destruct (_request_returns w (connected host port pc) params [] _ _ Hq) as (rq & rs & Hrs & He & _).
  by exists u, host, port, rq, rs.
Qed.
End Refinement.

(** ** The refinement at a concrete run *)

Lemma fetch_refines_pipeline_witness :
  exists v tr',
    fetch demo_world demo_fetcher (demo_params "https://example.test/get") false [] = (Ret v, tr')
    /\ exists r, reachable demo_world (demo_params "https://example.test/get") (Finished r)
                 /\ v = render r.
Proof.
  destruct (fetch demo_world demo_fetcher (demo_params "https://example.test/get") false [])
    as [[v|x] tr'] eqn:E; pose proof E as E'; vm_compute in E'; [|discriminate E'].
  do 2 eexists. split; [reflexivity|].
  exact (fetch_refines_pipeline demo_world demo_fetcher _ _ _ _ _ E).
Defined.

Lemma fetch_raw_roundtrip_witness :
  exists v tr' raw,
    fetch demo_world demo_fetcher (demo_params "https://example.test/status/404") false []
      = (Ret v, tr')
    /\ getitem v "fetchedRaw" = inr (PyStr raw)
    /\ exists u host port rq rs,
         _parse_resource (demo_params "https://example.test/status/404") = inr (Some u, Some port, None)
         /\ Url.hostname u = Some host /\ respond demo_world host port rq = inr rs
         /\ PyStr.encode_utf8 raw = rs_body rs.
Proof.
  destruct (fetch demo_world demo_fetcher (demo_params "https://example.test/status/404") false [])
    as [[v|x] tr'] eqn:E; pose proof E as E'; vm_compute in E'; [|discriminate E'].
  injection E' as Hv _.
  assert (Hr : getitem v "fetchedRaw" = inr (PyStr "Not Found"))
    by (rewrite <- Hv; vm_compute; reflexivity).
  do 3 eexists. split; [reflexivity|]. split; [exact Hr|].
  exact (fetch_raw_roundtrip demo_world demo_fetcher _ _ _ _ _ _ E Hr).
Defined.

End Pipeline.
